(** * netlog: hook registry and event classifier of [src/netlog/probes.c]

    A shallow embedding of the probe registry ([plant_probes],
    [unplant_probes], [probes_init], the two module-parameter setters) and
    of the event classifier ([log_if_not_whitelisted], [pre_sys_close]),
    followed by the properties of the specification that concern them.

    C integers are [Z] with the wrap-around written out; the bit operators
    are [Z.land], [Z.lor], [Z.lxor], [Z.lnot], [Z.shiftl].  The spin lock
    [probe_lock] serialises the registry functions, so each of them is
    modelled as one sequential state transformer. *)

From Stdlib Require Import ZArith List String Bool Lia.
Import ListNotations.
Local Open Scope Z_scope.

(** ** C integer conventions *)

(** A value stored in a [u32]. *)
Definition u32 (x : Z) : Z := x mod 2 ^ 32.

(** A value stored in an [unsigned long] (x86_64). *)
Definition ulong (x : Z) : Z := x mod 2 ^ 64.

(** A C scalar used as a condition: true when it is not zero. *)
Definition c_true (x : Z) : bool := negb (x =? 0).

(** ** Constants *)

(** [netlog.h] *)
Definition CONNECT_PROBE_FAILED : Z := -1.
Definition ACCEPT_PROBE_FAILED : Z := -2.
Definition BIND_PROBE_FAILED : Z := -4.
Definition WHITELISTING : Z := 1.
Definition MAX_EXEC_PATH : Z := 64.

(** [whitelist.h] *)
Definition WHITELISTED : Z := 1.
Definition NOT_WHITELISTED : Z := 0.

(** errno of [one_probe_param_set] when [kp->arg] is NULL. *)
Definition EBADF : Z := 9.

(** Modelled from the spec: [probes.h], which declares the enumeration of
    probe identifiers, is not part of the sources.  The spec lists the six
    probe kinds in the order of [probe_list] and puts TCP_CONNECT at bit 0
    ([0b000001]). *)
Definition PROBE_TCP_CONNECT : Z := 0.
Definition PROBE_TCP_ACCEPT : Z := 1.
Definition PROBE_TCP_CLOSE : Z := 2.
Definition PROBE_UDP_CONNECT : Z := 3.
Definition PROBE_UDP_BIND : Z := 4.
Definition PROBE_UDP_CLOSE : Z := 5.

(** [struct probes], the entries of [probe_list]. *)
Record probes : Type := { name : string; mask : Z }.

Definition probe_list : list probes :=
  [ {| name := "tcp_connect"; mask := Z.shiftl 1 PROBE_TCP_CONNECT |};
    {| name := "tcp_accept";  mask := Z.shiftl 1 PROBE_TCP_ACCEPT |};
    {| name := "tcp_close";   mask := Z.shiftl 1 PROBE_TCP_CLOSE |};
    {| name := "udp_connect"; mask := Z.shiftl 1 PROBE_UDP_CONNECT |};
    {| name := "udp_bind";    mask := Z.shiftl 1 PROBE_UDP_BIND |};
    {| name := "udp_close";   mask := Z.shiftl 1 PROBE_UDP_CLOSE |} ].

(** The six logical probe kinds, named after the entries of [probe_list]. *)
Inductive probe_kind : Type :=
  | tcp_connect | tcp_accept | tcp_close | udp_connect | udp_bind | udp_close.

Definition probe_bit (k : probe_kind) : Z :=
  match k with
  | tcp_connect => PROBE_TCP_CONNECT
  | tcp_accept => PROBE_TCP_ACCEPT
  | tcp_close => PROBE_TCP_CLOSE
  | udp_connect => PROBE_UDP_CONNECT
  | udp_bind => PROBE_UDP_BIND
  | udp_close => PROBE_UDP_CLOSE
  end.

(** The entry of [probe_list] a boolean module parameter points to. *)
Definition probe_entry (k : probe_kind) : probes :=
  nth (Z.to_nat (probe_bit k)) probe_list {| name := ""; mask := 0 |}.

(** ** The instrumentation subsystem *)

(** The five static probe definitions of the file. *)
Inductive hook : Type :=
  | stream_connect_kretprobe
  | dgram_connect_kretprobe
  | accept_kretprobe
  | close_jprobe
  | bind_kretprobe.

Definition hook_eqb (a b : hook) : bool :=
  match a, b with
  | stream_connect_kretprobe, stream_connect_kretprobe
  | dgram_connect_kretprobe, dgram_connect_kretprobe
  | accept_kretprobe, accept_kretprobe
  | close_jprobe, close_jprobe
  | bind_kretprobe, bind_kretprobe => true
  | _, _ => false
  end.

(** Modelled from the spec: [../lib/probes_helper.h] with [plant_kretprobe],
    [plant_jprobe], [unplant_kretprobe] and [unplant_jprobe] is not part of
    the sources.  The spec gives the primitives as
    [plant(point) -> Result<(), PlatformError>] and [unplant(point)]; in C
    the result is an [int], 0 on success and a negative errno on failure. *)
Inductive plant_result : Type :=
  | PlantOk
  | PlantFailed (errno : positive).

Definition plant_errno (r : plant_result) : Z :=
  match r with
  | PlantOk => 0
  | PlantFailed e => Z.neg e
  end.

(** One call of a plant/unplant primitive, as a test double records it. *)
Inductive kprobe_call : Type :=
  | Plant (h : hook) (r : plant_result)
  | Unplant (h : hook).

(** Whether a hook is physically registered after a history of calls. *)
Definition planted_step (h : hook) (st : bool) (c : kprobe_call) : bool :=
  match c with
  | Plant h' PlantOk => if hook_eqb h h' then true else st
  | Plant _ (PlantFailed _) => st
  | Unplant h' => if hook_eqb h h' then false else st
  end.

Definition planted (log : list kprobe_call) (h : hook) : bool :=
  fold_left (planted_step h) log false.

Definition is_plant (h : hook) (c : kprobe_call) : bool :=
  match c with
  | Plant h' _ => hook_eqb h h'
  | Unplant _ => false
  end.

Definition is_unplant (h : hook) (c : kprobe_call) : bool :=
  match c with
  | Plant _ _ => false
  | Unplant h' => hook_eqb h h'
  end.

Definition plant_ok (c : kprobe_call) : bool :=
  match c with
  | Plant _ (PlantFailed _) => false
  | _ => true
  end.

(** Number of plant (resp. unplant) calls for [h] in a list of calls. *)
Definition plants (h : hook) (l : list kprobe_call) : nat :=
  List.length (filter (is_plant h) l).

Definition unplants (h : hook) (l : list kprobe_call) : nat :=
  List.length (filter (is_unplant h) l).

(** ** The registry state: the static variables of the file *)

Record registry : Type := {
  initialized : Z;               (* static u8 initialized *)
  loaded_probes : Z;             (* static u32 loaded_probes *)
  kprobe_log : list kprobe_call  (* calls made to the plant/unplant primitives *)
}.

(** Static storage is zero-initialised. *)
Definition registry_boot : registry :=
  {| initialized := 0; loaded_probes := 0; kprobe_log := [] |}.

Definition set_initialized (v : Z) (s : registry) : registry :=
  {| initialized := v; loaded_probes := loaded_probes s; kprobe_log := kprobe_log s |}.

Definition set_loaded_probes (v : Z) (s : registry) : registry :=
  {| initialized := initialized s; loaded_probes := v; kprobe_log := kprobe_log s |}.

Definition record_call (c : kprobe_call) (s : registry) : registry :=
  {| initialized := initialized s; loaded_probes := loaded_probes s;
     kprobe_log := kprobe_log s ++ [c] |}.

(** The calls a function added to the log of [s] to reach [s']. *)
Definition issued (s s' : registry) : list kprobe_call :=
  skipn (List.length (kprobe_log s)) (kprobe_log s').

(** ** A small monad for C functions with early [return] *)

Inductive flow (A : Type) : Type :=
  | Next (a : A) (s : registry)       (* fall through to the next statement *)
  | Return (ret : Z) (s : registry).  (* [return ret;] or [goto fail] *)
Arguments Next {A} a s.
Arguments Return {A} ret s.

Definition kern (A : Type) : Type := registry -> flow A.

Definition pure {A} (a : A) : kern A := fun s => Next a s.

Definition bind {A B} (m : kern A) (k : A -> kern B) : kern B :=
  fun s => match m s with
           | Next a s' => k a s'
           | Return r s' => Return r s'
           end.

Definition return_ {A} (r : Z) : kern A := fun s => Return r s.

(** Read a static variable. *)
Definition gets {A} (f : registry -> A) : kern A := fun s => Next (f s) s.

(** Update the state. *)
Definition modify (f : registry -> registry) : kern unit := fun s => Next tt (f s).

(** The body of a function returning [int]. *)
Definition body (m : kern Z) (s : registry) : Z * registry :=
  match m s with
  | Next a s' => (a, s')
  | Return r s' => (r, s')
  end.

(** Call of a function returning [int]. *)
Definition call (f : registry -> Z * registry) : kern Z :=
  fun s => let (r, s') := f s in Next r s'.

Declare Scope kern_scope.
Delimit Scope kern_scope with kern.
Notation "x <- m ;; k" := (bind m (fun x => k))
  (at level 61, m at next level, right associativity) : kern_scope.
Notation "m ;; k" := (bind m (fun _ => k))
  (at level 61, right associativity) : kern_scope.
Local Open Scope kern_scope.

Section Netlog.

#[local] Set Default Proof Using "Type".

(** The instrumentation subsystem decides the outcome of each plant from the
    history of calls and the hook: an arbitrary deterministic environment. *)
Variable kprobes : list kprobe_call -> hook -> plant_result.

(** [kstrtoul(buf, base, &value)]: the return code and the parsed value. *)
Variable kstrtoul : string -> Z -> Z * Z.

(** [DEFAULT_PROBES] and [CLOSE_PROBE_FAILED] are used by the file and
    defined in headers that are not part of the sources. *)
Variable DEFAULT_PROBES : Z.
Variable CLOSE_PROBE_FAILED : Z.

(** Modelled from the spec: [plant_kretprobe] of the missing
    [probes_helper.h], [plant(point) -> Result<(), PlatformError>]: the
    subsystem is asked, the call is recorded, the [int] result is returned. *)
Definition plant_kretprobe (h : hook) : kern Z :=
  fun s => let r := kprobes (kprobe_log s) h in
           Next (plant_errno r) (record_call (Plant h r) s).

(** Modelled from the spec: [plant_jprobe] of the missing [probes_helper.h],
    the same primitive for the jprobe. *)
Definition plant_jprobe (h : hook) : kern Z := plant_kretprobe h.

(** Modelled from the spec: [unplant_kretprobe] of the missing
    [probes_helper.h], [unplant(point)]: the call is recorded. *)
Definition unplant_kretprobe (h : hook) (s : registry) : registry :=
  record_call (Unplant h) s.

(** Modelled from the spec: [unplant_jprobe] of the missing
    [probes_helper.h], the same primitive for the jprobe. *)
Definition unplant_jprobe (h : hook) (s : registry) : registry :=
  unplant_kretprobe h s.

(** [static void unplant_probes(u32 removed_probes)] *)
Definition unplant_probes (removed_probes : Z) (s : registry) : registry :=
  let s := set_loaded_probes (Z.lxor (loaded_probes s) removed_probes) s in
  let s := if c_true (Z.land removed_probes (Z.shiftl 1 PROBE_TCP_CONNECT))
           then unplant_kretprobe stream_connect_kretprobe s else s in
  let s := if c_true (Z.land removed_probes (Z.shiftl 1 PROBE_TCP_ACCEPT))
           then unplant_kretprobe accept_kretprobe s else s in
  let s := if c_true (Z.land removed_probes
                        (Z.lor (Z.shiftl 1 PROBE_TCP_CLOSE) (Z.shiftl 1 PROBE_UDP_CLOSE)))
           then
             if negb (c_true (Z.land (loaded_probes s)
                                (Z.lor (Z.shiftl 1 PROBE_TCP_CLOSE) (Z.shiftl 1 PROBE_UDP_CLOSE))))
             then unplant_jprobe close_jprobe s else s
           else s in
  let s := if c_true (Z.land removed_probes (Z.shiftl 1 PROBE_UDP_CONNECT))
           then unplant_kretprobe dgram_connect_kretprobe s else s in
  let s := if c_true (Z.land removed_probes (Z.shiftl 1 PROBE_UDP_BIND))
           then unplant_kretprobe bind_kretprobe s else s in
  s.

(** [void unplant_all(void)] *)
Definition unplant_all (s : registry) : registry :=
  unplant_probes (loaded_probes s) s.

(** [loaded_probes |= m;] *)
Definition loaded_probes_or (m : Z) : kern unit :=
  modify (fun s => set_loaded_probes (Z.lor (loaded_probes s) m) s).

(** [static int plant_probes(u32 new_probes)] *)
Definition plant_probes (new_probes : Z) : registry -> Z * registry :=
  body (
    err <- pure 0 ;;
    err <- (if c_true (Z.land new_probes (Z.shiftl 1 PROBE_TCP_CONNECT)) then
              err <- plant_kretprobe stream_connect_kretprobe ;;
              if err <? 0 then return_ (- CONNECT_PROBE_FAILED) else
              loaded_probes_or (Z.shiftl 1 PROBE_TCP_CONNECT) ;;
              pure err
            else pure err) ;;
    err <- (if c_true (Z.land new_probes (Z.shiftl 1 PROBE_TCP_ACCEPT)) then
              err <- plant_kretprobe accept_kretprobe ;;
              if err <? 0 then return_ (- ACCEPT_PROBE_FAILED) else
              loaded_probes_or (Z.shiftl 1 PROBE_TCP_ACCEPT) ;;
              pure err
            else pure err) ;;
    err <- (if c_true (Z.land new_probes (Z.shiftl 1 PROBE_TCP_CLOSE)) then
              loaded <- gets loaded_probes ;;
              err <- (if negb (c_true (Z.land loaded (Z.shiftl 1 PROBE_UDP_CLOSE))) then
                        err <- plant_jprobe close_jprobe ;;
                        if err <? 0 then return_ (- CLOSE_PROBE_FAILED) else pure err
                      else pure err) ;;
              loaded_probes_or (Z.shiftl 1 PROBE_TCP_CLOSE) ;;
              pure err
            else pure err) ;;
    err <- (if c_true (Z.land new_probes (Z.shiftl 1 PROBE_UDP_CONNECT)) then
              err <- plant_kretprobe dgram_connect_kretprobe ;;
              if c_true err then return_ (- CONNECT_PROBE_FAILED) else
              loaded_probes_or (Z.shiftl 1 PROBE_UDP_CONNECT) ;;
              pure err
            else pure err) ;;
    err <- (if c_true (Z.land new_probes (Z.shiftl 1 PROBE_UDP_BIND)) then
              err <- plant_kretprobe bind_kretprobe ;;
              if err <? 0 then return_ (- BIND_PROBE_FAILED) else
              loaded_probes_or (Z.shiftl 1 PROBE_UDP_BIND) ;;
              pure err
            else pure err) ;;
    err <- (if c_true (Z.land new_probes (Z.shiftl 1 PROBE_UDP_CLOSE)) then
              loaded <- gets loaded_probes ;;
              err <- (if negb (c_true (Z.land loaded (Z.shiftl 1 PROBE_TCP_CLOSE))) then
                        err <- plant_jprobe close_jprobe ;;
                        if err <? 0 then return_ (- CLOSE_PROBE_FAILED) else pure err
                      else pure err) ;;
              loaded_probes_or (Z.shiftl 1 PROBE_UDP_CLOSE) ;;
              pure err
            else pure err) ;;
    return_ err).

(** [int probes_init(void)] *)
Definition probes_init : registry -> Z * registry :=
  body (
    ret <- pure 0 ;;
    init <- gets initialized ;;
    ret <- (if negb (init =? 0) then
              ret <- call (plant_probes DEFAULT_PROBES) ;;
              (if ret >=? 0 then modify (set_initialized 1) else pure tt) ;;
              pure ret
            else pure ret) ;;
    return_ ret).

(** [all_probes_param_set(const char *buf, const struct kernel_param *kp)] *)
Definition all_probes_param_set (buf : string) : registry -> Z * registry :=
  body (
    let (ret, value) := kstrtoul buf 16 in
    let wanted_probes := ulong value in
    if ret <? 0 then return_ ret else
    init <- gets initialized ;;
    (if negb (init =? 0) then
       ret <- call (plant_probes DEFAULT_PROBES) ;;
       if ret <? 0 then return_ ret else
       modify (set_initialized 1)
     else pure tt) ;;
    loaded <- gets loaded_probes ;;
    let probes_to_add := u32 (Z.land wanted_probes (u32 (Z.lnot loaded))) in
    let probes_to_remove := u32 (Z.land (ulong (Z.lnot wanted_probes)) loaded) in
    modify (unplant_probes probes_to_remove) ;;
    ret <- call (plant_probes probes_to_add) ;;
    return_ ret).

(** [one_probe_param_set(const char *buf, const struct kernel_param *kp)];
    [probe] is [kp->arg], [None] when it is NULL. *)
Definition one_probe_param_set (probe : option probes) (buf : string)
  : registry -> Z * registry :=
  body (
    match probe with
    | None => return_ (- EBADF)
    | Some probe =>
      let (ret, value) := kstrtoul buf 0 in
      let value := ulong value in
      if ret <? 0 then return_ ret else
      ret <- pure 0 ;;
      init <- gets initialized ;;
      ret <- (if negb (init =? 0) then
                ret <- call (plant_probes DEFAULT_PROBES) ;;
                if ret <? 0 then return_ ret else
                modify (set_initialized 1) ;;
                pure ret
              else pure ret) ;;
      loaded <- gets loaded_probes ;;
      ret <- (if c_true value then
                if c_true (Z.land (mask probe) (u32 (Z.lnot loaded)))
                then call (plant_probes (mask probe))
                else pure ret
              else
                (if c_true (Z.land (mask probe) loaded)
                 then modify (unplant_probes (mask probe))
                 else pure tt) ;;
                pure ret) ;;
      return_ ret
    end).

(** [all_probes_param_get] prints [loaded_probes]; [one_probe_param_get]
    prints [!!(probe->mask & loaded_probes)]. *)
Definition all_probes_param_get (s : registry) : Z := loaded_probes s.

Definition one_probe_param_get (probe : probes) (s : registry) : Z :=
  if c_true (Z.land (mask probe) (loaded_probes s)) then 1 else 0.


(** ** Requests of the administrative layer *)

(** The entry points through which the registry is driven: module
    initialisation, the hexadecimal [probes] parameter, the six boolean
    parameters (each bound to its entry of [probe_list]) and teardown. *)
Inductive request : Type :=
  | ReqInit
  | ReqAllProbes (buf : string)
  | ReqOneProbe (k : probe_kind) (buf : string)
  | ReqUnplantAll.

Definition exec (r : request) (s : registry) : registry :=
  match r with
  | ReqInit => snd (probes_init s)
  | ReqAllProbes buf => snd (all_probes_param_set buf s)
  | ReqOneProbe k buf => snd (one_probe_param_set (Some (probe_entry k)) buf s)
  | ReqUnplantAll => unplant_all s
  end.

Definition run (reqs : list request) (s : registry) : registry :=
  fold_left (fun s r => exec r s) reqs s.

(** ** Reading [plant_probes] stanza by stanza *)

(** The hook each stanza of [plant_probes] plants. *)
Definition probe_hook (k : probe_kind) : hook :=
  match k with
  | tcp_connect => stream_connect_kretprobe
  | tcp_accept => accept_kretprobe
  | tcp_close => close_jprobe
  | udp_connect => dgram_connect_kretprobe
  | udp_bind => bind_kretprobe
  | udp_close => close_jprobe
  end.

(** The other probe kind served by the same hook, if any. *)
Definition sibling (k : probe_kind) : option probe_kind :=
  match k with
  | tcp_close => Some udp_close
  | udp_close => Some tcp_close
  | _ => None
  end.

(** The test each stanza applies to the result of the plant. *)
Definition plant_failed (k : probe_kind) (err : Z) : bool :=
  match k with
  | udp_connect => c_true err
  | _ => err <? 0
  end.

(** The value each stanza returns when its plant fails: the error constant
    of the family of the probe kind, negated. *)
Definition failure_code (k : probe_kind) : Z :=
  match k with
  | tcp_connect | udp_connect => - CONNECT_PROBE_FAILED
  | tcp_accept => - ACCEPT_PROBE_FAILED
  | tcp_close | udp_close => - CLOSE_PROBE_FAILED
  | udp_bind => - BIND_PROBE_FAILED
  end.

Definition probe_loaded (k : probe_kind) (s : registry) : bool :=
  Z.testbit (loaded_probes s) (probe_bit k).

Definition requested (k : probe_kind) (m : Z) : bool :=
  Z.testbit m (probe_bit k).

Definition sibling_loaded (k : probe_kind) (s : registry) : bool :=
  match sibling k with
  | Some k' => probe_loaded k' s
  | None => false
  end.

(** One stanza of [plant_probes], for the probe kind [k]. *)
Definition plant_one (new_probes : Z) (k : probe_kind) (err : Z) : kern Z :=
  if requested k new_probes then
    shared <- gets (sibling_loaded k) ;;
    err <- (if negb shared then
              err <- plant_kretprobe (probe_hook k) ;;
              if plant_failed k err then return_ (failure_code k) else pure err
            else pure err) ;;
    loaded_probes_or (Z.shiftl 1 (probe_bit k)) ;;
    pure err
  else pure err.

(** The stanzas in the order of the source. *)
Definition plant_order : list probe_kind :=
  [tcp_connect; tcp_accept; tcp_close; udp_connect; udp_bind; udp_close].

Fixpoint plant_loop (ks : list probe_kind) (new_probes : Z) (err : Z) : kern Z :=
  match ks with
  | [] => return_ err
  | k :: ks' => err <- plant_one new_probes k err ;; plant_loop ks' new_probes err
  end.

(** ** The registry invariant *)

(** The bits of [loaded_probes] a hook serves. *)
Definition hook_mask (h : hook) : Z :=
  match h with
  | stream_connect_kretprobe => Z.shiftl 1 PROBE_TCP_CONNECT
  | accept_kretprobe => Z.shiftl 1 PROBE_TCP_ACCEPT
  | close_jprobe => Z.lor (Z.shiftl 1 PROBE_TCP_CLOSE) (Z.shiftl 1 PROBE_UDP_CLOSE)
  | dgram_connect_kretprobe => Z.shiftl 1 PROBE_UDP_CONNECT
  | bind_kretprobe => Z.shiftl 1 PROBE_UDP_BIND
  end.

(** [(loaded_probes & hook_mask(h)) != 0] *)
Definition in_use (h : hook) (loaded : Z) : bool :=
  c_true (Z.land loaded (hook_mask h)).

(** Mask of the six probe kinds. *)
Definition ALL_PROBES : Z := 63.

Record consistent (s : registry) : Prop := {
  cons_uninit : initialized s = 0;
  cons_range : 0 <= loaded_probes s <= ALL_PROBES;
  cons_hooks : forall h, planted (kprobe_log s) h = in_use h (loaded_probes s)
}.

(** * The event classifier *)

Definition AF_INET : Z := 2.
Definition AF_INET6 : Z := 10.
Definition IPPROTO_TCP : Z := 6.
Definition IPPROTO_UDP : Z := 17.

(** [KERNEL_VERSION(a, b, c)] *)
Definition KERNEL_VERSION (a b c : Z) : Z := Z.shiftl a 16 + Z.shiftl b 8 + c.

(** [ntohs] on x86, a little-endian machine: the two bytes are swapped. *)
Definition ntohs (x : Z) : Z :=
  Z.lor (Z.shiftl (Z.land x 255) 8) (Z.land (Z.shiftr x 8) 255).

(** Modelled from the spec: [log.h], which defines [PROTO_TCP], [PROTO_UDP]
    and the [ACTION_*] constants, is not part of the sources.  The spec
    gives the protocol of a record as one of TCP, UDP and its action as one
    of CONNECT, ACCEPT, CLOSE, BIND. *)
Inductive protocol : Type := PROTO_TCP | PROTO_UDP.
Inductive action : Type := ACTION_CONNECT | ACTION_ACCEPT | ACTION_CLOSE | ACTION_BIND.

(** The address an [src_ip]/[dst_ip] pointer designates; NULL is [None]. *)
Inductive ip_addr : Type :=
  | In4 (a : Z)    (* a [__be32] field of [struct inet_sock] *)
  | In6 (a : Z).   (* a [struct in6_addr] field *)

(** The fields of [struct sock] (with its [inet_sock] and [ipv6_pinfo]) the
    file reads. *)
Record sock : Type := {
  sk_family : Z;
  sk_protocol : Z;
  DPORT : Z;               (* __be16, network byte order *)
  SPORT : Z;               (* __be16, network byte order *)
  DADDR : Z;
  SADDR : Z;
  sk_v6_daddr : Z;
  inet6_daddr : Z;         (* inet6_sk(sk)->daddr *)
  inet6_saddr : Z          (* inet6_sk(sk)->saddr *)
}.

Record socket : Type := { sk : option sock }.

Record file : Type := { f_path : string }.
Record mm_struct : Type := { exe_file : option file }.
Record task_struct : Type := { mm : option mm_struct }.

(** The calls the classifier makes to its collaborators. *)
Inductive effect : Type :=
  | IsWhitelisted (path : string) (family : Z) (ip : option ip_addr) (port : Z)
  | StoreNetlogRecord (path : string) (act : action) (proto : protocol) (family : Z)
      (src_ip : option ip_addr) (src_port : Z)
      (dst_ip : option ip_addr) (dst_port : Z)
  | SockfdPut (so : socket).

Definition is_store (e : effect) : bool :=
  match e with
  | StoreNetlogRecord _ _ _ _ _ _ _ _ => true
  | _ => false
  end.

Definition is_gate (e : effect) : bool :=
  match e with
  | IsWhitelisted _ _ _ _ => true
  | _ => false
  end.

(** The records handed to the log sink. *)
Definition stored (l : list effect) : list effect := filter is_store l.

Definition is_store_of (p : protocol) (e : effect) : bool :=
  match e, p with
  | StoreNetlogRecord _ _ PROTO_TCP _ _ _ _ _, PROTO_TCP => true
  | StoreNetlogRecord _ _ PROTO_UDP _ _ _ _ _, PROTO_UDP => true
  | _, _ => false
  end.

(** [current], NULL when [None]. *)
Variable current : option task_struct.

(** [d_path]: the path, or an [ERR_PTR] carrying an errno. *)
Variable d_path : string -> Z -> string + Z.

(** The whitelist gate of [whitelist.h]. *)
Variable is_whitelisted : string -> Z -> option ip_addr -> Z -> Z.

(** [sockfd_lookup(fd, &err)], NULL when [None]. *)
Variable sockfd_lookup : Z -> option socket.

Variable LINUX_VERSION_CODE : Z.

(** [static char *path_from_mm(struct mm_struct *mm, char *buffer, int length)] *)
Definition path_from_mm (mm : option mm_struct) (length : Z) : option string :=
  match mm with
  | None => None
  | Some mm =>
    match exe_file mm with
    | None => None
    | Some f =>
      match d_path (f_path f) length with
      | inl p => Some p
      | inr _ => None
      end
    end
  end.

(** [current->mm]; every probe tests [current != NULL] or runs in process
    context before it gets here. *)
Definition current_mm : option mm_struct :=
  match current with
  | Some t => mm t
  | None => None
  end.

(** The [switch (family)] of [log_if_not_whitelisted]: the pair
    [(dst_ip, src_ip)]. *)
Definition sock_addresses (sk : sock) : option ip_addr * option ip_addr :=
  let family := sk_family sk in
  if family =? AF_INET then (Some (In4 (DADDR sk)), Some (In4 (SADDR sk)))
  else if family =? AF_INET6 then
    (if LINUX_VERSION_CODE >? KERNEL_VERSION 3 13 0
     then Some (In6 (sk_v6_daddr sk)) else Some (In6 (inet6_daddr sk)),
     Some (In6 (inet6_saddr sk)))
  else (None, None).

(** [static void log_if_not_whitelisted(struct socket *sock, u8 protocol, u8 action)];
    [sock] and [sock->sk] are not NULL, so the argument is [sock->sk]. *)
Definition log_if_not_whitelisted (sk : sock) (proto : protocol) (act : action)
  : list effect :=
  match path_from_mm current_mm MAX_EXEC_PATH with
  | None => []
  | Some path =>
    let family := sk_family sk in
    let dst_port := ntohs (DPORT sk) in
    let src_port := ntohs (SPORT sk) in
    let dst_ip := fst (sock_addresses sk) in
    let src_ip := snd (sock_addresses sk) in
    let record :=
      StoreNetlogRecord path act proto family src_ip src_port dst_ip dst_port in
    if c_true WHITELISTING then
      IsWhitelisted path family dst_ip dst_port ::
      (if c_true (is_whitelisted path family dst_ip dst_port) then [] else [record])
    else [record]
  end.

(** [asmlinkage static long pre_sys_close(unsigned int fd)] *)
Definition pre_sys_close (s : registry) (fd : Z) : Z * list effect :=
  let sock := sockfd_lookup fd in
  let logged :=
    match current, sock with
    | Some _, Some so =>
      match sk so with
      | Some k =>
        if negb (sk_family k =? AF_INET) && negb (sk_family k =? AF_INET6) then []
        else if c_true (Z.land (loaded_probes s) (Z.shiftl 1 PROBE_TCP_CLOSE))
                && (sk_protocol k =? IPPROTO_TCP)
                && c_true (DPORT k)
        then log_if_not_whitelisted k PROTO_TCP ACTION_CLOSE
        else if c_true (Z.land (loaded_probes s) (Z.shiftl 1 PROBE_UDP_CLOSE))
                && (sk_protocol k =? IPPROTO_UDP)
                && c_true (SPORT k)
        then log_if_not_whitelisted k PROTO_UDP ACTION_CLOSE
        else []
      | None => []
      end
    | _, _ => []
    end in
  (0, logged ++ match sock with Some so => [SockfdPut so] | None => [] end).

(** ** Auxiliary readings used by the proofs *)

(** The unplant calls of [unplant_probes removed], in the order of the
    source; [after] is [loaded_probes] once the removed bits are toggled. *)
Definition unplant_calls (removed after : Z) : list kprobe_call :=
  (if Z.testbit removed PROBE_TCP_CONNECT then [Unplant stream_connect_kretprobe] else [])
  ++ (if Z.testbit removed PROBE_TCP_ACCEPT then [Unplant accept_kretprobe] else [])
  ++ (if (Z.testbit removed PROBE_TCP_CLOSE || Z.testbit removed PROBE_UDP_CLOSE)
         && negb (in_use close_jprobe after)
      then [Unplant close_jprobe] else [])
  ++ (if Z.testbit removed PROBE_UDP_CONNECT then [Unplant dgram_connect_kretprobe] else [])
  ++ (if Z.testbit removed PROBE_UDP_BIND then [Unplant bind_kretprobe] else []).

(** [removed] has no bit outside [loaded]. *)
Definition submask (removed loaded : Z) : Prop :=
  forall n, Z.testbit removed n = true -> Z.testbit loaded n = true.

(** The state after [loaded_probes |= 1 << k]. *)
Definition bit_set (k : probe_kind) (s : registry) : registry :=
  set_loaded_probes (Z.lor (loaded_probes s) (Z.shiftl 1 (probe_bit k))) s.

(** Every plant in a list of calls succeeded. *)
Definition plants_ok (l : list kprobe_call) : bool := forallb plant_ok l.

(** The probe kinds whose stanza comes before the stanza of [k]. *)
Definition before (j k : probe_kind) : Prop := probe_bit j < probe_bit k.

(** The first-use prelude shared by the two parameter setters: [inl] is
    [goto fail], [inr] falls through; both carry [ret] and the state. *)
Definition first_use (s : registry) : (Z * registry) + (Z * registry) :=
  if negb (initialized s =? 0) then
    let (ret, s0) := plant_probes DEFAULT_PROBES s in
    if ret <? 0 then inl (ret, s0) else inr (ret, set_initialized 1 s0)
  else inr (0, s).

(** [probes_to_add] and [probes_to_remove] of [all_probes_param_set]. *)
Definition probes_to_add (wanted_probes loaded : Z) : Z :=
  u32 (Z.land wanted_probes (u32 (Z.lnot loaded))).

Definition probes_to_remove (wanted_probes loaded : Z) : Z :=
  u32 (Z.land (ulong (Z.lnot wanted_probes)) loaded).

(** The values a [u32] variable can hold. *)
Definition is_u32 (x : Z) : Prop := 0 <= x < 2 ^ 32.

(** The conditions under which [pre_sys_close] classifies a close as a TCP
    (resp. UDP) close event. *)
Definition tcp_close_live (s : registry) (fd : Z) : Prop :=
  exists so k,
    sockfd_lookup fd = Some so /\ sk so = Some k
    /\ Z.land (loaded_probes s) (Z.shiftl 1 PROBE_TCP_CLOSE) <> 0
    /\ sk_protocol k = IPPROTO_TCP
    /\ DPORT k <> 0.

Definition udp_close_live (s : registry) (fd : Z) : Prop :=
  exists so k,
    sockfd_lookup fd = Some so /\ sk so = Some k
    /\ Z.land (loaded_probes s) (Z.shiftl 1 PROBE_UDP_CLOSE) <> 0
    /\ sk_protocol k = IPPROTO_UDP
    /\ SPORT k <> 0.

(** A history keeps to the discipline of the hook [h] when every plant of
    [h] is issued while [h] is not registered and every unplant of [h] while
    it is; [st] tells whether [h] is registered before the history. *)
Definition call_allowed (h : hook) (st : bool) (c : kprobe_call) : bool :=
  if is_plant h c then negb st else if is_unplant h c then st else true.

Fixpoint bracketed (h : hook) (st : bool) (log : list kprobe_call) : bool :=
  match log with
  | [] => true
  | c :: l => call_allowed h st c && bracketed h (planted_step h st c) l
  end.

(** ** Concrete environments and inputs used to exercise the theorems *)

(** An instrumentation subsystem that accepts every plant. *)
Definition kprobes_accept_all : list kprobe_call -> hook -> plant_result :=
  fun _ _ => PlantOk.

(** An instrumentation subsystem that rejects the accept hook ([-EINVAL])
    and accepts the others. *)
Definition kprobes_reject_accept : list kprobe_call -> hook -> plant_result :=
  fun _ h => match h with
             | accept_kretprobe => PlantFailed 22
             | _ => PlantOk
             end.

(** A parser that knows a few one-digit buffers and answers [-EINVAL] to
    the rest. *)
Definition kstrtoul_digits : string -> Z -> Z * Z :=
  fun buf _ =>
    if String.eqb buf "0" then (0, 0)
    else if String.eqb buf "1" then (0, 1)
    else if String.eqb buf "5" then (0, 5)
    else if String.eqb buf "6" then (0, 6)
    else (-22, 0).

(** A registry with TCP_CLOSE and UDP_CLOSE loaded. *)
Definition registry_both_close : registry :=
  {| initialized := 0;
     loaded_probes := Z.lor (Z.shiftl 1 PROBE_TCP_CLOSE) (Z.shiftl 1 PROBE_UDP_CLOSE);
     kprobe_log := [Plant close_jprobe PlantOk] |}.

(** A process with a resolvable executable. *)
Definition task_curl : option task_struct :=
  Some {| mm := Some {| exe_file := Some {| f_path := "/usr/bin/curl" |} |} |}.

Definition d_path_ok : string -> Z -> string + Z := fun p _ => inl p.

(** A whitelist holding the entry of [procs_to_whitelist]. *)
Definition whitelist_sshd : string -> Z -> option ip_addr -> Z -> Z :=
  fun path _ _ _ =>
    if String.eqb path "/usr/sbin/sshd" then WHITELISTED else NOT_WHITELISTED.

(** An established IPv4 TCP socket (destination port 80, source port 4096,
    both in network byte order). *)
Definition tcp_sock : sock :=
  {| sk_family := AF_INET; sk_protocol := IPPROTO_TCP;
     DPORT := 20480; SPORT := 16;
     DADDR := 16777343; SADDR := 16777343;
     sk_v6_daddr := 0; inet6_daddr := 0; inet6_saddr := 0 |}.

(** A socket of an address family that is neither IPv4 nor IPv6. *)
Definition unix_sock : sock :=
  {| sk_family := 1; sk_protocol := 0;
     DPORT := 0; SPORT := 0; DADDR := 0; SADDR := 0;
     sk_v6_daddr := 0; inet6_daddr := 0; inet6_saddr := 0 |}.

(** Descriptor 3 is the TCP socket; no other descriptor is a socket. *)
Definition sockfd_lookup_tcp3 : Z -> option socket :=
  fun fd => if fd =? 3 then Some {| sk := Some tcp_sock |} else None.

(** * The entry/return probes *)

(** The registers of [struct pt_regs] the file reads. *)
Record pt_regs : Type := { ax : Z; bx : Z; dx : Z; si : Z; di : Z }.

Section ProbeHandlers.

(** [CONFIG_X86_64]: the 64-bit calling convention passes the first
    argument in [di], the 32-bit one in [ax]. *)
Variable CONFIG_X86_64 : bool.

Definition GET_ARG_1 (regs : pt_regs) : Z :=
  if CONFIG_X86_64 then di regs else ax regs.

(** [regs_return_value(regs)] on x86. *)
Definition regs_return_value (regs : pt_regs) : Z := ax regs.

(** A register value converted to [int]. *)
Definition c_int (x : Z) : Z := (x + 2 ^ 31) mod 2 ^ 32 - 2 ^ 31.

(** The [struct socket] a non-NULL pointer value designates. *)
Variable socket_at : Z -> socket.

(** [(struct socket * )p]: NULL is 0. *)
Definition socket_ptr (p : Z) : option socket :=
  if p =? 0 then None else Some (socket_at p).

(** [struct probe_data]; its field [sock] is called [data_sock] here, [sock]
    being the name of [struct sock]. *)
Record probe_data : Type := { data_sock : option socket }.

(** [static int pre_handler_store_sock(struct kretprobe_instance *ri, struct pt_regs *regs)]:
    the return code and [ri->data]. *)
Definition pre_handler_store_sock (priv : probe_data) (regs : pt_regs)
  : Z * probe_data :=
  match current with
  | Some _ => (0, {| data_sock := socket_ptr (GET_ARG_1 regs) |})
  | None => (1, priv)
  end.

(** [sk_family == AF_INET || sk_family == AF_INET6] *)
Definition inet_family (k : sock) : bool :=
  (sk_family k =? AF_INET) || (sk_family k =? AF_INET6).

(** [static int post_inet_stream_connect(struct kretprobe_instance *ri, struct pt_regs *regs)] *)
Definition post_inet_stream_connect (priv : probe_data) (regs : pt_regs)
  : Z * list effect :=
  let sock := data_sock priv in
  (0, match current, sock with
      | Some _, Some so =>
        match sk so with
        | Some k =>
          if inet_family k && (sk_protocol k =? IPPROTO_TCP)
          then log_if_not_whitelisted k PROTO_TCP ACTION_CONNECT
          else []
        | None => []
        end
      | _, _ => []
      end).

(** [static int post_inet_dgram_connect(struct kretprobe_instance *ri, struct pt_regs *regs)] *)
Definition post_inet_dgram_connect (priv : probe_data) (regs : pt_regs)
  : Z * list effect :=
  let sock := data_sock priv in
  (0, match current, sock with
      | Some _, Some so =>
        match sk so with
        | Some k =>
          if inet_family k && (sk_protocol k =? IPPROTO_UDP)
          then log_if_not_whitelisted k PROTO_UDP ACTION_CONNECT
          else []
        | None => []
        end
      | _, _ => []
      end).

(** [static int post_sys_accept(struct kretprobe_instance *ri, struct pt_regs *regs)] *)
Definition post_sys_accept (priv : probe_data) (regs : pt_regs)
  : Z * list effect :=
  let sock := sockfd_lookup (c_int (regs_return_value regs)) in
  (0, match sock with
      | Some so =>
        match sk so with
        | Some k =>
          if inet_family k && (sk_protocol k =? IPPROTO_TCP)
          then log_if_not_whitelisted k PROTO_TCP ACTION_ACCEPT
          else []
        | None => []
        end ++ [SockfdPut so]
      | None => []
      end).

(** [static int pre_sys_bind(struct kretprobe_instance *ri, struct pt_regs *regs)] *)
Definition pre_sys_bind (priv : probe_data) (regs : pt_regs) : Z * probe_data :=
  match current with
  | None => (1, priv)
  | Some _ =>
    match sockfd_lookup (c_int (GET_ARG_1 regs)) with
    | Some so => (0, {| data_sock := Some so |})
    | None => (1, priv)
    end
  end.

(** [static int post_sys_bind(struct kretprobe_instance *ri, struct pt_regs *regs)] *)
Definition post_sys_bind (priv : probe_data) (regs : pt_regs) : Z * list effect :=
  let sock := data_sock priv in
  (0, match sock with
      | Some so =>
        match sk so with
        | Some k =>
          if inet_family k && (sk_protocol k =? IPPROTO_UDP)
          then log_if_not_whitelisted k PROTO_UDP ACTION_BIND
          else []
        | None => []
        end ++ [SockfdPut so]
      | None => []
      end).

(** One instance of a kretprobe, as the kprobes subsystem runs it: the
    entry handler, when there is one, runs at function entry on the
    instance's data, and the return handler runs at function return unless
    the entry handler returned non-zero. *)
Definition run_kretprobe
           (entry_handler : option (probe_data -> pt_regs -> Z * probe_data))
           (handler : probe_data -> pt_regs -> Z * list effect)
           (data : probe_data) (at_entry at_return : pt_regs) : list effect :=
  match entry_handler with
  | None => snd (handler data at_return)
  | Some entry =>
    let (ret, data') := entry data at_entry in
    if ret =? 0 then snd (handler data' at_return) else []
  end.

(** The firings of the five probe definitions of the file:
    [stream_connect_kretprobe], [dgram_connect_kretprobe], [accept_kretprobe]
    and [bind_kretprobe] with their [.entry_handler] and [.handler], and
    [close_jprobe] with its [.entry]. *)
Inductive firing : Type :=
  | FireStreamConnect (data : probe_data) (at_entry at_return : pt_regs)
  | FireDgramConnect (data : probe_data) (at_entry at_return : pt_regs)
  | FireAccept (data : probe_data) (at_entry at_return : pt_regs)
  | FireBind (data : probe_data) (at_entry at_return : pt_regs)
  | FireClose (s : registry) (fd : Z).

Definition fire (f : firing) : list effect :=
  match f with
  | FireStreamConnect data e r =>
    run_kretprobe (Some pre_handler_store_sock) post_inet_stream_connect data e r
  | FireDgramConnect data e r =>
    run_kretprobe (Some pre_handler_store_sock) post_inet_dgram_connect data e r
  | FireAccept data e r =>
    run_kretprobe None post_sys_accept data e r
  | FireBind data e r =>
    run_kretprobe (Some pre_sys_bind) post_sys_bind data e r
  | FireClose s fd => snd (pre_sys_close s fd)
  end.

(** The hook a firing belongs to. *)
Definition firing_hook (f : firing) : hook :=
  match f with
  | FireStreamConnect _ _ _ => stream_connect_kretprobe
  | FireDgramConnect _ _ _ => dgram_connect_kretprobe
  | FireAccept _ _ _ => accept_kretprobe
  | FireBind _ _ _ => bind_kretprobe
  | FireClose _ _ => close_jprobe
  end.

(** The socket a firing takes a reference on with [sockfd_lookup], if any. *)
Definition firing_lookup (f : firing) : option socket :=
  match f with
  | FireStreamConnect _ _ _ | FireDgramConnect _ _ _ => None
  | FireAccept _ _ r => sockfd_lookup (c_int (regs_return_value r))
  | FireBind _ e _ =>
    match current with
    | Some _ => sockfd_lookup (c_int (GET_ARG_1 e))
    | None => None
    end
  | FireClose _ fd => sockfd_lookup fd
  end.

End ProbeHandlers.


(** [IPPROTO_TCP] for [PROTO_TCP], [IPPROTO_UDP] for [PROTO_UDP]. *)
Definition ipproto (p : protocol) : Z :=
  match p with
  | PROTO_TCP => IPPROTO_TCP
  | PROTO_UDP => IPPROTO_UDP
  end.

(** The protocol and action a hook may log. *)
Definition hook_logs (h : hook) (p : protocol) (a : action) : bool :=
  match h, p, a with
  | stream_connect_kretprobe, PROTO_TCP, ACTION_CONNECT
  | dgram_connect_kretprobe, PROTO_UDP, ACTION_CONNECT
  | accept_kretprobe, PROTO_TCP, ACTION_ACCEPT
  | bind_kretprobe, PROTO_UDP, ACTION_BIND
  | close_jprobe, PROTO_TCP, ACTION_CLOSE
  | close_jprobe, PROTO_UDP, ACTION_CLOSE => true
  | _, _, _ => false
  end.

(** An address of the kind the family announces: an IPv4 address for
    [AF_INET], an IPv6 address for [AF_INET6], both not NULL. *)
Definition address_of_family (family : Z) (ip : option ip_addr) : bool :=
  match ip with
  | Some (In4 _) => family =? AF_INET
  | Some (In6 _) => family =? AF_INET6
  | None => false
  end.

(** A call to the gate or to the sink that carries addresses of its family;
    [sockfd_put] carries none. *)
Definition well_addressed (e : effect) : bool :=
  match e with
  | IsWhitelisted _ family ip _ => address_of_family family ip
  | StoreNetlogRecord _ _ _ family src _ dst _ =>
    address_of_family family src && address_of_family family dst
  | SockfdPut _ => true
  end.

(** A record tagged with a protocol and an action the hook [h] may log. *)
Definition tagged_for (h : hook) (e : effect) : bool :=
  match e with
  | StoreNetlogRecord _ a p _ _ _ _ _ => hook_logs h p a
  | _ => true
  end.

(** The values of a [__be16] field. *)
Definition is_be16 (x : Z) : Prop := 0 <= x < 2 ^ 16.

(** A close record with a live port: the destination port of a TCP record
    and the source port of a UDP record are not 0 (host byte order). *)
Definition live_port (e : effect) : bool :=
  match e with
  | StoreNetlogRecord _ _ PROTO_TCP _ _ _ _ dst_port => negb (dst_port =? 0)
  | StoreNetlogRecord _ _ PROTO_UDP _ _ src_port _ _ => negb (src_port =? 0)
  | _ => true
  end.

(** Number of plant calls for [h] that succeeded. *)
Definition plants_done (h : hook) (l : list kprobe_call) : nat :=
  List.length (filter (fun c => is_plant h c && plant_ok c) l).



(** * Bit-level facts about masks *)

Lemma testbit_bit (k n : Z) :
  0 <= k -> Z.testbit (Z.shiftl 1 k) n = (k =? n).
Proof.
  intros Hk. rewrite Z.shiftl_1_l. now apply Z.pow2_bits_eqb.
Qed.

Lemma c_true_testbit (x k : Z) :
  0 <= k -> c_true (Z.land x (Z.shiftl 1 k)) = Z.testbit x k.
Proof.
  intros Hk. unfold c_true.
  destruct (Z.testbit x k) eqn:Hb.
  - destruct (Z.eqb_spec (Z.land x (Z.shiftl 1 k)) 0) as [E|E]; [|reflexivity].
    exfalso.
    assert (Hk' : Z.testbit (Z.land x (Z.shiftl 1 k)) k = true).
    { rewrite Z.land_spec, Hb, testbit_bit, Z.eqb_refl by assumption. reflexivity. }
    rewrite E, Z.bits_0 in Hk'. discriminate.
  - destruct (Z.eqb_spec (Z.land x (Z.shiftl 1 k)) 0) as [E|E]; [reflexivity|].
    exfalso. apply E. apply Z.bits_inj'. intros n Hn.
    rewrite Z.land_spec, Z.bits_0, testbit_bit by assumption.
    destruct (Z.eqb_spec k n) as [->|]; [now rewrite Hb | now rewrite andb_false_r].
Qed.

Lemma c_true_testbit2 (x j k : Z) :
  0 <= j -> 0 <= k ->
  c_true (Z.land x (Z.lor (Z.shiftl 1 j) (Z.shiftl 1 k)))
  = Z.testbit x j || Z.testbit x k.
Proof.
  intros Hj Hk.
  rewrite <- (c_true_testbit x j), <- (c_true_testbit x k) by assumption.
  rewrite Z.land_lor_distr_r. unfold c_true.
  destruct (Z.eqb_spec (Z.land x (Z.shiftl 1 j)) 0) as [Ej|Ej];
    destruct (Z.eqb_spec (Z.land x (Z.shiftl 1 k)) 0) as [Ek|Ek]; simpl;
    destruct (Z.eqb_spec (Z.lor (Z.land x (Z.shiftl 1 j)) (Z.land x (Z.shiftl 1 k))) 0)
      as [E|E]; try reflexivity; exfalso.
  - apply E. now rewrite Ej, Ek.
  - apply Z.lor_eq_0_iff in E as [_ E]. contradiction.
  - apply Z.lor_eq_0_iff in E as [E _]. contradiction.
  - apply Z.lor_eq_0_iff in E as [E _]. contradiction.
Qed.

Lemma testbit_lor_bit (x k n : Z) :
  0 <= k -> Z.testbit (Z.lor x (Z.shiftl 1 k)) n = Z.testbit x n || (k =? n).
Proof.
  intros Hk. now rewrite Z.lor_spec, testbit_bit.
Qed.

Lemma testbit_u32 (x n : Z) :
  Z.testbit (u32 x) n = (n <? 32) && Z.testbit x n.
Proof.
  unfold u32. destruct (Z.ltb_spec n 32).
  - destruct (Z.ltb_spec n 0).
    + now rewrite !Z.testbit_neg_r.
    + now rewrite Z.mod_pow2_bits_low by lia.
  - now rewrite Z.mod_pow2_bits_high by lia.
Qed.

Lemma testbit_ulong (x n : Z) :
  Z.testbit (ulong x) n = (n <? 64) && Z.testbit x n.
Proof.
  unfold ulong. destruct (Z.ltb_spec n 64).
  - destruct (Z.ltb_spec n 0).
    + now rewrite !Z.testbit_neg_r.
    + now rewrite Z.mod_pow2_bits_low by lia.
  - now rewrite Z.mod_pow2_bits_high by lia.
Qed.

Lemma testbit_lnot (x n : Z) :
  Z.testbit (Z.lnot x) n = (0 <=? n) && negb (Z.testbit x n).
Proof.
  destruct (Z.leb_spec 0 n).
  - now rewrite Z.lnot_spec.
  - now rewrite Z.testbit_neg_r by lia.
Qed.

(** A non-negative number below [2^w] has no bit at or above [w]. *)
Lemma testbit_high (x w n : Z) :
  0 <= w -> 0 <= x < 2 ^ w -> w <= n -> Z.testbit x n = false.
Proof.
  intros Hw Hx Hn.
  rewrite <- (Z.mod_small x (2 ^ w)) by assumption.
  apply Z.mod_pow2_bits_high. lia.
Qed.

Lemma range_of_bits (x w : Z) :
  0 <= w -> 0 <= x -> (forall n, w <= n -> Z.testbit x n = false) -> 0 <= x < 2 ^ w.
Proof.
  intros Hw Hx H. split; [assumption|].
  destruct (Z.eq_dec x 0) as [->|Hne]; [apply Z.pow_pos_nonneg; lia|].
  assert (Hpos : 0 < x) by lia.
  apply Z.log2_lt_pow2; [assumption|].
  destruct (Z.lt_ge_cases (Z.log2 x) w) as [|Hge]; [assumption|].
  specialize (H _ Hge). rewrite Z.bit_log2 in H by assumption. discriminate.
Qed.

Lemma nonneg_of_bits (x : Z) :
  (forall n, 64 <= n -> Z.testbit x n = false) -> 0 <= x.
Proof.
  intros H. destruct (Z.lt_ge_cases x 0) as [Hneg|]; [|assumption].
  exfalso.
  destruct (Z.bits_iff_neg_ex x) as [Hex _].
  destruct (Hex Hneg) as [k Hk].
  specialize (Hk (Z.max (k + 1) 64)). rewrite H in Hk by lia.
  assert (false = true) by (apply Hk; lia). discriminate.
Qed.

(** * The log of primitive calls *)

Lemma planted_snoc (l : list kprobe_call) (c : kprobe_call) (h : hook) :
  planted (l ++ [c]) h = planted_step h (planted l h) c.
Proof.
  unfold planted. now rewrite fold_left_app.
Qed.

Lemma hook_eqb_eq (a b : hook) : hook_eqb a b = true <-> a = b.
Proof.
  destruct a, b; simpl; split; intros H; try reflexivity; discriminate.
Qed.

Lemma hook_eqb_refl (a : hook) : hook_eqb a a = true.
Proof. now destruct a. Qed.

Lemma issued_app (s s' : registry) (l : list kprobe_call) :
  kprobe_log s' = kprobe_log s ++ l -> issued s s' = l.
Proof.
  intros E. unfold issued. rewrite E.
  rewrite skipn_app, skipn_all, Nat.sub_diag. reflexivity.
Qed.

(** * [plant_probes] is its six stanzas in sequence *)

Lemma bind_ext {A B} (m m' : kern A) (k k' : A -> kern B) (s : registry) :
  m s = m' s -> (forall a s', k a s' = k' a s') -> bind m k s = bind m' k' s.
Proof.
  intros Hm Hk. unfold bind. rewrite Hm. destruct (m' s); [apply Hk | reflexivity].
Qed.

Lemma plant_failed_errno (k : probe_kind) (r : plant_result) :
  plant_failed k (plant_errno r) = negb (plant_ok (Plant (probe_hook k) r)).
Proof.
  destruct k, r; reflexivity.
Qed.

Ltac stanza_eq :=
  unfold plant_one, requested, sibling_loaded, probe_loaded, sibling, probe_bit,
    plant_jprobe;
  rewrite ?c_true_testbit by (vm_compute; discriminate);
  match goal with |- context [Z.testbit ?m ?k] => destruct (Z.testbit m k) end;
  [ | reflexivity ];
  unfold bind, gets, pure, return_, loaded_probes_or, modify, plant_kretprobe;
  cbv beta iota delta [plant_failed probe_hook failure_code negb];
  rewrite ?c_true_testbit by (vm_compute; discriminate);
  repeat match goal with |- context [if ?c then _ else _] => destruct c end;
  reflexivity.

Lemma plant_probes_stanzas (new_probes : Z) (s : registry) :
  plant_probes new_probes s = body (plant_loop plant_order new_probes 0) s.
Proof.
  unfold plant_probes, body, plant_order, plant_loop.
  match goal with |- match ?a with _ => _ end = match ?b with _ => _ end =>
    enough (E : a = b) by now rewrite E end.
  unfold bind at 1. unfold pure at 1.
  apply bind_ext; [stanza_eq | intros ? ?].
  apply bind_ext; [stanza_eq | intros ? ?].
  apply bind_ext; [stanza_eq | intros ? ?].
  apply bind_ext; [stanza_eq | intros ? ?].
  apply bind_ext; [stanza_eq | intros ? ?].
  apply bind_ext; [stanza_eq | intros ? ?].
  reflexivity.
Qed.

(** * Hooks and the bits they serve *)

Lemma probe_bit_range (k : probe_kind) : 0 <= probe_bit k < 6.
Proof. destruct k; vm_compute; split; congruence. Qed.

Lemma probe_bit_inj (j k : probe_kind) : probe_bit j = probe_bit k -> j = k.
Proof. destruct j, k; vm_compute; congruence. Qed.

Lemma mask_probe_entry (k : probe_kind) :
  mask (probe_entry k) = Z.shiftl 1 (probe_bit k).
Proof. now destruct k. Qed.

Lemma in_use_bits (h : hook) (loaded : Z) :
  in_use h loaded =
  match h with
  | stream_connect_kretprobe => Z.testbit loaded PROBE_TCP_CONNECT
  | accept_kretprobe => Z.testbit loaded PROBE_TCP_ACCEPT
  | close_jprobe => Z.testbit loaded PROBE_TCP_CLOSE || Z.testbit loaded PROBE_UDP_CLOSE
  | dgram_connect_kretprobe => Z.testbit loaded PROBE_UDP_CONNECT
  | bind_kretprobe => Z.testbit loaded PROBE_UDP_BIND
  end.
Proof.
  unfold in_use.
  destruct h; unfold hook_mask;
    first [ apply c_true_testbit | apply c_true_testbit2 ]; vm_compute; discriminate.
Qed.

Lemma in_use_probe_loaded (k : probe_kind) (loaded : Z) :
  Z.testbit loaded (probe_bit k) = true -> in_use (probe_hook k) loaded = true.
Proof.
  intros H. rewrite in_use_bits.
  destruct k; simpl in *; rewrite H; auto using orb_true_r.
Qed.

Lemma in_use_lor (h : hook) (k : probe_kind) (loaded : Z) :
  in_use h (Z.lor loaded (Z.shiftl 1 (probe_bit k)))
  = in_use h loaded || hook_eqb h (probe_hook k).
Proof.
  rewrite !in_use_bits.
  destruct h, k; simpl probe_bit; simpl hook_eqb;
    rewrite ?testbit_lor_bit by (vm_compute; discriminate);
    repeat match goal with
           | |- context [?a =? ?b] =>
               let v := eval vm_compute in (a =? b) in
               change (a =? b) with v
           end;
    rewrite ?orb_false_r, ?orb_true_r; try reflexivity;
    destruct (Z.testbit loaded PROBE_TCP_CLOSE), (Z.testbit loaded PROBE_UDP_CLOSE);
    reflexivity.
Qed.

Lemma sibling_in_use (k : probe_kind) (s : registry) :
  sibling_loaded k s = true -> in_use (probe_hook k) (loaded_probes s) = true.
Proof.
  unfold sibling_loaded, probe_loaded. rewrite in_use_bits.
  destruct k; simpl; intros H; try discriminate; rewrite H; auto using orb_true_r.
Qed.

(** * One stanza *)

Lemma plant_one_cases (new_probes : Z) (k : probe_kind) (err : Z) (s : registry) :
  plant_one new_probes k err s =
  if requested k new_probes then
    if sibling_loaded k s then
      Next err (bit_set k s)
    else
      match kprobes (kprobe_log s) (probe_hook k) with
      | PlantOk =>
        Next 0 (bit_set k (record_call (Plant (probe_hook k) PlantOk) s))
      | PlantFailed e =>
        Return (failure_code k) (record_call (Plant (probe_hook k) (PlantFailed e)) s)
      end
  else Next err s.
Proof.
  unfold plant_one. destruct (requested k new_probes); [|reflexivity].
  unfold bind, gets, pure, return_, loaded_probes_or, modify, plant_kretprobe.
  destruct (sibling_loaded k s); [reflexivity|]. cbv beta iota delta [negb].
  rewrite plant_failed_errno.
  destruct (kprobes (kprobe_log s) (probe_hook k)); reflexivity.
Qed.

(** * [unplant_probes] *)

Lemma planted_app (l l' : list kprobe_call) (h : hook) :
  planted (l ++ l') h = fold_left (planted_step h) l' (planted l h).
Proof.
  unfold planted. now rewrite fold_left_app.
Qed.

Lemma unplant_probes_eq (removed : Z) (s : registry) :
  unplant_probes removed s =
  {| initialized := initialized s;
     loaded_probes := Z.lxor (loaded_probes s) removed;
     kprobe_log := kprobe_log s
                   ++ unplant_calls removed (Z.lxor (loaded_probes s) removed) |}.
Proof.
  unfold unplant_probes, unplant_calls, in_use, hook_mask.
  rewrite !c_true_testbit, c_true_testbit2 by (vm_compute; discriminate).
  unfold unplant_jprobe, unplant_kretprobe, record_call, set_loaded_probes.
  destruct (Z.testbit removed PROBE_TCP_CONNECT), (Z.testbit removed PROBE_TCP_ACCEPT),
    (Z.testbit removed PROBE_TCP_CLOSE), (Z.testbit removed PROBE_UDP_CLOSE),
    (Z.testbit removed PROBE_UDP_CONNECT), (Z.testbit removed PROBE_UDP_BIND);
    cbn [orb andb negb loaded_probes initialized kprobe_log];
    try match goal with
        | |- context [c_true ?x] => destruct (c_true x)
        end;
    cbn [orb andb negb loaded_probes initialized kprobe_log app];
    rewrite <- ?app_assoc, ?app_nil_r; reflexivity.
Qed.

Lemma planted_unplant_piece (h h' : hook) (b st : bool) :
  fold_left (planted_step h) (if b then [Unplant h'] else []) st
  = if b && hook_eqb h h' then false else st.
Proof.
  destruct b; simpl; [destruct (hook_eqb h h')|]; reflexivity.
Qed.

Lemma submask_bit (removed loaded k : Z) :
  submask removed loaded ->
  Z.testbit removed k = true -> Z.testbit loaded k = true.
Proof. intros H. apply H. Qed.

Lemma unplant_probes_hooks (removed : Z) (s : registry) :
  submask removed (loaded_probes s) ->
  (forall h, planted (kprobe_log s) h = in_use h (loaded_probes s)) ->
  forall h, planted (kprobe_log (unplant_probes removed s)) h
            = in_use h (loaded_probes (unplant_probes removed s)).
Proof.
  intros Hsub Hinv h. rewrite unplant_probes_eq. cbn [kprobe_log loaded_probes].
  unfold unplant_calls.
  rewrite planted_app, !fold_left_app, !planted_unplant_piece, Hinv.
  rewrite !in_use_bits.
  pose proof (submask_bit _ _ PROBE_TCP_CONNECT Hsub) as H0.
  pose proof (submask_bit _ _ PROBE_TCP_ACCEPT Hsub) as H1.
  pose proof (submask_bit _ _ PROBE_TCP_CLOSE Hsub) as H2.
  pose proof (submask_bit _ _ PROBE_UDP_CONNECT Hsub) as H3.
  pose proof (submask_bit _ _ PROBE_UDP_BIND Hsub) as H4.
  pose proof (submask_bit _ _ PROBE_UDP_CLOSE Hsub) as H5.
  destruct h; cbn [hook_eqb]; rewrite ?andb_false_r, ?andb_true_r, ?Z.lxor_spec;
    repeat match goal with
           | H : Z.testbit removed ?k = true -> _ |- context [Z.testbit removed ?k] =>
               destruct (Z.testbit removed k);
               [ rewrite (H eq_refl) in * | ]; clear H
           end;
    repeat match goal with
           | |- context [Z.testbit (loaded_probes s) ?k] =>
               destruct (Z.testbit (loaded_probes s) k)
           end;
    reflexivity.
Qed.

Lemma mask_range_bits (x : Z) :
  0 <= x <= ALL_PROBES <-> 0 <= x /\ forall n, 6 <= n -> Z.testbit x n = false.
Proof.
  unfold ALL_PROBES. split.
  - intros H. split; [lia|]. intros n Hn.
    apply (testbit_high x 6 n); [lia | change (2 ^ 6) with 64; lia | lia].
  - intros [H0 H]. pose proof (range_of_bits x 6 ltac:(lia) H0 H) as R.
    change (2 ^ 6) with 64 in R. lia.
Qed.

Lemma submask_range (removed loaded : Z) :
  submask removed loaded -> 0 <= loaded <= ALL_PROBES -> 0 <= removed <= ALL_PROBES.
Proof.
  intros Hsub Hr. apply mask_range_bits in Hr as [H0 Hhi].
  assert (Hclear : forall n, 6 <= n -> Z.testbit removed n = false).
  { intros n Hn. destruct (Z.testbit removed n) eqn:E; [|reflexivity].
    apply Hsub in E. rewrite Hhi in E by assumption. discriminate. }
  apply mask_range_bits. split; [|assumption].
  apply nonneg_of_bits. intros n Hn. apply Hclear. lia.
Qed.

Lemma unplant_probes_consistent (removed : Z) (s : registry) :
  submask removed (loaded_probes s) ->
  consistent s -> consistent (unplant_probes removed s).
Proof.
  intros Hsub [Hi Hr Hh]. split.
  - now rewrite unplant_probes_eq.
  - rewrite unplant_probes_eq. cbn [loaded_probes].
    pose proof (submask_range _ _ Hsub Hr) as Hm.
    apply mask_range_bits in Hr as [H0 Hhi].
    apply mask_range_bits in Hm as [Hm0 Hmhi].
    apply mask_range_bits. split.
    + apply Z.lxor_nonneg. split; intros _; assumption.
    + intros n Hn. now rewrite Z.lxor_spec, Hhi, Hmhi.
  - now apply unplant_probes_hooks.
Qed.

(** Under the precondition of its callers, [^=] clears the removed bits. *)
Lemma lxor_submask (loaded removed : Z) :
  submask removed loaded ->
  Z.lxor loaded removed = Z.land loaded (Z.lnot removed).
Proof.
  intros Hsub. apply Z.bits_inj'. intros n Hn.
  rewrite Z.lxor_spec, Z.land_spec, Z.lnot_spec by assumption.
  destruct (Z.testbit removed n) eqn:E.
  - now rewrite (Hsub _ E).
  - now rewrite xorb_false_r, andb_true_r.
Qed.

(** * The stanzas in sequence *)

Lemma plant_loop_nil (new_probes err : Z) (s : registry) :
  body (plant_loop [] new_probes err) s = (err, s).
Proof. reflexivity. Qed.

Lemma plant_loop_cons (k : probe_kind) (ks : list probe_kind)
      (new_probes err : Z) (s : registry) :
  body (plant_loop (k :: ks) new_probes err) s =
  match plant_one new_probes k err s with
  | Next e s1 => body (plant_loop ks new_probes e) s1
  | Return r s1 => (r, s1)
  end.
Proof.
  unfold body. simpl. unfold bind.
  destruct (plant_one new_probes k err s); reflexivity.
Qed.

(** A property kept by each of the three ways a stanza can go is kept by
    the whole of [plant_probes]. *)
Lemma plant_loop_preserves (new_probes : Z) (R : registry -> Prop) :
  (forall k s, R s -> requested k new_probes = true ->
     sibling_loaded k s = true -> R (bit_set k s)) ->
  (forall k s, R s -> requested k new_probes = true ->
     sibling_loaded k s = false ->
     kprobes (kprobe_log s) (probe_hook k) = PlantOk ->
     R (bit_set k (record_call (Plant (probe_hook k) PlantOk) s))) ->
  (forall k s e, R s -> requested k new_probes = true ->
     sibling_loaded k s = false ->
     kprobes (kprobe_log s) (probe_hook k) = PlantFailed e ->
     R (record_call (Plant (probe_hook k) (PlantFailed e)) s)) ->
  forall ks err s, R s -> R (snd (body (plant_loop ks new_probes err) s)).
Proof.
  intros Hshared Hok Hfail. induction ks as [|k ks IH]; intros err s HR.
  - exact HR.
  - rewrite plant_loop_cons, plant_one_cases.
    destruct (requested k new_probes) eqn:Hreq; [|now apply IH].
    destruct (sibling_loaded k s) eqn:Hsib; [now apply IH, Hshared|].
    destruct (kprobes (kprobe_log s) (probe_hook k)) eqn:Hk.
    + now apply IH, Hok.
    + now apply (Hfail k s errno).
Qed.

Lemma plant_probes_preserves (new_probes : Z) (R : registry -> Prop) :
  (forall k s, R s -> requested k new_probes = true ->
     sibling_loaded k s = true -> R (bit_set k s)) ->
  (forall k s, R s -> requested k new_probes = true ->
     sibling_loaded k s = false ->
     kprobes (kprobe_log s) (probe_hook k) = PlantOk ->
     R (bit_set k (record_call (Plant (probe_hook k) PlantOk) s))) ->
  (forall k s e, R s -> requested k new_probes = true ->
     sibling_loaded k s = false ->
     kprobes (kprobe_log s) (probe_hook k) = PlantFailed e ->
     R (record_call (Plant (probe_hook k) (PlantFailed e)) s)) ->
  forall s, R s -> R (snd (plant_probes new_probes s)).
Proof.
  intros H1 H2 H3 s HR. rewrite plant_probes_stanzas.
  now apply plant_loop_preserves.
Qed.

Lemma plant_probes_initialized (new_probes : Z) (s : registry) :
  initialized (snd (plant_probes new_probes s)) = initialized s.
Proof.
  apply (plant_probes_preserves new_probes (fun s' => initialized s' = initialized s));
    auto.
Qed.

Lemma plant_loop_log (ks : list probe_kind) (new_probes err : Z) (s : registry) :
  exists l, kprobe_log (snd (body (plant_loop ks new_probes err) s)) = kprobe_log s ++ l.
Proof.
  apply (plant_loop_preserves new_probes
           (fun s' => exists l, kprobe_log s' = kprobe_log s ++ l)).
  - intros k s0 [l E] _ _. now exists l.
  - intros k s0 [l E] _ _ _. exists (l ++ [Plant (probe_hook k) PlantOk]).
    cbn [bit_set kprobe_log set_loaded_probes record_call]. now rewrite E, app_assoc.
  - intros k s0 e [l E] _ _ _. exists (l ++ [Plant (probe_hook k) (PlantFailed e)]).
    cbn [kprobe_log record_call]. now rewrite E, app_assoc.
  - exists []. now rewrite app_nil_r.
Qed.

Lemma plant_probes_log (new_probes : Z) (s : registry) :
  exists l, kprobe_log (snd (plant_probes new_probes s)) = kprobe_log s ++ l.
Proof.
  rewrite plant_probes_stanzas. apply plant_loop_log.
Qed.

(** [plant_probes] never clears a bit. *)
Lemma plant_loop_keeps (ks : list probe_kind) (new_probes err : Z) (s : registry) (n : Z) :
  Z.testbit (loaded_probes s) n = true ->
  Z.testbit (loaded_probes (snd (body (plant_loop ks new_probes err) s))) n = true.
Proof.
  apply (plant_loop_preserves new_probes
           (fun s' => Z.testbit (loaded_probes s) n = true ->
                      Z.testbit (loaded_probes s') n = true)).
  - intros k s0 H _ _ Hn. cbn [bit_set loaded_probes set_loaded_probes].
    rewrite Z.lor_spec, (H Hn). reflexivity.
  - intros k s0 H _ _ _ Hn. cbn [bit_set loaded_probes set_loaded_probes record_call].
    rewrite Z.lor_spec, (H Hn). reflexivity.
  - intros k s0 e H _ _ _ Hn. now apply H.
  - auto.
Qed.

Lemma plant_probes_keeps (new_probes : Z) (s : registry) (n : Z) :
  Z.testbit (loaded_probes s) n = true ->
  Z.testbit (loaded_probes (snd (plant_probes new_probes s))) n = true.
Proof.
  rewrite plant_probes_stanzas. apply plant_loop_keeps.
Qed.

(** [plant_probes] sets only requested bits of the six probe kinds. *)
Lemma plant_probes_sets (new_probes : Z) (s : registry) (n : Z) :
  Z.testbit (loaded_probes (snd (plant_probes new_probes s))) n = true ->
  Z.testbit (loaded_probes s) n = true
  \/ (Z.testbit new_probes n = true /\ 0 <= n < 6).
Proof.
  apply (plant_probes_preserves new_probes
           (fun s' => Z.testbit (loaded_probes s') n = true ->
                      Z.testbit (loaded_probes s) n = true
                      \/ (Z.testbit new_probes n = true /\ 0 <= n < 6))).
  - intros k s0 H Hreq _. cbn [bit_set loaded_probes set_loaded_probes].
    pose proof (probe_bit_range k).
    rewrite testbit_lor_bit by lia. intros Hn.
    apply orb_true_iff in Hn as [Hn|Hn]; [now apply H|].
    apply Z.eqb_eq in Hn. subst n. right. now split.
  - intros k s0 H Hreq _ _. cbn [bit_set loaded_probes set_loaded_probes record_call].
    pose proof (probe_bit_range k).
    rewrite testbit_lor_bit by lia. intros Hn.
    apply orb_true_iff in Hn as [Hn|Hn]; [now apply H|].
    apply Z.eqb_eq in Hn. subst n. right. now split.
  - intros k s0 e H _ _ _. exact H.
  - auto.
Qed.

Lemma planted_record_ok (l : list kprobe_call) (h h' : hook) :
  planted (l ++ [Plant h' PlantOk]) h = planted l h || hook_eqb h h'.
Proof.
  rewrite planted_snoc. simpl.
  destruct (hook_eqb h h'); [now rewrite orb_true_r | now rewrite orb_false_r].
Qed.

Lemma planted_record_failed (l : list kprobe_call) (h h' : hook) (e : positive) :
  planted (l ++ [Plant h' (PlantFailed e)]) h = planted l h.
Proof.
  now rewrite planted_snoc.
Qed.

(** [plant_probes] keeps every hook registered exactly when one of its bits
    is loaded. *)
Lemma plant_probes_hooks (new_probes : Z) (s : registry) :
  (forall h, planted (kprobe_log s) h = in_use h (loaded_probes s)) ->
  forall h, planted (kprobe_log (snd (plant_probes new_probes s))) h
            = in_use h (loaded_probes (snd (plant_probes new_probes s))).
Proof.
  apply (plant_probes_preserves new_probes
           (fun s' => forall h, planted (kprobe_log s') h = in_use h (loaded_probes s'))).
  - intros k s0 H _ Hsib h. cbn [bit_set loaded_probes kprobe_log set_loaded_probes].
    rewrite in_use_lor, H.
    destruct (hook_eqb h (probe_hook k)) eqn:E; [|now rewrite orb_false_r].
    apply hook_eqb_eq in E. subst h.
    now rewrite (sibling_in_use _ _ Hsib).
  - intros k s0 H _ _ _ h.
    cbn [bit_set loaded_probes kprobe_log set_loaded_probes record_call].
    now rewrite in_use_lor, planted_record_ok, H.
  - intros k s0 e H _ _ _ h. cbn [bit_set loaded_probes kprobe_log record_call].
    now rewrite planted_record_failed.
Qed.

Lemma plant_probes_nonneg (new_probes : Z) (s : registry) :
  0 <= loaded_probes s -> 0 <= loaded_probes (snd (plant_probes new_probes s)).
Proof.
  apply (plant_probes_preserves new_probes (fun s' => 0 <= loaded_probes s')).
  - intros k s0 H _ _. cbn [bit_set loaded_probes set_loaded_probes].
    apply Z.lor_nonneg. split; [assumption|]. apply Z.shiftl_nonneg. lia.
  - intros k s0 H _ _ _. cbn [bit_set loaded_probes set_loaded_probes record_call].
    apply Z.lor_nonneg. split; [assumption|]. apply Z.shiftl_nonneg. lia.
  - intros k s0 e H _ _ _. exact H.
Qed.

Lemma plant_probes_range (new_probes : Z) (s : registry) :
  0 <= loaded_probes s <= ALL_PROBES ->
  0 <= loaded_probes (snd (plant_probes new_probes s)) <= ALL_PROBES.
Proof.
  intros Hr. apply mask_range_bits. split.
  - apply plant_probes_nonneg. lia.
  - intros n Hn.
    destruct (Z.testbit (loaded_probes (snd (plant_probes new_probes s))) n) eqn:E;
      [|reflexivity].
    apply plant_probes_sets in E as [E|[_ E]]; [|lia].
    apply mask_range_bits in Hr as [_ Hhi]. now rewrite Hhi in E.
Qed.

Lemma is_u32_bits (x : Z) :
  is_u32 x <-> 0 <= x /\ forall n, 32 <= n -> Z.testbit x n = false.
Proof.
  unfold is_u32. split.
  - intros H. split; [lia|]. intros n Hn. apply (testbit_high x 32 n); lia.
  - intros [H0 H]. apply range_of_bits; [lia | assumption | assumption].
Qed.

Lemma is_u32_u32 (x : Z) : is_u32 (u32 x).
Proof.
  unfold is_u32, u32. apply Z.mod_pos_bound. reflexivity.
Qed.

Lemma plant_probes_u32 (new_probes : Z) (s : registry) :
  is_u32 (loaded_probes s) -> is_u32 (loaded_probes (snd (plant_probes new_probes s))).
Proof.
  intros Hr. apply is_u32_bits in Hr as [H0 Hhi]. apply is_u32_bits. split.
  - now apply plant_probes_nonneg.
  - intros n Hn.
    destruct (Z.testbit (loaded_probes (snd (plant_probes new_probes s))) n) eqn:E;
      [|reflexivity].
    apply plant_probes_sets in E as [E|[_ E]]; [|lia].
    now rewrite Hhi in E.
Qed.

Lemma unplant_probes_u32 (removed : Z) (s : registry) :
  is_u32 removed -> is_u32 (loaded_probes s) ->
  is_u32 (loaded_probes (unplant_probes removed s)).
Proof.
  intros Hm Hr. rewrite unplant_probes_eq. cbn [loaded_probes].
  apply is_u32_bits in Hr as [H0 Hhi]. apply is_u32_bits in Hm as [Hm0 Hmhi].
  apply is_u32_bits. split.
  - apply Z.lxor_nonneg. split; intros _; assumption.
  - intros n Hn. now rewrite Z.lxor_spec, Hhi, Hmhi.
Qed.

Lemma plant_probes_consistent (new_probes : Z) (s : registry) :
  consistent s -> consistent (snd (plant_probes new_probes s)).
Proof.
  intros [Hi Hr Hh]. split.
  - now rewrite plant_probes_initialized.
  - now apply plant_probes_range.
  - now apply plant_probes_hooks.
Qed.

(** * The entry points on a registry that was never marked initialised *)

Lemma probes_init_uninit (s : registry) :
  initialized s = 0 -> probes_init s = (0, s).
Proof.
  intros Hi. unfold probes_init, body, bind, gets, pure, return_.
  now rewrite Hi.
Qed.

Lemma all_probes_param_set_uninit (buf : string) (s : registry) :
  initialized s = 0 ->
  all_probes_param_set buf s =
  let (ret, value) := kstrtoul buf 16 in
  let wanted_probes := ulong value in
  if ret <? 0 then (ret, s) else
  plant_probes (u32 (Z.land wanted_probes (u32 (Z.lnot (loaded_probes s)))))
    (unplant_probes (u32 (Z.land (ulong (Z.lnot wanted_probes)) (loaded_probes s))) s).
Proof.
  intros Hi. unfold all_probes_param_set, body.
  destruct (kstrtoul buf 16) as [ret value].
  destruct (ret <? 0); [reflexivity|].
  unfold bind, gets, pure, return_, modify, call. rewrite Hi. cbn [Z.eqb negb].
  now destruct (plant_probes _ _).
Qed.

Lemma one_probe_param_set_uninit (probe : probes) (buf : string) (s : registry) :
  initialized s = 0 ->
  one_probe_param_set (Some probe) buf s =
  let (ret, value) := kstrtoul buf 0 in
  if ret <? 0 then (ret, s) else
  if c_true (ulong value) then
    if c_true (Z.land (mask probe) (u32 (Z.lnot (loaded_probes s))))
    then plant_probes (mask probe) s
    else (0, s)
  else
    if c_true (Z.land (mask probe) (loaded_probes s))
    then (0, unplant_probes (mask probe) s)
    else (0, s).
Proof.
  intros Hi. unfold one_probe_param_set, body.
  destruct (kstrtoul buf 0) as [ret value].
  destruct (ret <? 0); [reflexivity|].
  unfold bind, gets, pure, return_, modify, call. rewrite Hi. cbn [Z.eqb negb].
  destruct (c_true (ulong value)).
  - destruct (c_true (Z.land (mask probe) (u32 (Z.lnot (loaded_probes s)))));
      [now destruct (plant_probes _ _) | reflexivity].
  - now destruct (c_true (Z.land (mask probe) (loaded_probes s))).
Qed.

(** * What the callers pass to [unplant_probes] *)

Lemma submask_refl (loaded : Z) : submask loaded loaded.
Proof. now intros n. Qed.

Lemma submask_to_remove (wanted loaded : Z) :
  submask (u32 (Z.land (ulong (Z.lnot wanted)) loaded)) loaded.
Proof.
  intros n. rewrite testbit_u32, Z.land_spec.
  intros H. apply andb_true_iff in H as [_ H]. now apply andb_true_iff in H as [_ H].
Qed.

Lemma c_true_mask_loaded (k : probe_kind) (loaded : Z) :
  c_true (Z.land (Z.shiftl 1 (probe_bit k)) loaded) = Z.testbit loaded (probe_bit k).
Proof.
  rewrite Z.land_comm. apply c_true_testbit. pose proof (probe_bit_range k). lia.
Qed.

Lemma submask_bit_loaded (k : probe_kind) (loaded : Z) :
  Z.testbit loaded (probe_bit k) = true ->
  submask (Z.shiftl 1 (probe_bit k)) loaded.
Proof.
  intros H n. pose proof (probe_bit_range k).
  rewrite testbit_bit by lia. intros E. apply Z.eqb_eq in E. now subst n.
Qed.

(** * Every reachable registry is consistent *)

Lemma consistent_boot : consistent registry_boot.
Proof.
  split; [reflexivity | vm_compute; split; discriminate |].
  intros h. now destruct h.
Qed.

Lemma exec_consistent (r : request) (s : registry) :
  consistent s -> consistent (exec r s).
Proof.
  intros Hc. pose proof (cons_uninit s Hc) as Hi. destruct r as [|buf|k buf|]; simpl.
  - now rewrite probes_init_uninit.
  - rewrite all_probes_param_set_uninit by assumption.
    destruct (kstrtoul buf 16) as [ret value]. cbv zeta.
    destruct (ret <? 0); [assumption|].
    apply plant_probes_consistent, unplant_probes_consistent; [|assumption].
    apply submask_to_remove.
  - rewrite one_probe_param_set_uninit by assumption.
    destruct (kstrtoul buf 0) as [ret value].
    destruct (ret <? 0); [assumption|].
    rewrite mask_probe_entry, !c_true_mask_loaded.
    destruct (c_true (ulong value)).
    + destruct (Z.testbit (u32 _) _); [|assumption].
      now apply plant_probes_consistent.
    + destruct (Z.testbit (loaded_probes s) (probe_bit k)) eqn:E; [|assumption].
      simpl. apply unplant_probes_consistent; [|assumption].
      now apply submask_bit_loaded.
  - apply unplant_probes_consistent; [apply submask_refl | assumption].
Qed.

Lemma run_consistent (reqs : list request) (s : registry) :
  consistent s -> consistent (run reqs s).
Proof.
  revert s. induction reqs as [|r reqs IH]; intros s Hc; [assumption|].
  simpl. apply IH. now apply exec_consistent.
Qed.

Lemma run_boot_consistent (reqs : list request) :
  consistent (run reqs registry_boot).
Proof. apply run_consistent, consistent_boot. Qed.

(** * The entry points, with the prelude factored out *)

Lemma all_probes_param_set_eq (buf : string) (s : registry) :
  all_probes_param_set buf s =
  let (ret, value) := kstrtoul buf 16 in
  if ret <? 0 then (ret, s) else
  match first_use s with
  | inl out => out
  | inr (_, sp) =>
    plant_probes (probes_to_add (ulong value) (loaded_probes sp))
      (unplant_probes (probes_to_remove (ulong value) (loaded_probes sp)) sp)
  end.
Proof.
  unfold all_probes_param_set, first_use, body, probes_to_add, probes_to_remove.
  destruct (kstrtoul buf 16) as [ret value].
  destruct (ret <? 0); [reflexivity|].
  unfold bind, gets, pure, return_, modify, call.
  destruct (negb (initialized s =? 0)).
  - destruct (plant_probes DEFAULT_PROBES s) as [r s0].
    destruct (r <? 0); [reflexivity|]. now destruct (plant_probes _ _).
  - now destruct (plant_probes _ _).
Qed.

Lemma one_probe_param_set_eq (probe : probes) (buf : string) (s : registry) :
  one_probe_param_set (Some probe) buf s =
  let (ret, value) := kstrtoul buf 0 in
  if ret <? 0 then (ret, s) else
  match first_use s with
  | inl out => out
  | inr (ret, sp) =>
    if c_true (ulong value) then
      if c_true (Z.land (mask probe) (u32 (Z.lnot (loaded_probes sp))))
      then plant_probes (mask probe) sp
      else (ret, sp)
    else
      if c_true (Z.land (mask probe) (loaded_probes sp))
      then (ret, unplant_probes (mask probe) sp)
      else (ret, sp)
  end.
Proof.
  unfold one_probe_param_set, first_use, body.
  destruct (kstrtoul buf 0) as [ret value].
  destruct (ret <? 0); [reflexivity|].
  unfold bind, gets, pure, return_, modify, call.
  destruct (negb (initialized s =? 0)).
  - destruct (plant_probes DEFAULT_PROBES s) as [r s0].
    destruct (r <? 0); [reflexivity|]. cbv beta iota.
    destruct (c_true (ulong value)).
    + destruct (c_true (Z.land (mask probe) _)); [now destruct (plant_probes _ _) | reflexivity].
    + now destruct (c_true (Z.land (mask probe) _)).
  - cbv beta iota. destruct (c_true (ulong value)).
    + destruct (c_true (Z.land (mask probe) _)); [now destruct (plant_probes _ _) | reflexivity].
    + now destruct (c_true (Z.land (mask probe) _)).
Qed.

(** * Planting a single bit *)

Ltac eval_requested :=
  repeat match goal with
         | |- context [requested ?j (Z.shiftl 1 (probe_bit ?k))] =>
             let v := eval vm_compute in (requested j (Z.shiftl 1 (probe_bit k))) in
             change (requested j (Z.shiftl 1 (probe_bit k))) with v
         end.

Lemma plant_probes_single (k : probe_kind) (s : registry) :
  plant_probes (Z.shiftl 1 (probe_bit k)) s =
  match plant_one (Z.shiftl 1 (probe_bit k)) k 0 s with
  | Next e s1 => (e, s1)
  | Return r s1 => (r, s1)
  end.
Proof.
  rewrite plant_probes_stanzas. unfold plant_order.
  destruct k;
    repeat (rewrite plant_loop_cons, plant_one_cases; eval_requested; cbv beta iota;
            repeat match goal with
                   | |- context [sibling_loaded ?j ?t] => destruct (sibling_loaded j t)
                   | |- context [kprobes ?l ?h] => destruct (kprobes l h)
                   end);
    rewrite ?plant_loop_nil, ?plant_one_cases; eval_requested; reflexivity.
Qed.

(** * The discipline of plants and unplants *)

Lemma bracketed_app (h : hook) (st : bool) (l l' : list kprobe_call) :
  bracketed h st (l ++ l')
  = bracketed h st l && bracketed h (fold_left (planted_step h) l st) l'.
Proof.
  revert st. induction l as [|c l IH]; intros st; simpl; [reflexivity|].
  now rewrite IH, andb_assoc.
Qed.

Lemma bracketed_snoc (h : hook) (l : list kprobe_call) (c : kprobe_call) :
  bracketed h false (l ++ [c])
  = bracketed h false l && call_allowed h (planted l h) c.
Proof.
  rewrite bracketed_app. simpl. now rewrite andb_true_r.
Qed.

Lemma bracketed_unplant_piece (h h' : hook) (b st : bool) :
  bracketed h st (if b then [Unplant h'] else [])
  = negb (b && hook_eqb h h') || st.
Proof.
  destruct b; simpl; [|reflexivity].
  unfold call_allowed. simpl. destruct (hook_eqb h h'); simpl;
    [now rewrite andb_true_r | reflexivity].
Qed.

Lemma free_hook (k : probe_kind) (s : registry) :
  probe_loaded k s = false -> sibling_loaded k s = false ->
  in_use (probe_hook k) (loaded_probes s) = false.
Proof.
  unfold probe_loaded, sibling_loaded, probe_loaded. rewrite in_use_bits.
  destruct k; simpl; intros H1 H2; rewrite ?H1, ?H2; reflexivity.
Qed.

Lemma probe_loaded_bit_set (j k : probe_kind) (s : registry) :
  j <> k -> probe_loaded j (bit_set k s) = probe_loaded j s.
Proof.
  intros Hne. unfold probe_loaded, bit_set. cbn [loaded_probes set_loaded_probes].
  pose proof (probe_bit_range k).
  rewrite testbit_lor_bit by lia.
  destruct (Z.eqb_spec (probe_bit k) (probe_bit j)) as [E|E].
  - apply probe_bit_inj in E. congruence.
  - apply orb_false_r.
Qed.

(** Planting bits that are not loaded keeps to the discipline of every
    hook. *)
Lemma plant_loop_bracketed (new_probes : Z) (ks : list probe_kind) :
  NoDup ks ->
  forall err s,
    (forall h, planted (kprobe_log s) h = in_use h (loaded_probes s)) ->
    (forall h, bracketed h false (kprobe_log s) = true) ->
    (forall k, In k ks -> requested k new_probes = true -> probe_loaded k s = false) ->
    forall h,
      bracketed h false (kprobe_log (snd (body (plant_loop ks new_probes err) s))) = true.
Proof.
  induction 1 as [|k ks Hnotin Hnodup IH]; intros err s Hhooks Hbr Hclear h.
  - apply Hbr.
  - rewrite plant_loop_cons, plant_one_cases.
    assert (Hrest : forall s0, (forall j, j <> k -> probe_loaded j s0 = probe_loaded j s) ->
              forall j, In j ks -> requested j new_probes = true -> probe_loaded j s0 = false).
    { intros s0 Hs0 j Hj Hreq. rewrite Hs0.
      - apply Hclear; [now right | assumption].
      - intros ->. contradiction. }
    destruct (requested k new_probes) eqn:Hreq.
    + pose proof (Hclear k (or_introl eq_refl) Hreq) as Hk.
      destruct (sibling_loaded k s) eqn:Hsib.
      * apply IH.
        -- intros h0. cbn [bit_set loaded_probes kprobe_log set_loaded_probes].
           rewrite in_use_lor, Hhooks.
           destruct (hook_eqb h0 (probe_hook k)) eqn:E; [|now rewrite orb_false_r].
           apply hook_eqb_eq in E. subst h0. now rewrite (sibling_in_use _ _ Hsib).
        -- exact Hbr.
        -- apply Hrest. intros j Hj. now apply probe_loaded_bit_set.
      * pose proof (free_hook k s Hk Hsib) as Hfree.
        assert (Hallowed : forall r h0,
                  call_allowed h0 (planted (kprobe_log s) h0) (Plant (probe_hook k) r) = true).
        { intros r h0. unfold call_allowed. cbn [is_plant is_unplant].
          destruct (hook_eqb h0 (probe_hook k)) eqn:E; [|reflexivity].
          apply hook_eqb_eq in E. subst h0. now rewrite Hhooks, Hfree. }
        destruct (kprobes (kprobe_log s) (probe_hook k)) eqn:Hp.
        -- apply IH.
           ++ intros h0.
              cbn [bit_set loaded_probes kprobe_log set_loaded_probes record_call].
              now rewrite in_use_lor, planted_record_ok, Hhooks.
           ++ intros h0. cbn [bit_set kprobe_log set_loaded_probes record_call].
              now rewrite bracketed_snoc, Hbr, Hallowed.
           ++ apply Hrest. intros j Hj.
              now rewrite probe_loaded_bit_set.
        -- cbn [snd kprobe_log record_call].
           now rewrite bracketed_snoc, Hbr, Hallowed.
    + apply IH; [assumption | assumption |].
      apply Hrest. reflexivity.
Qed.

Lemma plant_order_nodup : NoDup plant_order.
Proof.
  unfold plant_order.
  repeat (constructor; [simpl; intros H;
                        repeat (destruct H as [H|H]; [discriminate H|]); exact H|]).
  constructor.
Qed.

Lemma plant_probes_bracketed (new_probes : Z) (s : registry) :
  (forall h, planted (kprobe_log s) h = in_use h (loaded_probes s)) ->
  (forall h, bracketed h false (kprobe_log s) = true) ->
  (forall k, requested k new_probes = true -> probe_loaded k s = false) ->
  forall h, bracketed h false (kprobe_log (snd (plant_probes new_probes s))) = true.
Proof.
  intros Hhooks Hbr Hclear h. rewrite plant_probes_stanzas.
  apply plant_loop_bracketed; auto using plant_order_nodup.
Qed.

Lemma unplant_probes_bracketed (removed : Z) (s : registry) :
  submask removed (loaded_probes s) ->
  (forall h, planted (kprobe_log s) h = in_use h (loaded_probes s)) ->
  (forall h, bracketed h false (kprobe_log s) = true) ->
  forall h, bracketed h false (kprobe_log (unplant_probes removed s)) = true.
Proof.
  intros Hsub Hhooks Hbr h. rewrite unplant_probes_eq. cbn [kprobe_log].
  unfold unplant_calls.
  rewrite bracketed_app, Hbr, !bracketed_app, <- !fold_left_app.
  rewrite !bracketed_unplant_piece, !fold_left_app, !planted_unplant_piece.
  fold (planted (kprobe_log s) h). rewrite Hhooks, !in_use_bits.
  pose proof (submask_bit _ _ PROBE_TCP_CONNECT Hsub) as H0.
  pose proof (submask_bit _ _ PROBE_TCP_ACCEPT Hsub) as H1.
  pose proof (submask_bit _ _ PROBE_TCP_CLOSE Hsub) as H2.
  pose proof (submask_bit _ _ PROBE_UDP_CONNECT Hsub) as H3.
  pose proof (submask_bit _ _ PROBE_UDP_BIND Hsub) as H4.
  pose proof (submask_bit _ _ PROBE_UDP_CLOSE Hsub) as H5.
  destruct h; cbn [hook_eqb]; rewrite ?andb_false_r, ?andb_true_r, ?Z.lxor_spec;
    cbn [negb orb andb];
    repeat match goal with
           | H : Z.testbit removed ?k = true -> _ |- context [Z.testbit removed ?k] =>
               destruct (Z.testbit removed k);
               [ rewrite (H eq_refl) in * | ]; clear H
           end;
    repeat match goal with
           | |- context [Z.testbit (loaded_probes s) ?k] =>
               destruct (Z.testbit (loaded_probes s) k)
           end;
    reflexivity.
Qed.

Lemma testbit_not_loaded (k : probe_kind) (loaded : Z) :
  Z.testbit (u32 (Z.lnot loaded)) (probe_bit k) = negb (Z.testbit loaded (probe_bit k)).
Proof.
  pose proof (probe_bit_range k) as H.
  rewrite testbit_u32, testbit_lnot.
  destruct (Z.ltb_spec (probe_bit k) 32); [|lia].
  destruct (Z.leb_spec 0 (probe_bit k)); [reflexivity | lia].
Qed.

Lemma requested_single (j k : probe_kind) :
  requested j (Z.shiftl 1 (probe_bit k)) = true -> j = k.
Proof.
  unfold requested. pose proof (probe_bit_range k).
  rewrite testbit_bit by lia. intros E. apply Z.eqb_eq in E.
  symmetry. now apply probe_bit_inj.
Qed.

Lemma to_add_not_loaded (wanted : Z) (sp : registry) (k : probe_kind) :
  requested k (probes_to_add wanted (loaded_probes sp)) = true ->
  probe_loaded k (unplant_probes (probes_to_remove wanted (loaded_probes sp)) sp) = false.
Proof.
  unfold requested, probe_loaded, probes_to_add, probes_to_remove.
  rewrite unplant_probes_eq. cbn [loaded_probes].
  rewrite Z.lxor_spec, !testbit_u32, !Z.land_spec, testbit_u32, testbit_lnot.
  destruct (Z.testbit (loaded_probes sp) (probe_bit k)).
  - rewrite !andb_false_r. discriminate.
  - intros _. now rewrite !andb_false_r.
Qed.

Lemma exec_bracketed (r : request) (s : registry) :
  consistent s ->
  (forall h, bracketed h false (kprobe_log s) = true) ->
  forall h, bracketed h false (kprobe_log (exec r s)) = true.
Proof.
  intros Hc Hbr. pose proof (cons_uninit s Hc) as Hi.
  pose proof (cons_hooks s Hc) as Hh.
  destruct r as [|buf|k buf|]; simpl.
  - now rewrite probes_init_uninit.
  - rewrite all_probes_param_set_uninit by assumption.
    destruct (kstrtoul buf 16) as [ret value]. cbv zeta.
    destruct (ret <? 0); [assumption|].
    apply plant_probes_bracketed.
    + apply unplant_probes_hooks; [apply submask_to_remove | assumption].
    + apply unplant_probes_bracketed; [apply submask_to_remove | assumption | assumption].
    + intros k. apply to_add_not_loaded.
  - rewrite one_probe_param_set_uninit by assumption.
    destruct (kstrtoul buf 0) as [ret value].
    destruct (ret <? 0); [assumption|].
    rewrite mask_probe_entry, !c_true_mask_loaded, testbit_not_loaded.
    destruct (c_true (ulong value)).
    + destruct (Z.testbit (loaded_probes s) (probe_bit k)) eqn:E; [assumption|].
      simpl negb. cbv iota. apply plant_probes_bracketed; [assumption | assumption |].
      intros j Hj. apply requested_single in Hj. now subst j.
    + destruct (Z.testbit (loaded_probes s) (probe_bit k)) eqn:E; [|assumption].
      simpl. apply unplant_probes_bracketed; [|assumption|assumption].
      now apply submask_bit_loaded.
  - apply unplant_probes_bracketed; [apply submask_refl | assumption | assumption].
Qed.

Lemma run_bracketed (reqs : list request) (s : registry) :
  consistent s ->
  (forall h, bracketed h false (kprobe_log s) = true) ->
  forall h, bracketed h false (kprobe_log (run reqs s)) = true.
Proof.
  revert s. induction reqs as [|r reqs IH]; intros s Hc Hbr; [assumption|].
  simpl. apply IH; [now apply exec_consistent | now apply exec_bracketed].
Qed.

Lemma run_boot_bracketed (reqs : list request) (h : hook) :
  bracketed h false (kprobe_log (run reqs registry_boot)) = true.
Proof.
  apply run_bracketed; [apply consistent_boot | reflexivity].
Qed.

(** * One write to a boolean parameter *)

Lemma issued_refl (s : registry) : issued s s = [].
Proof. unfold issued. apply skipn_all. Qed.

(** What one write to a boolean parameter does to a registry that was never
    marked initialised. *)
Lemma toggle_cases (k : probe_kind) (buf : string) (s : registry) :
  initialized s = 0 ->
  let s' := exec (ReqOneProbe k buf) s in
  (s' = s)
  \/ (probe_loaded k s = false /\ sibling_loaded k s = true /\
      s' = bit_set k s)
  \/ (probe_loaded k s = false /\ sibling_loaded k s = false /\
      s' = bit_set k (record_call (Plant (probe_hook k) PlantOk) s))
  \/ (probe_loaded k s = false /\ sibling_loaded k s = false /\
      exists e, s' = record_call (Plant (probe_hook k) (PlantFailed e)) s)
  \/ (probe_loaded k s = true /\
      s' = unplant_probes (Z.shiftl 1 (probe_bit k)) s).
Proof.
  intros Hi. simpl. rewrite one_probe_param_set_uninit by assumption.
  destruct (kstrtoul buf 0) as [ret value].
  destruct (ret <? 0); [now left|].
  rewrite mask_probe_entry, !c_true_mask_loaded, testbit_not_loaded.
  unfold probe_loaded.
  destruct (c_true (ulong value)).
  - destruct (Z.testbit (loaded_probes s) (probe_bit k)) eqn:Hk; [now left|].
    simpl negb. cbv iota. rewrite plant_probes_single, plant_one_cases.
    replace (requested k (Z.shiftl 1 (probe_bit k))) with true
      by (now destruct k).
    destruct (sibling_loaded k s) eqn:Hsib; [right; left; auto|].
    destruct (kprobes (kprobe_log s) (probe_hook k)) eqn:Hp.
    + right; right; left. auto.
    + right; right; right; left. split; [reflexivity|]. split; [reflexivity|].
      now exists errno.
  - destruct (Z.testbit (loaded_probes s) (probe_bit k)) eqn:Hk; [|now left].
    right; right; right; right. auto.
Qed.

Lemma issued_record (c : kprobe_call) (s : registry) :
  issued s (record_call c s) = [c].
Proof. now apply issued_app. Qed.

Lemma issued_bit_set (k : probe_kind) (s s0 : registry) :
  issued s (bit_set k s0) = issued s s0.
Proof. reflexivity. Qed.

Lemma issued_unplant_probes (removed : Z) (s : registry) :
  issued s (unplant_probes removed s)
  = unplant_calls removed (Z.lxor (loaded_probes s) removed).
Proof.
  apply issued_app. now rewrite unplant_probes_eq.
Qed.

Lemma in_use_close (loaded : Z) :
  in_use close_jprobe loaded = true <->
  Z.land loaded (Z.lor (Z.shiftl 1 PROBE_TCP_CLOSE) (Z.shiftl 1 PROBE_UDP_CLOSE)) <> 0.
Proof.
  unfold in_use, hook_mask, c_true.
  rewrite negb_true_iff. split.
  - intros H E. rewrite E in H. discriminate.
  - intros H. now apply Z.eqb_neq.
Qed.

(** C1.  Reference counting of the shared close hook.  In every state [s]
    the registry reaches from boot by any sequence of requests, the physical
    [close_jprobe] is planted iff one of the TCP_CLOSE and UDP_CLOSE bits is
    set in [loaded_probes], and in the whole history every plant of it was
    issued while it was not planted and every unplant while it was.  A toggle
    of one of the two bits from [s] issues at most one call on the hook; it
    issues no plant when the sibling bit is set, and it issues an unplant only
    when the bit toggled was set and both bits are clear afterwards. *)
Theorem close_jprobe_refcount (reqs : list request) (k : probe_kind) (buf : string) :
  probe_hook k = close_jprobe ->
  let s := run reqs registry_boot in
  let s' := exec (ReqOneProbe k buf) s in
  let close_bits := Z.lor (Z.shiftl 1 PROBE_TCP_CLOSE) (Z.shiftl 1 PROBE_UDP_CLOSE) in
  (planted (kprobe_log s) close_jprobe = true <-> Z.land (loaded_probes s) close_bits <> 0)
  /\ bracketed close_jprobe false (kprobe_log s) = true
  /\ (plants close_jprobe (issued s s') + unplants close_jprobe (issued s s') <= 1)%nat
  /\ (sibling_loaded k s = true -> plants close_jprobe (issued s s') = 0%nat)
  /\ (unplants close_jprobe (issued s s') <> 0%nat ->
      probe_loaded k s = true /\ Z.land (loaded_probes s') close_bits = 0).
Proof.
  intros Hk s s' close_bits.
  pose proof (run_boot_consistent reqs) as Hc. fold s in Hc.
  split; [rewrite (cons_hooks s Hc); apply in_use_close|].
  split; [apply run_boot_bracketed|].
  destruct (toggle_cases k buf s (cons_uninit s Hc))
    as [E|[(Hl & Hs & E)|[(Hl & Hs & E)|[(Hl & Hs & e & E)|(Hl & E)]]]];
    fold s' in E; rewrite E.
  - rewrite issued_refl.
    split; [unfold plants, unplants; simpl; lia|]. split; [intros _; reflexivity|].
    intros Hu. now contradiction Hu.
  - rewrite issued_bit_set, issued_refl.
    split; [unfold plants, unplants; simpl; lia|]. split; [intros _; reflexivity|].
    intros Hu. now contradiction Hu.
  - rewrite issued_bit_set, issued_record, Hs, Hk.
    split; [unfold plants, unplants; simpl; lia|]. split; [discriminate|].
    intros Hu. now contradiction Hu.
  - rewrite issued_record, Hs, Hk.
    split; [unfold plants, unplants; simpl; lia|]. split; [discriminate|].
    intros Hu. now contradiction Hu.
  - rewrite issued_unplant_probes.
    assert (Hplants : plants close_jprobe
              (unplant_calls (Z.shiftl 1 (probe_bit k))
                 (Z.lxor (loaded_probes s) (Z.shiftl 1 (probe_bit k)))) = 0%nat).
    { unfold unplant_calls, plants.
      repeat match goal with
             | |- context [if ?c then _ else _] => destruct c
             end; reflexivity. }
    rewrite Hplants. split; [|split; [reflexivity|]].
    + unfold unplant_calls, unplants.
      repeat match goal with
             | |- context [if ?c then _ else _] => destruct c
             end; simpl; lia.
    + intros Hu. split; [assumption|].
      rewrite unplant_probes_eq. cbn [loaded_probes].
      destruct (in_use close_jprobe (Z.lxor (loaded_probes s) (Z.shiftl 1 (probe_bit k))))
        eqn:Hin.
      * exfalso. apply Hu. unfold unplant_calls, unplants. rewrite Hin.
        destruct k; try discriminate Hk; reflexivity.
      * unfold in_use, hook_mask, c_true in Hin.
        apply negb_false_iff, Z.eqb_eq in Hin. exact Hin.
Qed.

(** * When no plant fails *)

Lemma issued_trans (s s1 s2 : registry) (l1 l2 : list kprobe_call) :
  kprobe_log s1 = kprobe_log s ++ l1 ->
  kprobe_log s2 = kprobe_log s1 ++ l2 ->
  issued s s2 = issued s s1 ++ issued s1 s2.
Proof.
  intros E1 E2.
  rewrite (issued_app s s1 l1 E1), (issued_app s1 s2 l2 E2).
  apply issued_app. now rewrite E2, E1, app_assoc.
Qed.

Lemma plants_ok_app (l1 l2 : list kprobe_call) :
  plants_ok (l1 ++ l2) = plants_ok l1 && plants_ok l2.
Proof. apply forallb_app. Qed.

Lemma plant_loop_ok (new_probes : Z) (ks : list probe_kind) (err : Z) (s : registry) :
  plants_ok (issued s (snd (body (plant_loop ks new_probes err) s))) = true ->
  (fst (body (plant_loop ks new_probes err) s) = err
   \/ fst (body (plant_loop ks new_probes err) s) = 0)
  /\ forall k, In k ks -> requested k new_probes = true ->
               probe_loaded k (snd (body (plant_loop ks new_probes err) s)) = true.
Proof.
  revert err s. induction ks as [|k ks IH]; intros err s.
  - intros _. split; [now left | intros k []].
  - rewrite plant_loop_cons, plant_one_cases.
    destruct (requested k new_probes) eqn:Hreq.
    + destruct (sibling_loaded k s) eqn:Hsib.
      * intros Hok. destruct (IH err (bit_set k s) Hok) as [Hret Hbits].
        split; [exact Hret|]. intros j [<-|Hj] Hj'; [|now apply Hbits].
        apply plant_loop_keeps. cbn [bit_set loaded_probes set_loaded_probes].
        pose proof (probe_bit_range k).
        rewrite testbit_lor_bit, Z.eqb_refl by lia. apply orb_true_r.
      * destruct (kprobes (kprobe_log s) (probe_hook k)) eqn:Hp.
        -- set (s1 := bit_set k (record_call (Plant (probe_hook k) PlantOk) s)).
           destruct (plant_loop_log ks new_probes 0 s1) as [l El].
           rewrite (issued_trans s s1 _ [Plant (probe_hook k) PlantOk] l eq_refl El).
           rewrite plants_ok_app. intros Hok. apply andb_true_iff in Hok as [_ Hok].
           destruct (IH 0 s1 Hok) as [Hret Hbits].
           split; [right; now destruct Hret|]. intros j [<-|Hj] Hj'; [|now apply Hbits].
           apply plant_loop_keeps. unfold s1.
           cbn [bit_set loaded_probes set_loaded_probes record_call].
           pose proof (probe_bit_range k).
           rewrite testbit_lor_bit, Z.eqb_refl by lia. apply orb_true_r.
        -- cbn [snd]. rewrite issued_record. discriminate.
    + intros Hok. destruct (IH err s Hok) as [Hret Hbits].
      split; [exact Hret|]. intros j [<-|Hj] Hj'; [congruence | now apply Hbits].
Qed.

Lemma probe_bit_onto (n : Z) :
  0 <= n < 6 -> exists k, In k plant_order /\ probe_bit k = n.
Proof.
  intros H.
  assert (E : n = 0 \/ n = 1 \/ n = 2 \/ n = 3 \/ n = 4 \/ n = 5) by lia.
  destruct E as [->|[->|[->|[->|[->| ->]]]]];
    [ exists tcp_connect | exists tcp_accept | exists tcp_close
    | exists udp_connect | exists udp_bind | exists udp_close ];
    (split; [simpl; auto 10 | reflexivity]).
Qed.

(** When every plant it issues succeeds, [plant_probes] returns 0 and sets
    exactly the requested bits of the six probe kinds. *)
Lemma plant_probes_ok (new_probes : Z) (s : registry) :
  plants_ok (issued s (snd (plant_probes new_probes s))) = true ->
  fst (plant_probes new_probes s) = 0
  /\ forall n, Z.testbit (loaded_probes (snd (plant_probes new_probes s))) n
               = Z.testbit (loaded_probes s) n
                 || (Z.testbit new_probes n && (0 <=? n) && (n <? 6)).
Proof.
  intros Hok. pose proof Hok as Hok'. rewrite plant_probes_stanzas in Hok'.
  destruct (plant_loop_ok _ _ _ _ Hok') as [Hret Hbits].
  rewrite <- plant_probes_stanzas in Hret, Hbits.
  split; [now destruct Hret|]. intros n.
  destruct (Z.testbit (loaded_probes (snd (plant_probes new_probes s))) n) eqn:E.
  - apply plant_probes_sets in E as [E|[E Hn]].
    + now rewrite E.
    + rewrite E. destruct (Z.leb_spec 0 n); [|lia]. destruct (Z.ltb_spec n 6); [|lia].
      now rewrite orb_true_r.
  - symmetry. apply orb_false_iff. split.
    + destruct (Z.testbit (loaded_probes s) n) eqn:E0; [|reflexivity].
      apply (plant_probes_keeps new_probes) in E0. congruence.
    + destruct (Z.testbit new_probes n) eqn:En; [|reflexivity].
      destruct (Z.leb_spec 0 n); [|reflexivity].
      destruct (Z.ltb_spec n 6); [|reflexivity].
      destruct (probe_bit_onto n ltac:(lia)) as (k & Hin & <-).
      specialize (Hbits k Hin En). unfold probe_loaded in Hbits. congruence.
Qed.

(** * Reconciling against a wanted mask *)

Lemma unplant_calls_ok (removed after : Z) :
  plants_ok (unplant_calls removed after) = true.
Proof.
  unfold unplant_calls.
  repeat match goal with
         | |- context [if ?c then _ else _] => destruct c
         end; reflexivity.
Qed.

Lemma ulong_mask (wanted : Z) :
  0 <= wanted <= ALL_PROBES -> ulong wanted = wanted.
Proof.
  unfold ALL_PROBES, ulong. intros H. apply Z.mod_small.
  change (2 ^ 64) with 18446744073709551616. lia.
Qed.

(** [uninstall(toRemove)] then [install(toAdd)] reaches the wanted mask. *)
Lemma reconcile_core (wanted : Z) (sp : registry) :
  0 <= wanted <= ALL_PROBES ->
  is_u32 (loaded_probes sp) ->
  let su := unplant_probes (probes_to_remove (ulong wanted) (loaded_probes sp)) sp in
  let s' := snd (plant_probes (probes_to_add (ulong wanted) (loaded_probes sp)) su) in
  plants_ok (issued su s') = true ->
  loaded_probes s' = wanted.
Proof.
  intros Hw Hu su s' Hok.
  destruct (plant_probes_ok _ _ Hok) as [_ Hbits]. fold s' in Hbits.
  pose proof Hw as Hw'. apply mask_range_bits in Hw' as [Hw0 Hwhi].
  apply is_u32_bits in Hu as [Hl0 Hlhi].
  apply Z.bits_inj'. intros n Hn. rewrite Hbits.
  unfold su. rewrite unplant_probes_eq. cbn [loaded_probes].
  unfold probes_to_add, probes_to_remove. rewrite (ulong_mask _ Hw).
  rewrite Z.lxor_spec, !testbit_u32, !Z.land_spec, !testbit_u32, testbit_ulong,
    !testbit_lnot.
  destruct (Z.leb_spec 0 n); [|lia].
  destruct (Z.ltb_spec n 6).
  - destruct (Z.ltb_spec n 32); [|lia]. destruct (Z.ltb_spec n 64); [|lia].
    destruct (Z.testbit wanted n), (Z.testbit (loaded_probes sp) n); reflexivity.
  - rewrite (Hwhi n) by lia.
    destruct (Z.ltb_spec n 32).
    + destruct (Z.ltb_spec n 64); [|lia].
      destruct (Z.testbit (loaded_probes sp) n); reflexivity.
    + rewrite (Hlhi n) by lia. reflexivity.
Qed.

Lemma first_use_log (s : registry) :
  exists l, kprobe_log (snd (match first_use s with inl o => o | inr o => o end))
            = kprobe_log s ++ l.
Proof.
  unfold first_use. destruct (negb (initialized s =? 0)).
  - destruct (plant_probes_log DEFAULT_PROBES s) as [l E].
    destruct (plant_probes DEFAULT_PROBES s) as [r s0]. exists l.
    now destruct (r <? 0).
  - exists []. now rewrite app_nil_r.
Qed.

Lemma first_use_u32 (s : registry) :
  is_u32 (loaded_probes s) ->
  is_u32 (loaded_probes (snd (match first_use s with inl o => o | inr o => o end))).
Proof.
  intros Hu. unfold first_use. destruct (negb (initialized s =? 0)); [|assumption].
  pose proof (plant_probes_u32 DEFAULT_PROBES s Hu) as H.
  destruct (plant_probes DEFAULT_PROBES s) as [r s0].
  now destruct (r <? 0).
Qed.

(** When no plant fails the prelude falls through. *)
Lemma first_use_ok (s : registry) :
  plants_ok (issued s (snd (match first_use s with inl o => o | inr o => o end))) = true ->
  exists ret sp, first_use s = inr (ret, sp).
Proof.
  unfold first_use. destruct (negb (initialized s =? 0)); [|eauto].
  pose proof (plant_probes_ok DEFAULT_PROBES s) as H.
  destruct (plant_probes DEFAULT_PROBES s) as [r s0]. cbn [fst snd] in H.
  destruct (r <? 0) eqn:E; [|eauto].
  cbn [snd]. intros Hok. destruct (H Hok) as [-> _]. discriminate.
Qed.

Lemma all_probes_param_set_log (buf : string) (s : registry) :
  exists l, kprobe_log (snd (all_probes_param_set buf s)) = kprobe_log s ++ l.
Proof.
  rewrite all_probes_param_set_eq. destruct (kstrtoul buf 16) as [ret value].
  destruct (ret <? 0); [exists []; now rewrite app_nil_r|].
  destruct (first_use_log s) as [l0 E0].
  destruct (first_use s) as [o|[r sp]]; [now exists l0|].
  cbn [snd] in E0.
  destruct (plant_probes_log (probes_to_add (ulong value) (loaded_probes sp))
              (unplant_probes (probes_to_remove (ulong value) (loaded_probes sp)) sp))
    as [l1 E1].
  rewrite E1, unplant_probes_eq. cbn [kprobe_log]. rewrite E0.
  eexists. rewrite <- !app_assoc. reflexivity.
Qed.

Lemma all_probes_param_set_u32 (buf : string) (s : registry) :
  is_u32 (loaded_probes s) ->
  is_u32 (loaded_probes (snd (all_probes_param_set buf s))).
Proof.
  intros Hu. rewrite all_probes_param_set_eq. destruct (kstrtoul buf 16) as [ret value].
  destruct (ret <? 0); [assumption|].
  pose proof (first_use_u32 s Hu) as H0.
  destruct (first_use s) as [o|[r sp]]; [assumption|].
  cbn [snd] in H0.
  apply plant_probes_u32, unplant_probes_u32; [apply is_u32_u32 | assumption].
Qed.

(** One write of a six-bit mask to the [probes] parameter leaves exactly
    that mask loaded when no plant fails. *)
Lemma reconcile_once (buf : string) (s : registry) (ret wanted : Z) :
  kstrtoul buf 16 = (ret, wanted) -> 0 <= ret ->
  0 <= wanted <= ALL_PROBES ->
  is_u32 (loaded_probes s) ->
  plants_ok (issued s (snd (all_probes_param_set buf s))) = true ->
  loaded_probes (snd (all_probes_param_set buf s)) = wanted.
Proof.
  intros Hparse Hret Hw Hu. rewrite all_probes_param_set_eq, Hparse.
  destruct (Z.ltb_spec ret 0); [lia|].
  pose proof (first_use_log s) as [l0 E0].
  pose proof (first_use_u32 s Hu) as Hu0.
  pose proof (first_use_ok s) as Hok0.
  destruct (first_use s) as [o|[r sp]].
  - intros Hok. destruct (Hok0 Hok) as (? & ? & ?). discriminate.
  - cbn [snd] in E0, Hu0. clear Hok0.
    set (su := unplant_probes (probes_to_remove (ulong wanted) (loaded_probes sp)) sp).
    destruct (plant_probes_log (probes_to_add (ulong wanted) (loaded_probes sp)) su)
      as [l1 E1].
    assert (Eu : kprobe_log su = kprobe_log sp
                   ++ unplant_calls (probes_to_remove (ulong wanted) (loaded_probes sp))
                        (loaded_probes su)).
    { unfold su. now rewrite unplant_probes_eq. }
    assert (Es : kprobe_log su = kprobe_log s
                   ++ (l0 ++ unplant_calls
                                (probes_to_remove (ulong wanted) (loaded_probes sp))
                                (loaded_probes su))).
    { now rewrite Eu, E0, app_assoc. }
    rewrite (issued_trans s su _ _ _ Es E1), plants_ok_app.
    intros Hok. apply andb_true_iff in Hok as [_ Hok].
    now apply reconcile_core.
Qed.

(** A complement to C5: on a consistent registry a written value with bits
    outside the six probe kinds is cut down to those six bits. *)
Lemma reconcile_truncates (buf : string) (s : registry) (ret value : Z) :
  kstrtoul buf 16 = (ret, value) -> 0 <= ret ->
  consistent s ->
  plants_ok (issued s (snd (all_probes_param_set buf s))) = true ->
  loaded_probes (snd (all_probes_param_set buf s)) = Z.land (ulong value) ALL_PROBES.
Proof.
  intros Hparse Hret Hc.
  rewrite all_probes_param_set_uninit, Hparse by apply (cons_uninit s Hc).
  cbv zeta. destruct (Z.ltb_spec ret 0); [lia|].
  set (wanted := ulong value).
  set (su := unplant_probes (u32 (Z.land (ulong (Z.lnot wanted)) (loaded_probes s))) s).
  set (add := u32 (Z.land wanted (u32 (Z.lnot (loaded_probes s))))).
  destruct (plant_probes_log add su) as [l1 E1].
  assert (Eu : kprobe_log su = kprobe_log s
                 ++ unplant_calls (u32 (Z.land (ulong (Z.lnot wanted)) (loaded_probes s)))
                      (loaded_probes su)).
  { unfold su. now rewrite unplant_probes_eq. }
  rewrite (issued_trans s su _ _ _ Eu E1), plants_ok_app.
  intros Hok. apply andb_true_iff in Hok as [_ Hok].
  destruct (plant_probes_ok _ _ Hok) as [_ Hbits].
  pose proof (cons_range s Hc) as Hr. apply mask_range_bits in Hr as [_ Hhi].
  apply Z.bits_inj'. intros n Hn. rewrite Hbits.
  unfold su, add. rewrite unplant_probes_eq. cbn [loaded_probes].
  rewrite Z.lxor_spec, !testbit_u32, !Z.land_spec, !testbit_u32, testbit_ulong,
    !testbit_lnot.
  change ALL_PROBES with (Z.ones 6). rewrite Z.testbit_ones_nonneg by lia.
  destruct (Z.leb_spec 0 n); [|lia].
  destruct (Z.ltb_spec n 6).
  - destruct (Z.ltb_spec n 32); [|lia]. destruct (Z.ltb_spec n 64); [|lia].
    destruct (Z.testbit wanted n), (Z.testbit (loaded_probes s) n); reflexivity.
  - rewrite (Hhi n) by lia. now rewrite !andb_false_r.
Qed.

(** C5.  Reconcile convergence.  Writing a mask [A] and then a six-bit mask
    [B] to the [probes] parameter ([all_probes_param_set], which removes
    [active & ~wanted] and then adds [wanted & ~active]) leaves
    [loaded_probes] equal to [B], provided no plant issued by the two calls
    fails. *)
Theorem reconcile_converges (bufA bufB : string) (A B : Z) (s : registry) :
  is_u32 (loaded_probes s) ->
  kstrtoul bufA 16 = (0, A) ->
  kstrtoul bufB 16 = (0, B) ->
  0 <= B <= ALL_PROBES ->
  let s1 := snd (all_probes_param_set bufA s) in
  let s2 := snd (all_probes_param_set bufB s1) in
  plants_ok (issued s s2) = true ->
  loaded_probes s2 = B.
Proof.
  intros Hu HA HB Hb s1 s2 Hok.
  destruct (all_probes_param_set_log bufA s) as [l1 E1]. fold s1 in E1.
  destruct (all_probes_param_set_log bufB s1) as [l2 E2]. fold s2 in E2.
  rewrite (issued_trans s s1 s2 l1 l2 E1 E2), plants_ok_app in Hok.
  apply andb_true_iff in Hok as [_ Hok].
  apply (reconcile_once bufB s1 0 B); try assumption; [lia|].
  now apply all_probes_param_set_u32.
Qed.

(** * When a plant fails *)

Lemma not_in_use_sibling (k : probe_kind) (s : registry) :
  in_use (probe_hook k) (loaded_probes s) = false -> sibling_loaded k s = false.
Proof.
  intros H. destruct (sibling_loaded k s) eqn:E; [|reflexivity].
  apply sibling_in_use in E. congruence.
Qed.

Lemma not_in_use_loaded (k : probe_kind) (s : registry) :
  in_use (probe_hook k) (loaded_probes s) = false -> probe_loaded k s = false.
Proof.
  intros H. unfold probe_loaded.
  destruct (Z.testbit (loaded_probes s) (probe_bit k)) eqn:E; [|reflexivity].
  apply in_use_probe_loaded in E. congruence.
Qed.

Lemma hook_eqb_neq (a b : hook) : a <> b -> hook_eqb a b = false.
Proof.
  intros H. destruct (hook_eqb a b) eqn:E; [|reflexivity].
  apply hook_eqb_eq in E. contradiction.
Qed.

Lemma plant_loop_fails (new_probes : Z) (k : probe_kind) (e : positive)
      (pre post : list probe_kind) :
  (forall log, kprobes log (probe_hook k) = PlantFailed e) ->
  (forall j log, In j pre -> requested j new_probes = true ->
                 kprobes log (probe_hook j) = PlantOk) ->
  requested k new_probes = true ->
  forall err s,
    in_use (probe_hook k) (loaded_probes s) = false ->
    let out := body (plant_loop (pre ++ k :: post) new_probes err) s in
    fst out = failure_code k
    /\ in_use (probe_hook k) (loaded_probes (snd out)) = false
    /\ forall j, In j pre -> requested j new_probes = true ->
                 probe_loaded j (snd out) = true.
Proof.
  intros Hfail Hpre Hreq. induction pre as [|j pre IH]; intros err s Hfree.
  - simpl app. cbv zeta. rewrite plant_loop_cons, plant_one_cases, Hreq.
    rewrite (not_in_use_sibling _ _ Hfree), Hfail. cbn [fst snd record_call loaded_probes].
    split; [reflexivity|]. split; [assumption|]. intros j [].
  - assert (Hpre' : forall j0 log, In j0 pre -> requested j0 new_probes = true ->
                                   kprobes log (probe_hook j0) = PlantOk).
    { intros j0 log Hin. apply Hpre. now right. }
    specialize (IH Hpre').
    change ((j :: pre) ++ k :: post) with (j :: (pre ++ k :: post)).
    cbv zeta. rewrite plant_loop_cons, plant_one_cases.
    destruct (requested j new_probes) eqn:Hj.
    + assert (Hne : probe_hook k <> probe_hook j).
      { intros E. pose proof (Hpre j [] (or_introl eq_refl) Hj) as H1.
        rewrite <- E, Hfail in H1. discriminate. }
      assert (Hfree' : forall s0, loaded_probes s0 = loaded_probes s ->
                in_use (probe_hook k) (loaded_probes (bit_set j s0)) = false).
      { intros s0 E0. cbn [bit_set loaded_probes set_loaded_probes].
        now rewrite in_use_lor, E0, Hfree, hook_eqb_neq. }
      assert (Hset : forall s0, Z.testbit (loaded_probes (bit_set j s0)) (probe_bit j) = true).
      { intros s0. cbn [bit_set loaded_probes set_loaded_probes].
        pose proof (probe_bit_range j).
        rewrite testbit_lor_bit, Z.eqb_refl by lia. apply orb_true_r. }
      destruct (sibling_loaded j s).
      * destruct (IH err (bit_set j s) (Hfree' s eq_refl)) as (H1 & H2 & H3).
        split; [exact H1|]. split; [exact H2|].
        intros j0 [<-|Hin] Hj0; [|now apply H3].
        apply plant_loop_keeps, Hset.
      * rewrite (Hpre j _ (or_introl eq_refl) Hj).
        destruct (IH 0 (bit_set j (record_call (Plant (probe_hook j) PlantOk) s))
                    (Hfree' _ eq_refl)) as (H1 & H2 & H3).
        split; [exact H1|]. split; [exact H2|].
        intros j0 [<-|Hin] Hj0; [|now apply H3].
        apply plant_loop_keeps, Hset.
    + destruct (IH err s Hfree) as (H1 & H2 & H3).
      split; [exact H1|]. split; [exact H2|].
      intros j0 [<-|Hin] Hj0; [congruence | now apply H3].
Qed.

Lemma plant_order_split (k : probe_kind) :
  exists pre post, plant_order = pre ++ k :: post /\ forall j, In j pre <-> before j k.
Proof.
  destruct k;
    [ exists [], [tcp_accept; tcp_close; udp_connect; udp_bind; udp_close]
    | exists [tcp_connect], [tcp_close; udp_connect; udp_bind; udp_close]
    | exists [tcp_connect; tcp_accept], [udp_connect; udp_bind; udp_close]
    | exists [tcp_connect; tcp_accept; tcp_close], [udp_bind; udp_close]
    | exists [tcp_connect; tcp_accept; tcp_close; udp_connect], [udp_close]
    | exists [tcp_connect; tcp_accept; tcp_close; udp_connect; udp_bind], [] ];
    (split; [reflexivity|]);
    intros j;
    (split;
     [ simpl; intros H;
       repeat (destruct H as [<-|H]; [vm_compute; reflexivity|]); contradiction
     | intros H; destruct j; try (vm_compute in H; discriminate H); simpl; auto 10 ]).
Qed.

(** C4.  Partial success and error tagging of [plant_probes].  Let [k] be a
    requested probe kind whose hook is not in use yet, so that its stanza
    really plants.  If the instrumentation subsystem rejects the hook of [k]
    and accepts the hooks of the kinds requested before [k], [plant_probes]
    returns the failure value of the family of [k] (connect, accept, close or
    bind), leaves the bit of [k] clear, leaves set the bit of every kind
    requested before [k], and clears no bit that was set. *)
Theorem plant_probes_partial_failure
        (new_probes : Z) (s : registry) (k : probe_kind) (e : positive) :
  requested k new_probes = true ->
  in_use (probe_hook k) (loaded_probes s) = false ->
  (forall log, kprobes log (probe_hook k) = PlantFailed e) ->
  (forall j log, before j k -> requested j new_probes = true ->
                 kprobes log (probe_hook j) = PlantOk) ->
  let out := plant_probes new_probes s in
  fst out = failure_code k
  /\ probe_loaded k (snd out) = false
  /\ (forall j, before j k -> requested j new_probes = true ->
                probe_loaded j (snd out) = true)
  /\ (forall n, Z.testbit (loaded_probes s) n = true ->
                Z.testbit (loaded_probes (snd out)) n = true).
Proof.
  intros Hreq Hfree Hfail Hpre out.
  destruct (plant_order_split k) as (pre & post & Hsplit & Hin).
  assert (Hpre' : forall j log, In j pre -> requested j new_probes = true ->
                                kprobes log (probe_hook j) = PlantOk).
  { intros j log Hj. apply Hpre. now apply Hin. }
  destruct (plant_loop_fails new_probes k e pre post Hfail Hpre' Hreq 0 s Hfree)
    as (H1 & H2 & H3).
  rewrite <- Hsplit, <- plant_probes_stanzas in H1, H2, H3. fold out in H1, H2, H3.
  split; [exact H1|]. split; [now apply not_in_use_loaded|].
  split; [intros j Hj; apply H3; now apply Hin|].
  intros n. apply plant_probes_keeps.
Qed.

(** C2.  First-use initialisation.  On the registry as it is at boot, and
    on every registry reached from it, [initialized] is 0, so that
    [probes_init] plants nothing, loads no probe and leaves [initialized] at
    0: the compiled-in [DEFAULT_PROBES] are never installed. *)
Theorem probes_init_skips_defaults (reqs : list request) :
  let s := run reqs registry_boot in
  initialized s = 0
  /\ probes_init s = (0, s)
  /\ probes_init registry_boot = (0, registry_boot).
Proof.
  intros s. pose proof (cons_uninit s (run_boot_consistent reqs)) as Hi.
  split; [exact Hi|]. split; [now apply probes_init_uninit | reflexivity].
Qed.

Lemma submask_of_land (removed loaded : Z) :
  Z.land removed loaded = removed -> submask removed loaded.
Proof.
  intros E n H. rewrite <- E, Z.land_spec in H.
  now apply andb_true_iff in H as [_ H].
Qed.

(** C3, amended.  When every bit of the requested mask [m] is set in the
    active mask, as it is at every call site, [unplant_probes m] leaves
    [loaded_probes] equal to the active mask with the bits of [m] cleared
    and sets no bit that was clear; [unplant_all] leaves no bit set.  The
    function returns nothing and cannot fail. *)
Theorem unplant_probes_clears_requested (m : Z) (s : registry) :
  Z.land m (loaded_probes s) = m ->
  loaded_probes (unplant_probes m s) = Z.land (loaded_probes s) (Z.lnot m)
  /\ (forall n, Z.testbit (loaded_probes (unplant_probes m s)) n = true ->
                Z.testbit (loaded_probes s) n = true)
  /\ loaded_probes (unplant_all s) = 0.
Proof.
  intros Hm. apply submask_of_land in Hm.
  assert (E : loaded_probes (unplant_probes m s) = Z.land (loaded_probes s) (Z.lnot m)).
  { rewrite unplant_probes_eq. cbn [loaded_probes]. now apply lxor_submask. }
  split; [exact E|]. split.
  - intros n. rewrite E, Z.land_spec. intros H. now apply andb_true_iff in H as [H _].
  - unfold unplant_all. rewrite unplant_probes_eq. cbn [loaded_probes].
    apply Z.lxor_nilpotent.
Qed.

(** C10.  Idempotence of a single-bit toggle.  On every registry reached
    from boot, enabling a probe kind whose bit is set, or disabling one whose
    bit is clear, through [one_probe_param_set] returns 0 and leaves the
    registry as it was: the same [loaded_probes] and no call of a plant or
    unplant primitive. *)
Theorem one_probe_toggle_idempotent
        (reqs : list request) (k : probe_kind) (buf : string) (ret value : Z) :
  kstrtoul buf 0 = (ret, value) -> 0 <= ret ->
  let s := run reqs registry_boot in
  (ulong value <> 0 /\ probe_loaded k s = true)
  \/ (ulong value = 0 /\ probe_loaded k s = false) ->
  one_probe_param_set (Some (probe_entry k)) buf s = (0, s)
  /\ issued s (snd (one_probe_param_set (Some (probe_entry k)) buf s)) = [].
Proof.
  intros Hparse Hret s Hcase.
  pose proof (cons_uninit s (run_boot_consistent reqs)) as Hi.
  assert (E : one_probe_param_set (Some (probe_entry k)) buf s = (0, s)).
  { rewrite one_probe_param_set_uninit, Hparse by assumption.
    destruct (Z.ltb_spec ret 0); [lia|].
    rewrite mask_probe_entry, !c_true_mask_loaded, testbit_not_loaded.
    unfold probe_loaded in Hcase. unfold c_true.
    destruct Hcase as [[Hv Hk]|[Hv Hk]].
    - apply Z.eqb_neq in Hv. now rewrite Hv, Hk.
    - apply Z.eqb_eq in Hv. now rewrite Hv, Hk. }
  split; [exact E|]. rewrite E. apply issued_refl.
Qed.

(** * The classifier *)

Lemma log_if_not_whitelisted_cases (k : sock) (proto : protocol) (act : action) :
  log_if_not_whitelisted k proto act =
  match path_from_mm current_mm MAX_EXEC_PATH with
  | None => []
  | Some path =>
    IsWhitelisted path (sk_family k) (fst (sock_addresses k)) (ntohs (DPORT k)) ::
    (if is_whitelisted path (sk_family k) (fst (sock_addresses k)) (ntohs (DPORT k)) =? 0
     then [StoreNetlogRecord path act proto (sk_family k)
             (snd (sock_addresses k)) (ntohs (SPORT k))
             (fst (sock_addresses k)) (ntohs (DPORT k))]
     else [])
  end.
Proof.
  unfold log_if_not_whitelisted, c_true.
  destruct (path_from_mm current_mm MAX_EXEC_PATH); [|reflexivity].
  cbn [WHITELISTING Z.eqb negb].
  now destruct (is_whitelisted _ _ _ _ =? 0).
Qed.

(** C8.  Emission condition of [log_if_not_whitelisted].  One call stores
    at most one record; it stores exactly one iff the path of the calling
    process resolves and the whitelist gate answers [NOT_WHITELISTED].
    If the path does not resolve the call does nothing at all, and if the
    gate answers anything else (whitelisted) no record is stored. *)
Theorem log_if_not_whitelisted_emission (k : sock) (proto : protocol) (act : action) :
  let out := log_if_not_whitelisted k proto act in
  let gate path :=
    is_whitelisted path (sk_family k) (fst (sock_addresses k)) (ntohs (DPORT k)) in
  (List.length (stored out) <= 1)%nat
  /\ (List.length (stored out) = 1%nat <->
      exists path, path_from_mm current_mm MAX_EXEC_PATH = Some path
                   /\ gate path = NOT_WHITELISTED)
  /\ (path_from_mm current_mm MAX_EXEC_PATH = None -> out = [])
  /\ (forall path, path_from_mm current_mm MAX_EXEC_PATH = Some path ->
                   gate path <> NOT_WHITELISTED -> stored out = []).
Proof.
  intros out gate. unfold out, gate. rewrite log_if_not_whitelisted_cases.
  destruct (path_from_mm current_mm MAX_EXEC_PATH) as [path|].
  - destruct (Z.eqb_spec (is_whitelisted path (sk_family k) (fst (sock_addresses k))
                            (ntohs (DPORT k))) 0) as [E|E]; cbn.
    + split; [lia|]. split; [split; [intros _; now exists path | reflexivity]|].
      split; [discriminate|]. intros p [= <-] H. contradiction.
    + split; [lia|]. split; [split; [discriminate|intros (p & [= <-] & H); contradiction]|].
      split; [discriminate|]. reflexivity.
  - cbn. split; [lia|]. split; [split; [discriminate|intros (p & H & _); discriminate]|].
    split; [reflexivity|]. intros p H. discriminate.
Qed.

(** C9.  Unrecognised address family.  When the family of the socket is
    neither [AF_INET] nor [AF_INET6] (and the path resolves), both addresses
    are NULL, the whitelist gate is still consulted, with a NULL address,
    and, unless it suppresses the event, the record goes to the sink with
    NULL source and destination addresses. *)
Theorem unrecognized_family_forwarded
        (k : sock) (proto : protocol) (act : action) (path : string) :
  sk_family k <> AF_INET -> sk_family k <> AF_INET6 ->
  path_from_mm current_mm MAX_EXEC_PATH = Some path ->
  sock_addresses k = (None, None)
  /\ log_if_not_whitelisted k proto act =
     IsWhitelisted path (sk_family k) None (ntohs (DPORT k)) ::
     (if is_whitelisted path (sk_family k) None (ntohs (DPORT k)) =? 0
      then [StoreNetlogRecord path act proto (sk_family k)
              None (ntohs (SPORT k)) None (ntohs (DPORT k))]
      else []).
Proof.
  intros H4 H6 Hp.
  assert (E : sock_addresses k = (None, None)).
  { unfold sock_addresses. apply Z.eqb_neq in H4, H6. now rewrite H4, H6. }
  split; [exact E|].
  now rewrite log_if_not_whitelisted_cases, Hp, E.
Qed.

Lemma c_true_iff (x : Z) : c_true x = true <-> x <> 0.
Proof.
  unfold c_true. rewrite negb_true_iff. apply Z.eqb_neq.
Qed.

Lemma log_if_not_whitelisted_effects (k : sock) (proto : protocol) (act : action) :
  let out := log_if_not_whitelisted k proto act in
  (List.length (stored out) <= 1)%nat
  /\ (List.length (filter is_gate out) <= 1)%nat
  /\ (forall q, q <> proto -> filter (is_store_of q) out = []).
Proof.
  cbv zeta. rewrite log_if_not_whitelisted_cases.
  destruct (path_from_mm current_mm MAX_EXEC_PATH) as [path|].
  - destruct (is_whitelisted _ _ _ _ =? 0); cbn.
    + split; [lia|]. split; [lia|]. intros q Hq.
      destruct proto, q; try reflexivity; contradiction.
    + split; [lia|]. split; [lia|]. reflexivity.
  - cbn. split; [lia|]. split; [lia|]. reflexivity.
Qed.

Lemma filter_snoc_put {f : effect -> bool} (l : list effect) (so : socket) :
  f (SockfdPut so) = false -> filter f (l ++ [SockfdPut so]) = filter f l.
Proof.
  intros H. rewrite filter_app. cbn. rewrite H. apply app_nil_r.
Qed.

(** The effects of [pre_sys_close] before the final [sockfd_put]. *)
Lemma pre_sys_close_cases (s : registry) (fd : Z) :
  snd (pre_sys_close s fd) = match sockfd_lookup fd with
                             | Some so => [SockfdPut so]
                             | None => []
                             end
  \/ exists so k proto,
       sockfd_lookup fd = Some so /\ sk so = Some k
       /\ current <> None
       /\ (sk_family k = AF_INET \/ sk_family k = AF_INET6)
       /\ snd (pre_sys_close s fd)
          = log_if_not_whitelisted k proto ACTION_CLOSE ++ [SockfdPut so]
       /\ match proto with
          | PROTO_TCP =>
            Z.land (loaded_probes s) (Z.shiftl 1 PROBE_TCP_CLOSE) <> 0
            /\ sk_protocol k = IPPROTO_TCP /\ DPORT k <> 0
          | PROTO_UDP =>
            Z.land (loaded_probes s) (Z.shiftl 1 PROBE_UDP_CLOSE) <> 0
            /\ sk_protocol k = IPPROTO_UDP /\ SPORT k <> 0
            /\ ~ (Z.land (loaded_probes s) (Z.shiftl 1 PROBE_TCP_CLOSE) <> 0
                  /\ sk_protocol k = IPPROTO_TCP /\ DPORT k <> 0)
          end.
Proof.
  unfold pre_sys_close. cbn [snd].
  destruct current as [t|]; [|left; now destruct (sockfd_lookup fd)].
  destruct (sockfd_lookup fd) as [so|]; [|now left].
  destruct (sk so) as [k|] eqn:Hsk; [|now left].
  destruct (Z.eqb_spec (sk_family k) AF_INET) as [H4|H4];
    destruct (Z.eqb_spec (sk_family k) AF_INET6) as [H6|H6]; cbn [negb andb];
    try (now left).
  all: destruct (c_true (Z.land (loaded_probes s) (Z.shiftl 1 PROBE_TCP_CLOSE))) eqn:Ct;
    destruct (Z.eqb_spec (sk_protocol k) IPPROTO_TCP) as [Pt|Pt];
    destruct (c_true (DPORT k)) eqn:Dp; cbn [andb];
    try (right; exists so, k, PROTO_TCP;
         apply c_true_iff in Ct; apply c_true_iff in Dp;
         repeat (split; [solve [auto | discriminate]|]); auto; fail).
  all: destruct (c_true (Z.land (loaded_probes s) (Z.shiftl 1 PROBE_UDP_CLOSE))) eqn:Cu;
    destruct (Z.eqb_spec (sk_protocol k) IPPROTO_UDP) as [Pu|Pu];
    destruct (c_true (SPORT k)) eqn:Sp; cbn [andb];
    try (now left).
  all: right; exists so, k, PROTO_UDP;
    apply c_true_iff in Cu; apply c_true_iff in Sp;
    repeat (split; [solve [auto | discriminate]|]);
    repeat split; auto;
    intros (C1 & C2 & C3);
    first [ apply c_true_iff in C1; congruence
          | apply c_true_iff in C3; congruence
          | contradiction ].
Qed.

(** C6.  Precedence and mutual exclusion in [pre_sys_close].  One
    invocation consults the whitelist gate at most once and stores at most
    one record, so that it cannot produce both a TCP-close and a UDP-close
    event; and for a socket whose protocol is TCP, with both the TCP_CLOSE
    and the UDP_CLOSE bit loaded, it stores no UDP record, whatever the
    ports of the socket. *)
Theorem pre_sys_close_exclusive (s : registry) (fd : Z) :
  let out := snd (pre_sys_close s fd) in
  (List.length (stored out) <= 1)%nat
  /\ (List.length (filter is_gate out) <= 1)%nat
  /\ (filter (is_store_of PROTO_TCP) out = [] \/ filter (is_store_of PROTO_UDP) out = [])
  /\ (forall so k,
        sockfd_lookup fd = Some so -> sk so = Some k ->
        sk_protocol k = IPPROTO_TCP ->
        Z.land (loaded_probes s) (Z.shiftl 1 PROBE_TCP_CLOSE) <> 0 ->
        Z.land (loaded_probes s) (Z.shiftl 1 PROBE_UDP_CLOSE) <> 0 ->
        filter (is_store_of PROTO_UDP) out = []).
Proof.
  intros out. unfold out.
  destruct (pre_sys_close_cases s fd)
    as [E|(so & k & proto & Hso & Hsk & _ & _ & E & Hcond)]; rewrite E.
  - destruct (sockfd_lookup fd); cbn; repeat split; auto.
  - destruct (log_if_not_whitelisted_effects k proto ACTION_CLOSE) as (H1 & H2 & H3).
    unfold stored. rewrite !filter_snoc_put by reflexivity.
    split; [exact H1|]. split; [exact H2|]. split.
    + destruct proto; [right | left]; apply H3; discriminate.
    + intros so' k' Hso' Hsk' Htcp _ _.
      rewrite Hso in Hso'. injection Hso' as <-.
      rewrite Hsk in Hsk'. injection Hsk' as <-.
      destruct proto; [apply H3; discriminate|].
      destruct Hcond as (_ & Hudp & _). rewrite Htcp in Hudp. discriminate.
Qed.

(** C7.  Liveness filter of [pre_sys_close].  A TCP record is stored only
    when the TCP_CLOSE bit is loaded, the protocol of the socket is TCP and
    its destination port is not zero; a UDP record only when the UDP_CLOSE
    bit is loaded, the protocol is UDP and the source port is not zero.  When
    neither holds the invocation stores nothing and does not consult the
    whitelist gate.  Conversely, on an IPv4 or IPv6 socket, with [current]
    not NULL, the TCP conditions hand the socket to [log_if_not_whitelisted]
    as a TCP close, and the UDP conditions as a UDP close. *)
Theorem pre_sys_close_liveness (s : registry) (fd : Z) :
  let out := snd (pre_sys_close s fd) in
  (filter (is_store_of PROTO_TCP) out <> [] -> tcp_close_live s fd)
  /\ (filter (is_store_of PROTO_UDP) out <> [] -> udp_close_live s fd)
  /\ (~ tcp_close_live s fd -> ~ udp_close_live s fd ->
      stored out = [] /\ filter is_gate out = [])
  /\ (forall so k,
        sockfd_lookup fd = Some so -> sk so = Some k -> current <> None ->
        sk_family k = AF_INET \/ sk_family k = AF_INET6 ->
        (Z.land (loaded_probes s) (Z.shiftl 1 PROBE_TCP_CLOSE) <> 0
         /\ sk_protocol k = IPPROTO_TCP /\ DPORT k <> 0 ->
         out = log_if_not_whitelisted k PROTO_TCP ACTION_CLOSE ++ [SockfdPut so])
        /\ (Z.land (loaded_probes s) (Z.shiftl 1 PROBE_UDP_CLOSE) <> 0
            /\ sk_protocol k = IPPROTO_UDP /\ SPORT k <> 0 ->
            out = log_if_not_whitelisted k PROTO_UDP ACTION_CLOSE ++ [SockfdPut so])).
Proof.
  intros out. unfold out. split; [|split; [|split]].
  - destruct (pre_sys_close_cases s fd)
      as [E|(so & k & proto & Hso & Hsk & _ & _ & E & Hcond)]; rewrite E.
    + destruct (sockfd_lookup fd); cbn; intros H; now contradiction H.
    + destruct (log_if_not_whitelisted_effects k proto ACTION_CLOSE) as (_ & _ & H3).
      rewrite filter_snoc_put by reflexivity.
      destruct proto.
      * intros _. exists so, k. tauto.
      * rewrite H3 by discriminate. intros H. now contradiction H.
  - destruct (pre_sys_close_cases s fd)
      as [E|(so & k & proto & Hso & Hsk & _ & _ & E & Hcond)]; rewrite E.
    + destruct (sockfd_lookup fd); cbn; intros H; now contradiction H.
    + destruct (log_if_not_whitelisted_effects k proto ACTION_CLOSE) as (_ & _ & H3).
      rewrite filter_snoc_put by reflexivity.
      destruct proto.
      * rewrite H3 by discriminate. intros H. now contradiction H.
      * intros _. exists so, k. tauto.
  - intros Ht Hu.
    destruct (pre_sys_close_cases s fd)
      as [E|(so & k & proto & Hso & Hsk & _ & _ & E & Hcond)]; rewrite E.
    + now destruct (sockfd_lookup fd).
    + exfalso. destruct proto; [apply Ht | apply Hu]; exists so, k; tauto.
  - intros so k Hso Hsk Hcur Hfam.
    unfold pre_sys_close. cbn [snd]. rewrite Hso, Hsk.
    destruct current as [t|]; [|now contradiction Hcur].
    assert (Ef : negb (sk_family k =? AF_INET) && negb (sk_family k =? AF_INET6) = false).
    { destruct Hfam as [-> | ->]; reflexivity. }
    rewrite Ef. split.
    + intros (C1 & C2 & C3). apply c_true_iff in C1, C3. apply Z.eqb_eq in C2.
      now rewrite C1, C2, C3.
    + intros (C1 & C2 & C3). apply c_true_iff in C1, C3.
      assert (Et : (sk_protocol k =? IPPROTO_TCP) = false) by (now rewrite C2).
      apply Z.eqb_eq in C2. rewrite Et, andb_false_r. cbn [andb].
      now rewrite C1, C2, C3.
Qed.

(** * Further properties of the registry *)

(** X1.  The registry invariant, for each of the five hooks.  In every
    state reached from boot by any sequence of requests, [loaded_probes]
    has no bit outside the six probe kinds, a hook is planted iff one of the
    bits it serves is loaded, and in the whole history every plant of the
    hook was issued while it was not planted and every unplant while it
    was. *)
Theorem registry_invariant (reqs : list request) (h : hook) :
  let s := run reqs registry_boot in
  0 <= loaded_probes s <= ALL_PROBES
  /\ (planted (kprobe_log s) h = true <-> Z.land (loaded_probes s) (hook_mask h) <> 0)
  /\ bracketed h false (kprobe_log s) = true.
Proof.
  intros s. pose proof (run_boot_consistent reqs) as Hc. fold s in Hc.
  split; [apply (cons_range s Hc)|].
  split; [|apply run_boot_bracketed].
  rewrite (cons_hooks s Hc). unfold in_use. apply c_true_iff.
Qed.

(** X2.  Bad input to the setters.  [one_probe_param_set] answers [-EBADF]
    when [kp->arg] is NULL; both setters hand back the negative code of
    [kstrtoul] when the buffer does not parse.  In each case the registry is
    left as it was, whatever its state. *)
Theorem setters_reject_bad_input (buf : string) (s : registry) :
  one_probe_param_set None buf s = (- EBADF, s)
  /\ (forall probe, fst (kstrtoul buf 0) < 0 ->
        one_probe_param_set (Some probe) buf s = (fst (kstrtoul buf 0), s))
  /\ (fst (kstrtoul buf 16) < 0 ->
        all_probes_param_set buf s = (fst (kstrtoul buf 16), s)).
Proof.
  split; [reflexivity|]. split.
  - intros probe H. unfold one_probe_param_set, body.
    destruct (kstrtoul buf 0) as [ret value]. cbn [fst] in *.
    apply Z.ltb_lt in H. now rewrite H.
  - intros H. unfold all_probes_param_set, body.
    destruct (kstrtoul buf 16) as [ret value]. cbn [fst] in *.
    apply Z.ltb_lt in H. now rewrite H.
Qed.

Lemma plant_one_requested (m m' : Z) (k : probe_kind) (err : Z) (s : registry) :
  requested k m = requested k m' -> plant_one m k err s = plant_one m' k err s.
Proof.
  intros E. unfold plant_one. now rewrite E.
Qed.

Lemma plant_loop_requested (m m' : Z) (ks : list probe_kind) :
  (forall k, In k ks -> requested k m = requested k m') ->
  forall err s, plant_loop ks m err s = plant_loop ks m' err s.
Proof.
  induction ks as [|k ks IH]; intros H err s; [reflexivity|].
  simpl. apply bind_ext.
  - apply plant_one_requested, H. now left.
  - intros a s'. apply IH. intros j Hj. apply H. now right.
Qed.

Lemma requested_land_all (k : probe_kind) (m : Z) :
  requested k (Z.land m ALL_PROBES) = requested k m.
Proof.
  unfold requested. rewrite Z.land_spec.
  change ALL_PROBES with (Z.ones 6).
  pose proof (probe_bit_range k) as H.
  rewrite Z.testbit_ones_nonneg by lia.
  destruct (Z.ltb_spec (probe_bit k) 6); [apply andb_true_r | lia].
Qed.

Lemma plant_probes_nothing (s : registry) : plant_probes 0 s = (0, s).
Proof.
  now rewrite plant_probes_stanzas.
Qed.

(** X3.  [plant_probes] looks at the six probe bits only: bits of the
    requested mask outside the six kinds change nothing, and a mask with
    none of the six bits returns 0 and leaves the registry as it was. *)
Theorem plant_probes_ignores_unknown_bits (new_probes : Z) (s : registry) :
  plant_probes new_probes s = plant_probes (Z.land new_probes ALL_PROBES) s
  /\ (Z.land new_probes ALL_PROBES = 0 -> plant_probes new_probes s = (0, s)).
Proof.
  assert (E : plant_probes new_probes s = plant_probes (Z.land new_probes ALL_PROBES) s).
  { rewrite !plant_probes_stanzas. unfold body.
    rewrite (plant_loop_requested new_probes (Z.land new_probes ALL_PROBES));
      [reflexivity|].
    intros k _. symmetry. apply requested_land_all. }
  split; [exact E|]. intros H. rewrite E, H. apply plant_probes_nothing.
Qed.

Lemma plants_app (h : hook) (l l' : list kprobe_call) :
  plants h (l ++ l') = (plants h l + plants h l')%nat.
Proof.
  unfold plants. now rewrite filter_app, length_app.
Qed.

Lemma unplants_app (h : hook) (l l' : list kprobe_call) :
  unplants h (l ++ l') = (unplants h l + unplants h l')%nat.
Proof.
  unfold unplants. now rewrite filter_app, length_app.
Qed.

Lemma issued_after_call (s s1 s2 : registry) (c : kprobe_call) (l : list kprobe_call) :
  kprobe_log s1 = kprobe_log s ++ [c] ->
  kprobe_log s2 = kprobe_log s1 ++ l ->
  issued s s2 = [c] ++ issued s1 s2.
Proof.
  intros E1 E2. rewrite (issued_trans s s1 s2 [c] l E1 E2).
  now rewrite (issued_app s s1 [c] E1).
Qed.

Lemma plants_single (h h' : hook) (r : plant_result) :
  plants h [Plant h' r] = if hook_eqb h h' then 1%nat else 0%nat.
Proof.
  unfold plants. simpl. now destruct (hook_eqb h h').
Qed.

Lemma same_hook_sibling (j k : probe_kind) :
  probe_hook j = probe_hook k -> j <> k -> sibling j = Some k.
Proof.
  destruct j, k; simpl; intros E Hne; try discriminate E; try reflexivity;
    now contradiction Hne.
Qed.

Lemma sibling_loaded_mono (j : probe_kind) (s s' : registry) :
  (forall n, Z.testbit (loaded_probes s) n = true ->
             Z.testbit (loaded_probes s') n = true) ->
  sibling_loaded j s = true -> sibling_loaded j s' = true.
Proof.
  unfold sibling_loaded, probe_loaded. intros H.
  destruct (sibling j); [apply H | discriminate].
Qed.

Lemma bit_set_keeps (k : probe_kind) (s : registry) (n : Z) :
  Z.testbit (loaded_probes s) n = true ->
  Z.testbit (loaded_probes (bit_set k s)) n = true.
Proof.
  intros H. cbn [bit_set loaded_probes set_loaded_probes].
  now rewrite Z.lor_spec, H.
Qed.

Lemma probe_loaded_bit_set_same (k : probe_kind) (s : registry) :
  probe_loaded k (bit_set k s) = true.
Proof.
  unfold probe_loaded. cbn [bit_set loaded_probes set_loaded_probes].
  pose proof (probe_bit_range k).
  rewrite testbit_lor_bit, Z.eqb_refl by lia. apply orb_true_r.
Qed.

(** No stanza plants [h] when each remaining kind served by [h] finds its
    sibling loaded. *)
Lemma plant_loop_no_plant (new_probes : Z) (h : hook) (ks : list probe_kind) :
  forall err s,
    (forall j, In j ks -> probe_hook j = h -> requested j new_probes = true ->
               sibling_loaded j s = true) ->
    plants h (issued s (snd (body (plant_loop ks new_probes err) s))) = 0%nat.
Proof.
  induction ks as [|k ks IH]; intros err s Hsib.
  - cbn [plant_loop body return_ snd]. now rewrite issued_refl.
  - rewrite plant_loop_cons, plant_one_cases.
    assert (Hrest : forall s1,
               (forall n, Z.testbit (loaded_probes s) n = true ->
                          Z.testbit (loaded_probes s1) n = true) ->
               forall j, In j ks -> probe_hook j = h -> requested j new_probes = true ->
                         sibling_loaded j s1 = true).
    { intros s1 Hmono j Hj Eh Hr. apply (sibling_loaded_mono j s s1 Hmono).
      apply Hsib; [now right | assumption | assumption]. }
    destruct (requested k new_probes) eqn:Hreq.
    + destruct (sibling_loaded k s) eqn:Hk.
      * change (issued s) with (issued (bit_set k s)).
        apply IH, Hrest. intros n. apply bit_set_keeps.
      * assert (Hne : hook_eqb h (probe_hook k) = false).
        { apply hook_eqb_neq. intros E. symmetry in E.
          rewrite (Hsib k (or_introl eq_refl) E Hreq) in Hk. discriminate. }
        destruct (kprobes (kprobe_log s) (probe_hook k)) eqn:Hp.
        -- set (s1 := bit_set k (record_call (Plant (probe_hook k) PlantOk) s)).
           destruct (plant_loop_log ks new_probes 0 s1) as [l El].
           rewrite (issued_after_call s s1 _ (Plant (probe_hook k) PlantOk) l eq_refl El).
           rewrite plants_app, IH.
           ++ now rewrite plants_single, Hne.
           ++ apply Hrest. intros n Hn. unfold s1. apply bit_set_keeps. exact Hn.
        -- cbn [snd]. now rewrite issued_record, plants_single, Hne.
    + apply IH. intros j Hj. apply Hsib. now right.
Qed.

Lemma plant_loop_plants_once (new_probes : Z) (h : hook) (ks : list probe_kind) :
  NoDup ks ->
  forall err s,
    (plants h (issued s (snd (body (plant_loop ks new_probes err) s))) <= 1)%nat.
Proof.
  induction 1 as [|k ks Hnotin Hnodup IH]; intros err s.
  - cbn [plant_loop body return_ snd]. rewrite issued_refl. unfold plants. simpl. lia.
  - rewrite plant_loop_cons, plant_one_cases.
    destruct (requested k new_probes) eqn:Hreq; [|apply IH].
    destruct (sibling_loaded k s) eqn:Hk.
    + change (issued s) with (issued (bit_set k s)). apply IH.
    + destruct (kprobes (kprobe_log s) (probe_hook k)) eqn:Hp.
      * set (s1 := bit_set k (record_call (Plant (probe_hook k) PlantOk) s)).
        destruct (plant_loop_log ks new_probes 0 s1) as [l El].
        rewrite (issued_after_call s s1 _ (Plant (probe_hook k) PlantOk) l eq_refl El).
        rewrite plants_app.
        destruct (hook_eqb h (probe_hook k)) eqn:E.
        -- apply hook_eqb_eq in E. rewrite plant_loop_no_plant.
           ++ rewrite plants_single, E, hook_eqb_refl. simpl. lia.
           ++ intros j Hj Eh _. unfold sibling_loaded.
              rewrite (same_hook_sibling j k).
              ** unfold s1. rewrite probe_loaded_bit_set_same. reflexivity.
              ** congruence.
              ** intros ->. contradiction.
        -- rewrite plants_single, E. simpl. apply IH.
      * cbn [snd]. rewrite issued_record, plants_single.
        destruct (hook_eqb h (probe_hook k)); simpl; lia.
Qed.

(** X4.  [plant_probes] registers a hook at most once per call and
    unregisters none, whatever the requested mask and the state: with both
    close bits requested the shared [close_jprobe] is still planted once. *)
Theorem plant_probes_plants_once (new_probes : Z) (s : registry) (h : hook) :
  let s' := snd (plant_probes new_probes s) in
  (plants h (issued s s') <= 1)%nat /\ unplants h (issued s s') = 0%nat.
Proof.
  intros s'. split.
  - unfold s'. rewrite plant_probes_stanzas.
    apply plant_loop_plants_once, plant_order_nodup.
  - assert (H : exists l, kprobe_log s' = kprobe_log s ++ l /\ unplants h l = 0%nat).
    { apply (plant_probes_preserves new_probes
               (fun s1 => exists l, kprobe_log s1 = kprobe_log s ++ l
                                    /\ unplants h l = 0%nat)).
      - intros k s0 [l [E U]] _ _. now exists l.
      - intros k s0 [l [E U]] _ _ _. exists (l ++ [Plant (probe_hook k) PlantOk]).
        cbn [bit_set kprobe_log set_loaded_probes record_call].
        rewrite E, app_assoc, unplants_app, U. now split.
      - intros k s0 e [l [E U]] _ _ _.
        exists (l ++ [Plant (probe_hook k) (PlantFailed e)]).
        cbn [kprobe_log record_call].
        rewrite E, app_assoc, unplants_app, U. now split.
      - exists []. now rewrite app_nil_r. }
    destruct H as [l [E U]]. now rewrite (issued_app s s' l E).
Qed.

Lemma one_probe_param_get_loaded (k : probe_kind) (s : registry) :
  one_probe_param_get (probe_entry k) s = if probe_loaded k s then 1 else 0.
Proof.
  unfold one_probe_param_get, probe_loaded.
  now rewrite mask_probe_entry, c_true_mask_loaded.
Qed.

Lemma probe_loaded_unplant_other (j k : probe_kind) (s : registry) :
  j <> k ->
  probe_loaded j (unplant_probes (Z.shiftl 1 (probe_bit k)) s) = probe_loaded j s.
Proof.
  intros Hne. unfold probe_loaded. rewrite unplant_probes_eq. cbn [loaded_probes].
  pose proof (probe_bit_range k).
  rewrite Z.lxor_spec, testbit_bit by lia.
  destruct (Z.eqb_spec (probe_bit k) (probe_bit j)) as [E|E].
  - apply probe_bit_inj in E. congruence.
  - apply xorb_false_r.
Qed.

Lemma probe_loaded_unplant_same (k : probe_kind) (s : registry) :
  probe_loaded k s = true ->
  probe_loaded k (unplant_probes (Z.shiftl 1 (probe_bit k)) s) = false.
Proof.
  unfold probe_loaded. intros H. rewrite unplant_probes_eq. cbn [loaded_probes].
  pose proof (probe_bit_range k).
  now rewrite Z.lxor_spec, testbit_bit, Z.eqb_refl, H by lia.
Qed.

(** X5.  What a write to a boolean parameter does, and what the getter
    then reads.  On every registry reached from boot a parsed write touches
    no bit but its own.  Writing 0 returns 0 and the parameter then reads 0.
    Writing a non-zero value either returns 0, and the parameter then reads
    1, or returns the failure value of the probe kind: then the bit was
    clear, a plant was refused, and the parameter still reads 0. *)
Theorem one_probe_param_set_outcome
        (reqs : list request) (k : probe_kind) (buf : string) (ret value : Z) :
  kstrtoul buf 0 = (ret, value) -> 0 <= ret ->
  let s := run reqs registry_boot in
  let out := one_probe_param_set (Some (probe_entry k)) buf s in
  (forall j, j <> k -> probe_loaded j (snd out) = probe_loaded j s)
  /\ (ulong value = 0 ->
      fst out = 0 /\ one_probe_param_get (probe_entry k) (snd out) = 0)
  /\ (ulong value <> 0 ->
      (fst out = 0 /\ one_probe_param_get (probe_entry k) (snd out) = 1)
      \/ (fst out = failure_code k
          /\ one_probe_param_get (probe_entry k) (snd out) = 0
          /\ probe_loaded k s = false
          /\ plants_ok (issued s (snd out)) = false)).
Proof.
  intros Hparse Hret s out.
  pose proof (cons_uninit s (run_boot_consistent reqs)) as Hi.
  unfold out. rewrite one_probe_param_set_uninit, Hparse by assumption.
  destruct (Z.ltb_spec ret 0); [lia|].
  rewrite mask_probe_entry, !c_true_mask_loaded, testbit_not_loaded.
  fold (probe_loaded k s). unfold c_true.
  destruct (Z.eqb_spec (ulong value) 0) as [Hv|Hv]; cbn [negb].
  - split; [|split; [|intros H'; now contradiction H']].
    + intros j Hj. destruct (probe_loaded k s); [|reflexivity].
      now apply probe_loaded_unplant_other.
    + intros _. rewrite !one_probe_param_get_loaded.
      destruct (probe_loaded k s) eqn:Hk; cbn [fst snd].
      * now rewrite probe_loaded_unplant_same.
      * now rewrite Hk.
  - destruct (probe_loaded k s) eqn:Hk; cbn [negb].
    + split; [reflexivity|]. split; [intros H'; now contradiction Hv|].
      intros _. left. rewrite one_probe_param_get_loaded. cbn [fst snd].
      now rewrite Hk.
    + rewrite plant_probes_single, plant_one_cases.
      replace (requested k (Z.shiftl 1 (probe_bit k))) with true by (now destruct k).
      destruct (sibling_loaded k s).
      * cbn [fst snd]. split; [intros j Hj; now apply probe_loaded_bit_set|].
        split; [intros H'; now contradiction Hv|]. intros _. left.
        now rewrite one_probe_param_get_loaded, probe_loaded_bit_set_same.
      * destruct (kprobes (kprobe_log s) (probe_hook k)); cbn [fst snd].
        -- split; [intros j Hj; now rewrite probe_loaded_bit_set|].
           split; [intros H'; now contradiction Hv|]. intros _. left.
           now rewrite one_probe_param_get_loaded, probe_loaded_bit_set_same.
        -- split; [reflexivity|].
           split; [intros H'; now contradiction Hv|]. intros _. right.
           rewrite one_probe_param_get_loaded, issued_record.
           unfold probe_loaded in *. cbn [loaded_probes record_call].
           now rewrite Hk.
Qed.

Lemma plants_unplant_calls (h : hook) (removed after : Z) :
  plants h (unplant_calls removed after) = 0%nat.
Proof.
  unfold unplant_calls, plants.
  repeat match goal with
         | |- context [if ?c then _ else _] => destruct c
         end; reflexivity.
Qed.

(** X6.  Teardown.  From every registry reached from boot, [unplant_all]
    leaves no probe loaded and no hook planted; it issues no plant, one
    unplant for each hook that was planted and none for the others. *)
Theorem unplant_all_unplants_everything (reqs : list request) (h : hook) :
  let s := run reqs registry_boot in
  let s' := unplant_all s in
  loaded_probes s' = 0
  /\ planted (kprobe_log s') h = false
  /\ plants h (issued s s') = 0%nat
  /\ unplants h (issued s s') = if planted (kprobe_log s) h then 1%nat else 0%nat.
Proof.
  intros s s'. pose proof (run_boot_consistent reqs) as Hc. fold s in Hc.
  pose proof (exec_consistent ReqUnplantAll s Hc) as Hc'.
  change (exec ReqUnplantAll s) with s' in Hc'.
  assert (E0 : loaded_probes s' = 0).
  { unfold s', unplant_all. rewrite unplant_probes_eq. apply Z.lxor_nilpotent. }
  split; [exact E0|].
  split; [rewrite (cons_hooks s' Hc'), E0; now destruct h|].
  unfold s', unplant_all. rewrite issued_unplant_probes, Z.lxor_nilpotent.
  split; [apply plants_unplant_calls|].
  rewrite (cons_hooks s Hc), in_use_bits. unfold unplant_calls, unplants.
  change (in_use close_jprobe 0) with false.
  destruct h;
    destruct (Z.testbit (loaded_probes s) PROBE_TCP_CONNECT),
      (Z.testbit (loaded_probes s) PROBE_TCP_ACCEPT),
      (Z.testbit (loaded_probes s) PROBE_TCP_CLOSE),
      (Z.testbit (loaded_probes s) PROBE_UDP_CLOSE),
      (Z.testbit (loaded_probes s) PROBE_UDP_CONNECT),
      (Z.testbit (loaded_probes s) PROBE_UDP_BIND); reflexivity.
Qed.

Lemma plant_probes_no_unplant (new_probes : Z) (s : registry) (h : hook) :
  unplants h (issued s (snd (plant_probes new_probes s))) = 0%nat.
Proof.
  assert (H : exists l, kprobe_log (snd (plant_probes new_probes s)) = kprobe_log s ++ l
                        /\ unplants h l = 0%nat).
  { apply (plant_probes_preserves new_probes
             (fun s1 => exists l, kprobe_log s1 = kprobe_log s ++ l
                                  /\ unplants h l = 0%nat)).
    - intros k s0 [l [E U]] _ _. now exists l.
    - intros k s0 [l [E U]] _ _ _. exists (l ++ [Plant (probe_hook k) PlantOk]).
      cbn [bit_set kprobe_log set_loaded_probes record_call].
      rewrite E, app_assoc, unplants_app, U. now split.
    - intros k s0 e [l [E U]] _ _ _.
      exists (l ++ [Plant (probe_hook k) (PlantFailed e)]).
      cbn [kprobe_log record_call].
      rewrite E, app_assoc, unplants_app, U. now split.
    - exists []. now rewrite app_nil_r. }
  destruct H as [l [E U]]. now rewrite (issued_app _ _ l E).
Qed.

Lemma testbit_to_add (wanted loaded n : Z) :
  Z.testbit (u32 (Z.land wanted (u32 (Z.lnot loaded)))) n
  = (n <? 32) && (0 <=? n) && Z.testbit wanted n && negb (Z.testbit loaded n).
Proof.
  rewrite testbit_u32, Z.land_spec, testbit_u32, testbit_lnot.
  destruct (n <? 32), (0 <=? n), (Z.testbit wanted n), (Z.testbit loaded n); reflexivity.
Qed.

Lemma testbit_to_remove (wanted loaded n : Z) :
  Z.testbit (u32 (Z.land (ulong (Z.lnot wanted)) loaded)) n
  = (n <? 32) && (n <? 64) && (0 <=? n) && negb (Z.testbit wanted n)
    && Z.testbit loaded n.
Proof.
  rewrite testbit_u32, Z.land_spec, testbit_ulong, testbit_lnot.
  destruct (n <? 32), (n <? 64), (0 <=? n), (Z.testbit wanted n), (Z.testbit loaded n);
    reflexivity.
Qed.

(** X7.  A write to [probes] never leaves an unwanted probe loaded, even
    when a plant fails.  On every registry reached from boot, after a parsed
    write every loaded bit is one of the six probe bits of the written
    value, and every wanted bit that was loaded is still loaded. *)
Theorem reconcile_loads_only_wanted
        (reqs : list request) (buf : string) (ret value n : Z) :
  kstrtoul buf 16 = (ret, value) -> 0 <= ret ->
  let s := run reqs registry_boot in
  let s' := snd (all_probes_param_set buf s) in
  (Z.testbit (loaded_probes s') n = true ->
   Z.testbit (ulong value) n = true /\ 0 <= n < 6)
  /\ (Z.testbit (loaded_probes s) n = true -> Z.testbit (ulong value) n = true ->
      Z.testbit (loaded_probes s') n = true).
Proof.
  intros Hparse Hret s s'.
  pose proof (run_boot_consistent reqs) as Hc. fold s in Hc.
  pose proof (cons_range s Hc) as Hr. apply mask_range_bits in Hr as [_ Hhi].
  unfold s'. rewrite all_probes_param_set_uninit, Hparse by apply (cons_uninit s Hc).
  cbv zeta. destruct (Z.ltb_spec ret 0); [lia|].
  set (wanted := ulong value).
  set (su := unplant_probes (u32 (Z.land (ulong (Z.lnot wanted)) (loaded_probes s))) s).
  assert (Eu : forall m, Z.testbit (loaded_probes su) m
                         = Z.testbit (loaded_probes s) m
                           && ((m <? 0) || Z.testbit wanted m)).
  { intros m. unfold su. rewrite unplant_probes_eq. cbn [loaded_probes].
    rewrite Z.lxor_spec, testbit_to_remove.
    destruct (Z.testbit (loaded_probes s) m) eqn:Em.
    - assert (Hm : 0 <= m < 6).
      { split.
        - destruct (Z.lt_ge_cases m 0); [|assumption].
          rewrite Z.testbit_neg_r in Em by assumption. discriminate.
        - destruct (Z.lt_ge_cases m 6); [assumption|].
          rewrite Hhi in Em by assumption. discriminate. }
      destruct (Z.ltb_spec m 32); [|lia]. destruct (Z.ltb_spec m 64); [|lia].
      destruct (Z.leb_spec 0 m); [|lia]. destruct (Z.ltb_spec m 0); [lia|].
      now destruct (Z.testbit wanted m).
    - now rewrite !andb_false_r. }
  split.
  - intros Hb. apply plant_probes_sets in Hb as [Hb|[Hb Hn]].
    + rewrite Eu in Hb. apply andb_true_iff in Hb as [HL HW].
      assert (Hn : 0 <= n < 6).
      { split.
        - destruct (Z.lt_ge_cases n 0); [|assumption].
          rewrite Z.testbit_neg_r in HL by assumption. discriminate.
        - destruct (Z.lt_ge_cases n 6); [assumption|].
          rewrite Hhi in HL by assumption. discriminate. }
      destruct (Z.ltb_spec n 0); [lia|]. now split.
    + rewrite testbit_to_add in Hb.
      apply andb_true_iff in Hb as [Hb _]. apply andb_true_iff in Hb as [_ Hb].
      now split.
  - intros HL HW. apply plant_probes_keeps. rewrite Eu, HL, HW.
    now rewrite orb_true_r.
Qed.

Lemma unplant_probes_nothing (s : registry) : unplant_probes 0 s = s.
Proof.
  rewrite unplant_probes_eq. destruct s as [i l g]. cbn [initialized loaded_probes kprobe_log].
  rewrite Z.lxor_0_r. change (unplant_calls 0 l) with (@nil kprobe_call).
  now rewrite app_nil_r.
Qed.

Lemma hook_unchanged_bits (h : hook) (loaded wanted : Z) (j : probe_kind) :
  Z.land (Z.lxor loaded wanted) (hook_mask h) = 0 ->
  probe_hook j = h ->
  Z.testbit loaded (probe_bit j) = Z.testbit wanted (probe_bit j).
Proof.
  intros H Hj.
  assert (Hin : in_use h (Z.lxor loaded wanted) = false).
  { unfold in_use. now rewrite H. }
  rewrite in_use_bits in Hin. subst h.
  destruct j; cbn [probe_hook probe_bit] in *; rewrite ?Z.lxor_spec in Hin;
    try apply orb_false_iff in Hin as [Hin Hin'];
    match goal with
    | |- Z.testbit loaded ?k = _ =>
        destruct (Z.testbit loaded k), (Z.testbit wanted k)
    end;
    cbn [xorb] in *; congruence.
Qed.

Lemma unplants_unplant_calls_unchanged (h : hook) (removed after : Z) :
  (forall j, probe_hook j = h -> Z.testbit removed (probe_bit j) = false) ->
  unplants h (unplant_calls removed after) = 0%nat.
Proof.
  intros H.
  pose proof (H tcp_connect) as H0. pose proof (H tcp_accept) as H1.
  pose proof (H tcp_close) as H2. pose proof (H udp_connect) as H3.
  pose proof (H udp_bind) as H4. pose proof (H udp_close) as H5.
  unfold unplant_calls, unplants. cbn [probe_hook probe_bit] in H0, H1, H2, H3, H4, H5.
  clear H.
  destruct h;
    repeat match goal with
           | Hx : ?a = ?a -> _ |- _ => rewrite (Hx eq_refl); clear Hx
           end;
    cbn [orb andb];
    repeat match goal with
           | |- context [if ?c then _ else _] => destruct c
           end; reflexivity.
Qed.

(** X8.  A write to [probes] touches only what differs.  On every registry
    reached from boot, a parsed write issues no plant and no unplant on a
    hook whose bits are the same in the loaded mask and in the written value;
    and when the six probe bits of the written value are the loaded mask, it
    returns 0 and leaves the registry as it was. *)
Theorem reconcile_touches_only_the_delta
        (reqs : list request) (buf : string) (ret value : Z) (h : hook) :
  kstrtoul buf 16 = (ret, value) -> 0 <= ret ->
  let s := run reqs registry_boot in
  let out := all_probes_param_set buf s in
  (Z.land (Z.lxor (loaded_probes s) (ulong value)) (hook_mask h) = 0 ->
   plants h (issued s (snd out)) = 0%nat /\ unplants h (issued s (snd out)) = 0%nat)
  /\ (Z.land (ulong value) ALL_PROBES = loaded_probes s -> out = (0, s)).
Proof.
  intros Hparse Hret s out.
  pose proof (run_boot_consistent reqs) as Hc. fold s in Hc.
  pose proof (cons_range s Hc) as Hr. apply mask_range_bits in Hr as [_ Hhi].
  unfold out. rewrite all_probes_param_set_uninit, Hparse by apply (cons_uninit s Hc).
  cbv zeta. destruct (Z.ltb_spec ret 0); [lia|].
  set (wanted := ulong value).
  set (rem := u32 (Z.land (ulong (Z.lnot wanted)) (loaded_probes s))).
  set (add := u32 (Z.land wanted (u32 (Z.lnot (loaded_probes s))))).
  split.
  - intros Hsame.
    assert (Hbits : forall j, probe_hook j = h ->
              Z.testbit (loaded_probes s) (probe_bit j) = Z.testbit wanted (probe_bit j)).
    { intros j. now apply hook_unchanged_bits. }
    destruct (plant_probes_log add (unplant_probes rem s)) as [l El].
    assert (Eu : kprobe_log (unplant_probes rem s)
                 = kprobe_log s ++ unplant_calls rem (Z.lxor (loaded_probes s) rem)).
    { now rewrite unplant_probes_eq. }
    rewrite (issued_trans s (unplant_probes rem s) _ _ l Eu El).
    rewrite plants_app, unplants_app, issued_unplant_probes.
    rewrite plants_unplant_calls, plant_probes_no_unplant.
    rewrite unplants_unplant_calls_unchanged.
    + split; [|reflexivity]. simpl. rewrite plant_probes_stanzas.
      apply plant_loop_no_plant. intros j _ Hj Hreq. exfalso.
      unfold requested, add in Hreq. rewrite testbit_to_add, (Hbits j Hj) in Hreq.
      destruct (Z.testbit wanted (probe_bit j));
        rewrite ?andb_false_r in Hreq; discriminate.
    + intros j Hj. unfold rem. rewrite testbit_to_remove, (Hbits j Hj).
      destruct (Z.testbit wanted (probe_bit j)); now rewrite ?andb_false_r.
  - intros Heq.
    assert (Hlow : forall m, 0 <= m < 6 ->
              Z.testbit wanted m = Z.testbit (loaded_probes s) m).
    { intros m Hm. rewrite <- Heq, Z.land_spec. change ALL_PROBES with (Z.ones 6).
      rewrite Z.testbit_ones_nonneg by lia.
      destruct (Z.ltb_spec m 6); [now rewrite andb_true_r | lia]. }
    assert (Erem : rem = 0).
    { apply Z.bits_inj'. intros m Hm. unfold rem.
      rewrite testbit_to_remove, Z.bits_0.
      destruct (Z.lt_ge_cases m 6).
      - rewrite (Hlow m) by lia.
        destruct (Z.testbit (loaded_probes s) m); now rewrite ?andb_false_r.
      - rewrite (Hhi m) by assumption. apply andb_false_r. }
    assert (Eadd : Z.land add ALL_PROBES = 0).
    { apply Z.bits_inj'. intros m Hm. unfold add.
      rewrite Z.land_spec, testbit_to_add, Z.bits_0. change ALL_PROBES with (Z.ones 6).
      rewrite Z.testbit_ones_nonneg by lia.
      destruct (Z.ltb_spec m 6); [|apply andb_false_r].
      rewrite (Hlow m) by lia.
      destruct (Z.testbit (loaded_probes s) m); now rewrite ?andb_false_r. }
    rewrite Erem, unplant_probes_nothing.
    rewrite plant_probes_stanzas. unfold body.
    rewrite (plant_loop_requested add 0).
    + reflexivity.
    + intros k _. rewrite <- (requested_land_all k add), Eadd. reflexivity.
Qed.

(** * Properties of the probes when they fire *)

Section ProbeFacts.

Variable CONFIG_X86_64 : bool.
Variable socket_at : Z -> socket.

Lemma inet_family_cases (k : sock) :
  inet_family k = true <-> sk_family k = AF_INET \/ sk_family k = AF_INET6.
Proof.
  unfold inet_family. rewrite orb_true_iff, !Z.eqb_eq. reflexivity.
Qed.

(** What a firing does: it releases the socket it looked up, after handing
    at most one socket that passed the filters of its hook to
    [log_if_not_whitelisted]. *)
Lemma fire_cases (f : firing) :
  let rest := match firing_lookup CONFIG_X86_64 f with
              | Some so => [SockfdPut so]
              | None => []
              end in
  fire CONFIG_X86_64 socket_at f = rest
  \/ exists k p a,
       fire CONFIG_X86_64 socket_at f = log_if_not_whitelisted k p a ++ rest
       /\ inet_family k = true
       /\ sk_protocol k = ipproto p
       /\ hook_logs (firing_hook f) p a = true
       /\ (firing_hook f = close_jprobe ->
           match p with
           | PROTO_TCP => DPORT k <> 0
           | PROTO_UDP => SPORT k <> 0
           end).
Proof.
  destruct f as [data e r|data e r|data e r|data e r|s fd];
    cbn [fire firing_lookup firing_hook run_kretprobe].
  - unfold pre_handler_store_sock, post_inet_stream_connect.
    destruct current as [t|]; cbn [snd Z.eqb]; [|now left].
    destruct (socket_ptr socket_at (GET_ARG_1 CONFIG_X86_64 e)) as [so|];
      cbn [data_sock]; [|now left].
    destruct (sk so) as [k|]; [|now left].
    destruct (inet_family k) eqn:Hf; cbn [andb]; [|now left].
    destruct (Z.eqb_spec (sk_protocol k) IPPROTO_TCP) as [Hp|Hp]; [|now left].
    right. exists k, PROTO_TCP, ACTION_CONNECT. rewrite app_nil_r.
    repeat split; auto; discriminate.
  - unfold pre_handler_store_sock, post_inet_dgram_connect.
    destruct current as [t|]; cbn [snd Z.eqb]; [|now left].
    destruct (socket_ptr socket_at (GET_ARG_1 CONFIG_X86_64 e)) as [so|];
      cbn [data_sock]; [|now left].
    destruct (sk so) as [k|]; [|now left].
    destruct (inet_family k) eqn:Hf; cbn [andb]; [|now left].
    destruct (Z.eqb_spec (sk_protocol k) IPPROTO_UDP) as [Hp|Hp]; [|now left].
    right. exists k, PROTO_UDP, ACTION_CONNECT. rewrite app_nil_r.
    repeat split; auto; discriminate.
  - unfold post_sys_accept. cbn [snd].
    destruct (sockfd_lookup (c_int (regs_return_value r))) as [so|]; [|now left].
    destruct (sk so) as [k|]; [|now left].
    destruct (inet_family k) eqn:Hf; cbn [andb]; [|now left].
    destruct (Z.eqb_spec (sk_protocol k) IPPROTO_TCP) as [Hp|Hp]; [|now left].
    right. exists k, PROTO_TCP, ACTION_ACCEPT.
    repeat split; auto; discriminate.
  - unfold pre_sys_bind, post_sys_bind.
    destruct current as [t|]; cbn [snd Z.eqb]; [|now left].
    destruct (sockfd_lookup (c_int (GET_ARG_1 CONFIG_X86_64 e))) as [so|];
      cbn [snd Z.eqb data_sock]; [|now left].
    destruct (sk so) as [k|]; [|now left].
    destruct (inet_family k) eqn:Hf; cbn [andb]; [|now left].
    destruct (Z.eqb_spec (sk_protocol k) IPPROTO_UDP) as [Hp|Hp]; [|now left].
    right. exists k, PROTO_UDP, ACTION_BIND.
    repeat split; auto; discriminate.
  - destruct (pre_sys_close_cases s fd)
      as [E|(so & k & proto & Hso & Hsk & _ & Hfam & E & Hcond)].
    + left. exact E.
    + right. exists k, proto, ACTION_CLOSE. rewrite Hso.
      split; [exact E|]. split; [now apply inet_family_cases|].
      destruct proto.
      * destruct Hcond as (_ & Hp & Hd). repeat split; auto.
      * destruct Hcond as (_ & Hp & Hd & _). repeat split; auto.
Qed.

Lemma sock_addresses_inet (k : sock) :
  inet_family k = true ->
  address_of_family (sk_family k) (fst (sock_addresses k)) = true
  /\ address_of_family (sk_family k) (snd (sock_addresses k)) = true.
Proof.
  unfold inet_family, sock_addresses. intros H.
  destruct (Z.eqb_spec (sk_family k) AF_INET) as [E4|E4].
  - cbn [fst snd address_of_family]. rewrite E4. now split.
  - destruct (Z.eqb_spec (sk_family k) AF_INET6) as [E6|E6]; [|discriminate H].
    cbn [fst snd]. destruct (LINUX_VERSION_CODE >? KERNEL_VERSION 3 13 0);
      cbn [address_of_family]; rewrite E6; now split.
Qed.

Lemma forallb_puts (g : effect -> bool) (o : option socket) :
  (forall so, g (SockfdPut so) = true) ->
  forallb g (match o with Some so => [SockfdPut so] | None => [] end) = true.
Proof.
  intros H. destruct o; cbn; [now rewrite H | reflexivity].
Qed.

Lemma filter_puts (g : effect -> bool) (o : option socket) :
  (forall so, g (SockfdPut so) = false) ->
  filter g (match o with Some so => [SockfdPut so] | None => [] end) = [].
Proof.
  intros H. destruct o; cbn; [now rewrite H | reflexivity].
Qed.

(** X9.  No probe of the file hands a NULL address to the whitelist gate or
    to the sink.  Whatever fires, every gate query and every stored record
    carries the family [AF_INET] with IPv4 addresses or [AF_INET6] with IPv6
    addresses: the NULL-address branch of [log_if_not_whitelisted] is out of
    reach of its five callers. *)
Theorem fired_effects_well_addressed (f : firing) :
  forallb well_addressed (fire CONFIG_X86_64 socket_at f) = true.
Proof.
  destruct (fire_cases f) as [E|(k & p & a & E & Hf & _)]; rewrite E.
  - now apply forallb_puts.
  - rewrite forallb_app, forallb_puts by reflexivity. rewrite andb_true_r.
    rewrite log_if_not_whitelisted_cases.
    destruct (sock_addresses_inet k Hf) as [Hd Hs].
    destruct (path_from_mm current_mm MAX_EXEC_PATH); [|reflexivity].
    destruct (is_whitelisted _ _ _ _ =? 0); cbn; now rewrite Hd, ?Hs.
Qed.

(** X10.  One firing, at most one record, tagged for its hook.  Whatever
    fires, the whitelist gate is consulted at most once and at most one
    record is stored, and a stored record carries the protocol and the
    action of the hook: TCP connect for [inet_stream_connect], UDP connect
    for [inet_dgram_connect], TCP accept for the accept hook, UDP bind for
    the bind hook, TCP or UDP close for the close hook. *)
Theorem fired_record_tagged (f : firing) :
  (List.length (stored (fire CONFIG_X86_64 socket_at f)) <= 1)%nat
  /\ (List.length (filter is_gate (fire CONFIG_X86_64 socket_at f)) <= 1)%nat
  /\ forallb (tagged_for (firing_hook f)) (fire CONFIG_X86_64 socket_at f) = true.
Proof.
  destruct (fire_cases f) as [E|(k & p & a & E & _ & _ & Ht & _)]; rewrite E.
  - unfold stored. rewrite !filter_puts by reflexivity.
    split; [simpl; lia|]. split; [simpl; lia|]. now apply forallb_puts.
  - unfold stored. rewrite !filter_app, !filter_puts, !app_nil_r by reflexivity.
    destruct (log_if_not_whitelisted_effects k p a) as (H1 & H2 & _).
    split; [exact H1|]. split; [exact H2|].
    rewrite forallb_app, forallb_puts by reflexivity. rewrite andb_true_r.
    rewrite log_if_not_whitelisted_cases.
    destruct (path_from_mm current_mm MAX_EXEC_PATH); [|reflexivity].
    destruct (is_whitelisted _ _ _ _ =? 0); cbn; now rewrite ?Ht.
Qed.



(** X12.  A process without a resolvable executable is never logged.  With
    [current] a task [t], [path_from_mm] gives NULL exactly when [t] has no
    [mm], or its [mm] has no [exe_file], or [d_path] answers an error
    pointer; and then no firing consults the gate or stores a record. *)
Theorem unresolvable_path_is_silent (t : task_struct) :
  current = Some t ->
  (path_from_mm (mm t) MAX_EXEC_PATH = None <->
   mm t = None
   \/ (exists m, mm t = Some m /\ exe_file m = None)
   \/ (exists m fl e, mm t = Some m /\ exe_file m = Some fl
                      /\ d_path (f_path fl) MAX_EXEC_PATH = inr e))
  /\ (path_from_mm (mm t) MAX_EXEC_PATH = None ->
      forall f, stored (fire CONFIG_X86_64 socket_at f) = []
                /\ filter is_gate (fire CONFIG_X86_64 socket_at f) = []).
Proof.
  intros Hcur. split.
  - unfold path_from_mm. split.
    + destruct (mm t) as [m|]; [|now left].
      destruct (exe_file m) as [fl|] eqn:Ef; [|right; left; now exists m].
      destruct (d_path (f_path fl) MAX_EXEC_PATH) as [p|e] eqn:Ed; [discriminate|].
      intros _. right; right. now exists m, fl, e.
    + intros [H|[(m & Hm & He)|(m & fl & e & Hm & He & Hd)]].
      * now rewrite H.
      * now rewrite Hm, He.
      * now rewrite Hm, He, Hd.
  - intros Hnone f.
    assert (Hlog : forall k p a, log_if_not_whitelisted k p a = []).
    { intros k p a. rewrite log_if_not_whitelisted_cases.
      unfold current_mm. now rewrite Hcur, Hnone. }
    destruct (fire_cases f) as [E|(k & p & a & E & _)]; rewrite E, ?Hlog;
      unfold stored; cbn [app]; now rewrite !filter_puts.
Qed.

(** X13.  A whitelisted executable is never logged.  When the path of the
    calling process resolves and the gate answers non-zero for it whatever
    the endpoint, no firing stores a record. *)
Theorem whitelisted_process_is_silent (path : string) :
  path_from_mm current_mm MAX_EXEC_PATH = Some path ->
  (forall family ip port, is_whitelisted path family ip port <> NOT_WHITELISTED) ->
  forall f, stored (fire CONFIG_X86_64 socket_at f) = [].
Proof.
  intros Hp Hw f.
  assert (Hlog : forall k p a, stored (log_if_not_whitelisted k p a) = []).
  { intros k p a. rewrite log_if_not_whitelisted_cases, Hp.
    destruct (Z.eqb_spec (is_whitelisted path (sk_family k) (fst (sock_addresses k))
                            (ntohs (DPORT k))) 0) as [E|E]; [|reflexivity].
    now apply Hw in E. }
  destruct (fire_cases f) as [E|(k & p & a & E & _)]; rewrite E; unfold stored.
  - now apply filter_puts.
  - rewrite filter_app. fold (stored (log_if_not_whitelisted k p a)).
    rewrite Hlog. now apply filter_puts.
Qed.

End ProbeFacts.

(** ** Ports of close records *)

Lemma ntohs_zero (x : Z) : is_be16 x -> ntohs x = 0 -> x = 0.
Proof.
  unfold is_be16, ntohs. intros Hx H.
  apply Z.lor_eq_0_iff in H. destruct H as [Hlo Hhi].
  apply Z.shiftl_eq_0_iff in Hlo; [|lia].
  change 255 with (Z.ones 8) in Hlo, Hhi.
  rewrite Z.land_ones in Hlo, Hhi by lia.
  rewrite Z.shiftr_div_pow2 in Hhi by lia.
  change (2 ^ 8) with 256 in Hlo, Hhi. change (2 ^ 16) with 65536 in Hx.
  pose proof (Z.div_mod x 256). pose proof (Z.mod_small (x / 256) 256).
  assert (0 <= x / 256 < 256) by (split; [apply Z.div_pos | apply Z.div_lt_upper_bound]; lia).
  lia.
Qed.

(** X14.  A close record names a live port.  With the ports of the socket
    in the range of their type [__be16], every record [pre_sys_close]
    stores has a non-zero port in host byte order: the destination port of
    a TCP record, the source port of a UDP record.  The byte swap of
    [ntohs] between the test and the record cannot turn a live port into
    port 0. *)
Theorem close_record_has_live_port (s : registry) (fd : Z) :
  (forall so k, sockfd_lookup fd = Some so -> sk so = Some k ->
                is_be16 (DPORT k) /\ is_be16 (SPORT k)) ->
  forallb live_port (snd (pre_sys_close s fd)) = true.
Proof.
  intros Hrange.
  destruct (pre_sys_close_cases s fd)
    as [E|(so & k & proto & Hso & Hsk & _ & _ & E & Hcond)]; rewrite E.
  - now destruct (sockfd_lookup fd).
  - destruct (Hrange so k Hso Hsk) as [Hd Hs].
    rewrite forallb_app. cbn [forallb live_port andb]. rewrite andb_true_r.
    rewrite log_if_not_whitelisted_cases.
    destruct (path_from_mm current_mm MAX_EXEC_PATH); [|reflexivity].
    destruct (is_whitelisted _ _ _ _ =? 0); [|reflexivity].
    cbn [forallb live_port andb]. rewrite andb_true_r.
    destruct proto.
    + destruct Hcond as (_ & _ & Hn).
      destruct (Z.eqb_spec (ntohs (DPORT k)) 0) as [Hz|Hz]; [|reflexivity].
      now apply ntohs_zero in Hz.
    + destruct Hcond as (_ & _ & Hn & _).
      destruct (Z.eqb_spec (ntohs (SPORT k)) 0) as [Hz|Hz]; [|reflexivity].
      now apply ntohs_zero in Hz.
Qed.

(** ** Every registration is undone *)

Lemma bracketed_balance (h : hook) (l : list kprobe_call) :
  forall st, bracketed h st l = true ->
  (plants_done h l + (if st then 1 else 0)
   = unplants h l + (if fold_left (planted_step h) l st then 1 else 0))%nat.
Proof.
  unfold plants_done, unplants.
  induction l as [|c l IH]; intros st Hb; [reflexivity|].
  cbn [bracketed] in Hb. apply andb_true_iff in Hb. destruct Hb as [Ha Hb].
  specialize (IH _ Hb). cbn [fold_left filter].
  unfold call_allowed in Ha.
  destruct c as [h' [|e]|h']; cbn [is_plant is_unplant plant_ok planted_step] in *;
    destruct (hook_eqb h h'); cbn [andb List.length] in *;
    try (destruct st; [discriminate Ha|]); try (destruct st; [|discriminate Ha]);
    lia.
Qed.

(** X15.  Every registration is undone.  In the history of a registry
    reached from boot, the plants of a hook that succeeded outnumber its
    unplants by one while the hook serves a loaded bit and equal them
    otherwise; after [unplant_all] the two counts are equal, so no hook
    stays registered when the module goes and none is unregistered
    twice. *)
Theorem plants_and_unplants_balance (reqs : list request) (h : hook) :
  let s := run reqs registry_boot in
  (plants_done h (kprobe_log s)
   = unplants h (kprobe_log s) + (if in_use h (loaded_probes s) then 1 else 0))%nat
  /\ plants_done h (kprobe_log (unplant_all s))
     = unplants h (kprobe_log (unplant_all s)).
Proof.
  intros s. split.
  - pose proof (bracketed_balance h _ false (run_boot_bracketed reqs h)) as Hb.
    fold s in Hb. fold (planted (kprobe_log s) h) in Hb.
    rewrite (cons_hooks s (run_boot_consistent reqs)) in Hb. lia.
  - pose proof (run_boot_consistent (reqs ++ [ReqUnplantAll])) as Hc.
    pose proof (bracketed_balance h _ false
                  (run_boot_bracketed (reqs ++ [ReqUnplantAll]) h)) as Hb.
    unfold run in Hc, Hb. rewrite fold_left_app in Hc, Hb.
    cbn [fold_left exec] in Hc, Hb. fold (run reqs registry_boot) in Hc, Hb.
    fold s in Hc, Hb. fold (planted (kprobe_log (unplant_all s)) h) in Hb.
    rewrite (cons_hooks _ Hc) in Hb.
    assert (E0 : loaded_probes (unplant_all s) = 0).
    { unfold unplant_all. rewrite unplant_probes_eq. apply Z.lxor_nilpotent. }
    rewrite E0 in Hb. replace (in_use h 0) with false in Hb by now destruct h.
    lia.
Qed.

(** ** No qualifying event is missed *)

Section ProbeCompleteness.

Variable CONFIG_X86_64 : bool.
Variable socket_at : Z -> socket.


End ProbeCompleteness.

End Netlog.

(** * The theorems on concrete inputs *)

(** C1 on scenario 2 of the specification: with TCP_CLOSE installed,
    installing UDP_CLOSE plants nothing. *)
Lemma close_jprobe_refcount_witness :
  probe_hook udp_close = close_jprobe
  /\ plants close_jprobe
       (issued
          (run kprobes_accept_all kstrtoul_digits 63 (-3)
             [ReqOneProbe tcp_close "1"] registry_boot)
          (exec kprobes_accept_all kstrtoul_digits 63 (-3)
             (ReqOneProbe udp_close "1")
             (run kprobes_accept_all kstrtoul_digits 63 (-3)
                [ReqOneProbe tcp_close "1"] registry_boot))) = 0%nat.
Proof.
  split; [reflexivity|].
  destruct (close_jprobe_refcount kprobes_accept_all kstrtoul_digits 63 (-3)
              [ReqOneProbe tcp_close "1"] udp_close "1" eq_refl)
    as (_ & _ & _ & H & _).
  apply H. reflexivity.
Defined.

(** C3: [unplant_probes] called on a bit that is not loaded sets it. *)
Lemma unplant_probes_sets_clear_bit :
  Z.testbit (loaded_probes registry_boot) PROBE_TCP_CONNECT = false
  /\ Z.testbit (loaded_probes (unplant_probes (Z.shiftl 1 PROBE_TCP_CONNECT) registry_boot))
       PROBE_TCP_CONNECT = true
  /\ loaded_probes (unplant_probes (Z.shiftl 1 PROBE_TCP_CONNECT) registry_boot)
     <> Z.land (loaded_probes registry_boot) (Z.lnot (Z.shiftl 1 PROBE_TCP_CONNECT)).
Proof.
  split; [reflexivity|]. split; [reflexivity|]. vm_compute. discriminate.
Qed.

(** C3 amended, on scenario 3: removing TCP_CLOSE while UDP_CLOSE stays. *)
Lemma unplant_probes_clears_requested_witness :
  Z.land (Z.shiftl 1 PROBE_TCP_CLOSE) (loaded_probes registry_both_close)
  = Z.shiftl 1 PROBE_TCP_CLOSE
  /\ loaded_probes (unplant_probes (Z.shiftl 1 PROBE_TCP_CLOSE) registry_both_close)
     = Z.land (loaded_probes registry_both_close) (Z.lnot (Z.shiftl 1 PROBE_TCP_CLOSE)).
Proof.
  split; [reflexivity|].
  apply (unplant_probes_clears_requested (Z.shiftl 1 PROBE_TCP_CLOSE) registry_both_close).
  reflexivity.
Defined.

(** C4 on scenario 5: the accept hook is rejected while TCP_CONNECT and
    TCP_ACCEPT are requested. *)
Lemma plant_probes_partial_failure_witness :
  fst (plant_probes kprobes_reject_accept (-3) 3 registry_boot) = - ACCEPT_PROBE_FAILED
  /\ probe_loaded tcp_accept (snd (plant_probes kprobes_reject_accept (-3) 3 registry_boot))
     = false
  /\ probe_loaded tcp_connect (snd (plant_probes kprobes_reject_accept (-3) 3 registry_boot))
     = true.
Proof.
  assert (Hpre : forall j log, before j tcp_accept -> requested j 3 = true ->
                               kprobes_reject_accept log (probe_hook j) = PlantOk).
  { intros j log Hb _. destruct j; try reflexivity. vm_compute in Hb. discriminate Hb. }
  destruct (plant_probes_partial_failure kprobes_reject_accept (-3) 3 registry_boot
              tcp_accept 22 eq_refl eq_refl (fun _ => eq_refl) Hpre)
    as (H1 & H2 & H3 & _).
  split; [exact H1|]. split; [exact H2|].
  apply H3; reflexivity.
Defined.

(** C5: writing 5 and then 6 to [probes] leaves 6 loaded. *)
Lemma reconcile_converges_witness :
  loaded_probes
    (snd (all_probes_param_set kprobes_accept_all kstrtoul_digits 63 (-3) "6"
            (snd (all_probes_param_set kprobes_accept_all kstrtoul_digits 63 (-3) "5"
                    registry_boot)))) = 6.
Proof.
  apply (reconcile_converges kprobes_accept_all kstrtoul_digits 63 (-3)
           "5" "6" 5 6 registry_boot).
  - unfold is_u32. simpl. lia.
  - reflexivity.
  - reflexivity.
  - unfold ALL_PROBES. lia.
  - vm_compute. reflexivity.
Defined.

(** C6: closing the TCP socket with both close bits loaded stores no UDP
    record. *)
Lemma pre_sys_close_exclusive_witness :
  filter (is_store_of PROTO_UDP)
    (snd (pre_sys_close task_curl d_path_ok whitelist_sshd sockfd_lookup_tcp3 0
            registry_both_close 3)) = [].
Proof.
  apply (pre_sys_close_exclusive task_curl d_path_ok whitelist_sshd sockfd_lookup_tcp3 0
           registry_both_close 3)
    with (so := {| sk := Some tcp_sock |}) (k := tcp_sock).
  - reflexivity.
  - reflexivity.
  - reflexivity.
  - vm_compute. discriminate.
  - vm_compute. discriminate.
Defined.

(** C7: the same close stores a TCP record, so the TCP conditions hold. *)
Lemma pre_sys_close_liveness_witness :
  tcp_close_live sockfd_lookup_tcp3 registry_both_close 3.
Proof.
  apply (pre_sys_close_liveness task_curl d_path_ok whitelist_sshd sockfd_lookup_tcp3 0
           registry_both_close 3).
  vm_compute. discriminate.
Defined.

(** C8: [curl] is not whitelisted, so exactly one record is stored. *)
Lemma log_if_not_whitelisted_emission_witness :
  List.length
    (stored (log_if_not_whitelisted task_curl d_path_ok whitelist_sshd 0
               tcp_sock PROTO_TCP ACTION_CONNECT)) = 1%nat.
Proof.
  apply (log_if_not_whitelisted_emission task_curl d_path_ok whitelist_sshd 0
           tcp_sock PROTO_TCP ACTION_CONNECT).
  exists "/usr/bin/curl"%string. split; reflexivity.
Defined.

(** C9: an [AF_UNIX] socket reaches the gate and the sink with NULL
    addresses. *)
Lemma unrecognized_family_forwarded_witness :
  log_if_not_whitelisted task_curl d_path_ok whitelist_sshd 0
    unix_sock PROTO_TCP ACTION_CLOSE
  = [IsWhitelisted "/usr/bin/curl" 1 None 0;
     StoreNetlogRecord "/usr/bin/curl" ACTION_CLOSE PROTO_TCP 1 None 0 None 0].
Proof.
  apply (unrecognized_family_forwarded task_curl d_path_ok whitelist_sshd 0
           unix_sock PROTO_TCP ACTION_CLOSE "/usr/bin/curl").
  - vm_compute. discriminate.
  - vm_compute. discriminate.
  - reflexivity.
Defined.

(** C10: enabling TCP_CLOSE a second time changes nothing. *)
Lemma one_probe_toggle_idempotent_witness :
  one_probe_param_set kprobes_accept_all kstrtoul_digits 63 (-3)
    (Some (probe_entry tcp_close)) "1"
    (run kprobes_accept_all kstrtoul_digits 63 (-3)
       [ReqOneProbe tcp_close "1"] registry_boot)
  = (0, run kprobes_accept_all kstrtoul_digits 63 (-3)
          [ReqOneProbe tcp_close "1"] registry_boot).
Proof.
  apply (one_probe_toggle_idempotent kprobes_accept_all kstrtoul_digits 63 (-3)
           [ReqOneProbe tcp_close "1"] tcp_close "1" 0 1).
  - reflexivity.
  - lia.
  - left. split; [vm_compute; discriminate | reflexivity].
Defined.

(** X2: a buffer that does not parse leaves the boot registry as it was. *)
Lemma setters_reject_bad_input_witness :
  all_probes_param_set kprobes_accept_all kstrtoul_digits 63 (-3) "x" registry_boot
  = (-22, registry_boot).
Proof.
  apply (proj2 (proj2 (setters_reject_bad_input kprobes_accept_all kstrtoul_digits
                         63 (-3) "x" registry_boot))).
  reflexivity.
Defined.

(** X3: bit 6 names no probe kind. *)
Lemma plant_probes_ignores_unknown_bits_witness :
  plant_probes kprobes_accept_all (-3) 64 registry_boot = (0, registry_boot).
Proof.
  apply (proj2 (plant_probes_ignores_unknown_bits kprobes_accept_all (-3) 64
                  registry_boot)).
  reflexivity.
Defined.

(** X5: writing 0 to [udp_close] while TCP_CLOSE is loaded. *)
Lemma one_probe_param_set_outcome_witness :
  fst (one_probe_param_set kprobes_accept_all kstrtoul_digits 63 (-3)
         (Some (probe_entry udp_close)) "0"
         (run kprobes_accept_all kstrtoul_digits 63 (-3)
            [ReqOneProbe tcp_close "1"] registry_boot)) = 0
  /\ one_probe_param_get (probe_entry udp_close)
       (snd (one_probe_param_set kprobes_accept_all kstrtoul_digits 63 (-3)
               (Some (probe_entry udp_close)) "0"
               (run kprobes_accept_all kstrtoul_digits 63 (-3)
                  [ReqOneProbe tcp_close "1"] registry_boot))) = 0.
Proof.
  assert (Hret : 0 <= 0) by lia.
  destruct (one_probe_param_set_outcome kprobes_accept_all kstrtoul_digits 63 (-3)
              [ReqOneProbe tcp_close "1"] udp_close "0" 0 0 eq_refl Hret)
    as (_ & H & _).
  apply H. reflexivity.
Defined.

(** X7: with 5 loaded, writing 6 keeps TCP_CLOSE, which both masks hold. *)
Lemma reconcile_loads_only_wanted_witness :
  Z.testbit
    (loaded_probes
       (snd (all_probes_param_set kprobes_accept_all kstrtoul_digits 63 (-3) "6"
               (run kprobes_accept_all kstrtoul_digits 63 (-3)
                  [ReqAllProbes "5"] registry_boot))))
    PROBE_TCP_CLOSE = true.
Proof.
  assert (Hret : 0 <= 0) by lia.
  destruct (reconcile_loads_only_wanted kprobes_accept_all kstrtoul_digits 63 (-3)
              [ReqAllProbes "5"] "6" 0 6 PROBE_TCP_CLOSE eq_refl Hret)
    as (_ & H).
  apply H; reflexivity.
Defined.

(** X8: going from 5 to 6 leaves the close hook alone. *)
Lemma reconcile_touches_only_the_delta_witness :
  plants close_jprobe
    (issued
       (run kprobes_accept_all kstrtoul_digits 63 (-3) [ReqAllProbes "5"] registry_boot)
       (snd (all_probes_param_set kprobes_accept_all kstrtoul_digits 63 (-3) "6"
               (run kprobes_accept_all kstrtoul_digits 63 (-3)
                  [ReqAllProbes "5"] registry_boot)))) = 0%nat
  /\ unplants close_jprobe
       (issued
          (run kprobes_accept_all kstrtoul_digits 63 (-3) [ReqAllProbes "5"] registry_boot)
          (snd (all_probes_param_set kprobes_accept_all kstrtoul_digits 63 (-3) "6"
                  (run kprobes_accept_all kstrtoul_digits 63 (-3)
                     [ReqAllProbes "5"] registry_boot)))) = 0%nat.
Proof.
  assert (Hret : 0 <= 0) by lia.
  destruct (reconcile_touches_only_the_delta kprobes_accept_all kstrtoul_digits 63 (-3)
              [ReqAllProbes "5"] "6" 0 6 close_jprobe eq_refl Hret)
    as (H & _).
  apply H. reflexivity.
Defined.

(** X12: a kernel thread has no [mm]; its close of the TCP socket is not
    logged. *)
Lemma unresolvable_path_is_silent_witness :
  stored (fire (Some {| mm := None |}) d_path_ok whitelist_sshd sockfd_lookup_tcp3 0
            true (fun _ => {| sk := Some tcp_sock |})
            (FireClose registry_both_close 3)) = []
  /\ filter is_gate
       (fire (Some {| mm := None |}) d_path_ok whitelist_sshd sockfd_lookup_tcp3 0
          true (fun _ => {| sk := Some tcp_sock |})
          (FireClose registry_both_close 3)) = [].
Proof.
  apply (proj2 (unresolvable_path_is_silent (Some {| mm := None |}) d_path_ok
                  whitelist_sshd sockfd_lookup_tcp3 0
                  true (fun _ => {| sk := Some tcp_sock |})
                  {| mm := None |} eq_refl)).
  reflexivity.
Defined.

(** X13: with a gate that whitelists everything, the close of the TCP
    socket is not logged. *)
Lemma whitelisted_process_is_silent_witness :
  stored (fire task_curl d_path_ok (fun _ _ _ _ => WHITELISTED) sockfd_lookup_tcp3 0
            true (fun _ => {| sk := Some tcp_sock |})
            (FireClose registry_both_close 3)) = [].
Proof.
  apply (whitelisted_process_is_silent task_curl d_path_ok (fun _ _ _ _ => WHITELISTED)
           sockfd_lookup_tcp3 0 true (fun _ => {| sk := Some tcp_sock |})
           "/usr/bin/curl").
  - reflexivity.
  - intros _ _ _. vm_compute. discriminate.
Defined.

(** X14: the close of the TCP socket, whose ports are 80 and 4096. *)
Lemma close_record_has_live_port_witness :
  forallb live_port
    (snd (pre_sys_close task_curl d_path_ok whitelist_sshd sockfd_lookup_tcp3 0
            registry_both_close 3)) = true.
Proof.
  apply (close_record_has_live_port task_curl d_path_ok whitelist_sshd
           sockfd_lookup_tcp3 0 registry_both_close 3).
  intros so k Hso Hsk. vm_compute in Hso. injection Hso as <-.
  cbn [sk] in Hsk. injection Hsk as <-.
  unfold is_be16, tcp_sock. cbn [DPORT SPORT]. change (2 ^ 16) with 65536. lia.
Defined.

